(** * Cuentas de movilidad: the domain model of [app.cuentas.domain]

    A shallow embedding of the [Cuenta] aggregate, of the [Traslado],
    [Radicacion] and [Novedad] entities and of the value objects and
    enumerations they use, followed by the properties of the specification.

    Conventions of the embedding.
    - A Python [str] is a [string] holding its UTF-8 bytes.  [len] counts
      code points ([py_len]); [strip], [upper] and [lower] act on the ASCII
      range and leave bytes above 127 as they are.
    - A [date] is its proleptic ordinal, a [Z].  [date.today()] and
      [datetime.now()] are read from an explicit clock, [Reloj].
    - A method that mutates [self] and may raise is a function to [efecto]:
      [Hecho s] is a normal return that leaves the entity as [s], and
      [Fallo s msg] is an exception that leaves the entity as [s], which is
      the state reached when the exception left the method.
    - A constructor or a pure function that may raise returns [resultado]. *)

From Stdlib Require Import ZArith List String Ascii Bool Lia.
Import ListNotations.
Open Scope string_scope.
Open Scope Z_scope.

(** ** Results and effects *)

Inductive resultado (A : Type) : Type :=
| Ok (a : A)
| Error (msg : string).
Arguments Ok {A} a.
Arguments Error {A} msg.

Inductive efecto (S : Type) : Type :=
| Hecho (s : S)
| Fallo (s : S) (msg : string).
Arguments Hecho {S} s.
Arguments Fallo {S} s msg.

Definition estado_tras {S : Type} (e : efecto S) : S :=
  match e with Hecho s => s | Fallo s _ => s end.

Definition exitoso {S : Type} (e : efecto S) : bool :=
  match e with Hecho _ => true | Fallo _ _ => false end.

Definition es_ok {A : Type} (r : resultado A) : bool :=
  match r with Ok _ => true | Error _ => false end.

(** ** Python strings *)

Module PyStr.

Definition codigo (c : ascii) : Z := Z.of_nat (nat_of_ascii c).

Definition entre (lo hi : Z) (c : ascii) : bool :=
  (lo <=? codigo c) && (codigo c <=? hi).

(** [str.isspace] on the code points below 128. *)
Definition es_espacio (c : ascii) : bool :=
  entre 9 13 c || entre 28 32 c.

Definition es_digito (c : ascii) : bool := entre 48 57 c.
Definition es_minuscula (c : ascii) : bool := entre 97 122 c.
Definition es_mayuscula (c : ascii) : bool := entre 65 90 c.

Definition mayus (c : ascii) : ascii :=
  if es_minuscula c then ascii_of_nat (nat_of_ascii c - 32) else c.

Definition minus (c : ascii) : ascii :=
  if es_mayuscula c then ascii_of_nat (nat_of_ascii c + 32) else c.

Fixpoint mapa (f : ascii -> ascii) (s : string) : string :=
  match s with
  | EmptyString => EmptyString
  | String c r => String (f c) (mapa f r)
  end.

Definition upper (s : string) : string := mapa mayus s.
Definition lower (s : string) : string := mapa minus s.

Fixpoint lstrip (s : string) : string :=
  match s with
  | EmptyString => EmptyString
  | String c r => if es_espacio c then lstrip r else s
  end.

Fixpoint rstrip (s : string) : string :=
  match s with
  | EmptyString => EmptyString
  | String c r =>
      match rstrip r with
      | EmptyString => if es_espacio c then EmptyString else String c EmptyString
      | r' => String c r'
      end
  end.

Definition strip (s : string) : string := rstrip (lstrip s).

(** Truth value of a string: [bool(s)]. *)
Definition no_vacio (s : string) : bool :=
  match s with EmptyString => false | String _ _ => true end.

(** A byte that starts a code point: every byte but the continuation
    bytes [10xxxxxx] of UTF-8. *)
Definition inicia_punto (c : ascii) : bool := negb (entre 128 191 c).

Fixpoint py_len (s : string) : Z :=
  match s with
  | EmptyString => 0
  | String c r => (if inicia_punto c then 1 else 0) + py_len r
  end.

Fixpoint empieza_con (p s : string) : bool :=
  match p, s with
  | EmptyString, _ => true
  | String a p', String b s' => Ascii.eqb a b && empieza_con p' s'
  | String _ _, EmptyString => false
  end.

(** [p in s]. *)
Fixpoint contiene (p s : string) : bool :=
  empieza_con p s ||
  match s with
  | EmptyString => false
  | String _ r => contiene p r
  end.

Fixpoint quitar (n : nat) (s : string) : string :=
  match n, s with
  | O, _ => s
  | S n', String _ r => quitar n' r
  | S _, EmptyString => EmptyString
  end.

(** [s.replace(viejo, nuevo)] for a non-empty [viejo]; [fuel] bounds the
    scan and [length s] is enough. *)
Fixpoint reemplazar_aux (fuel : nat) (viejo nuevo s : string) : string :=
  match fuel with
  | O => s
  | S k =>
      match s with
      | EmptyString => EmptyString
      | String c r =>
          if empieza_con viejo s
          then nuevo ++ reemplazar_aux k viejo nuevo (quitar (String.length viejo) s)
          else String c (reemplazar_aux k viejo nuevo r)
      end
  end.

Definition reemplazar (viejo nuevo s : string) : string :=
  reemplazar_aux (String.length s) viejo nuevo s.

Fixpoint repetir (c : ascii) (n : nat) : string :=
  match n with
  | O => EmptyString
  | S k => String c (repetir c k)
  end.

(** [sep.join(l)]. *)
Fixpoint unir (sep : string) (l : list string) : string :=
  match l with
  | [] => EmptyString
  | [x] => x
  | x :: r => x ++ sep ++ unir sep r
  end.

End PyStr.

Definition LF : string := String (ascii_of_nat 10) EmptyString.

(** ** The clock *)

(** [hoy] is [date.today()] as an ordinal, [hoy_yyyymmdd] the same day as
    [strftime("%Y%m%d")] prints it, and [marca] what
    [datetime.now().strftime("%d/%m/%Y %H:%M")] prints. *)
Record Reloj : Type := {
  hoy : Z;
  hoy_yyyymmdd : string;
  marca : string
}.

(** ** Enumerations *)

Inductive EstadoCuenta : Type :=
| ACTIVA | INACTIVA | EN_TRASLADO | EN_RADICACION.

Definition EstadoCuenta_eqb (a b : EstadoCuenta) : bool :=
  match a, b with
  | ACTIVA, ACTIVA | INACTIVA, INACTIVA
  | EN_TRASLADO, EN_TRASLADO | EN_RADICACION, EN_RADICACION => true
  | _, _ => false
  end.

Module TipoProcesoAnterior.

Inductive t : Type :=
| NINGUNO
| TRASLADO_COMPLETADO
| TRASLADO_DEVUELTO
| RADICACION_COMPLETADA
| RADICACION_DEVUELTA.

Definition eqb (a b : t) : bool :=
  match a, b with
  | NINGUNO, NINGUNO
  | TRASLADO_COMPLETADO, TRASLADO_COMPLETADO
  | TRASLADO_DEVUELTO, TRASLADO_DEVUELTO
  | RADICACION_COMPLETADA, RADICACION_COMPLETADA
  | RADICACION_DEVUELTA, RADICACION_DEVUELTA => true
  | _, _ => false
  end.

(** [self in [...]] *)
Definition en (x : t) (l : list t) : bool := existsb (eqb x) l.

Definition permite_traslado (self : t) : bool :=
  en self [NINGUNO; RADICACION_COMPLETADA; TRASLADO_DEVUELTO; RADICACION_DEVUELTA].

Definition permite_radicacion (self : t) : bool :=
  en self [NINGUNO; TRASLADO_COMPLETADO; TRASLADO_DEVUELTO; RADICACION_DEVUELTA].

Definition get_descripcion (self : t) : string :=
  match self with
  | NINGUNO => "Sin procesos anteriores"
  | TRASLADO_COMPLETADO => "Traslado completado exitosamente"
  | TRASLADO_DEVUELTO => "Traslado devuelto por administración"
  | RADICACION_COMPLETADA => "Radicación completada exitosamente"
  | RADICACION_DEVUELTA => "Radicación devuelta por administración"
  end.

Definition es_completado_exitosamente (self : t) : bool :=
  en self [TRASLADO_COMPLETADO; RADICACION_COMPLETADA].

Definition es_devuelto (self : t) : bool :=
  en self [TRASLADO_DEVUELTO; RADICACION_DEVUELTA].

Definition get_proceso_contrario_permitido (self : t) : string :=
  if eqb self TRASLADO_COMPLETADO then "radicacion"
  else if eqb self RADICACION_COMPLETADA then "traslado"
  else if es_devuelto self || eqb self NINGUNO then "ambos"
  else "ninguno".

End TipoProcesoAnterior.

Module EstadoTraslado.

Inductive t : Type :=
| ENVIADO_ORGANISMO_DESTINO | REVISADO | CON_NOVEDADES | TRASLADADO | DEVUELTO.

Definition eqb (a b : t) : bool :=
  match a, b with
  | ENVIADO_ORGANISMO_DESTINO, ENVIADO_ORGANISMO_DESTINO
  | REVISADO, REVISADO | CON_NOVEDADES, CON_NOVEDADES
  | TRASLADADO, TRASLADADO | DEVUELTO, DEVUELTO => true
  | _, _ => false
  end.

Definition en (x : t) (l : list t) : bool := existsb (eqb x) l.

Definition value (self : t) : string :=
  match self with
  | ENVIADO_ORGANISMO_DESTINO => "enviado_organismo_destino"
  | REVISADO => "revisado"
  | CON_NOVEDADES => "con_novedades"
  | TRASLADADO => "trasladado"
  | DEVUELTO => "devuelto"
  end.

Definition _get_transiciones_permitidas (self : t) : list t :=
  match self with
  | ENVIADO_ORGANISMO_DESTINO => [REVISADO]
  | REVISADO => [TRASLADADO; CON_NOVEDADES]
  | CON_NOVEDADES => [REVISADO]
  | TRASLADADO => []
  | DEVUELTO => []
  end.

Definition puede_transicionar_a (self nuevo_estado : t) (es_admin : bool) : bool :=
  if es_admin && eqb nuevo_estado DEVUELTO then true
  else en nuevo_estado (_get_transiciones_permitidas self).

Definition es_estado_final (self : t) : bool := en self [TRASLADADO; DEVUELTO].

End EstadoTraslado.

Module EstadoRadicacion.

Inductive t : Type :=
| PENDIENTE_RADICAR | RECIBIDO | REVISADO | CON_NOVEDADES | RADICADO | DEVUELTO.

Definition eqb (a b : t) : bool :=
  match a, b with
  | PENDIENTE_RADICAR, PENDIENTE_RADICAR | RECIBIDO, RECIBIDO
  | REVISADO, REVISADO | CON_NOVEDADES, CON_NOVEDADES
  | RADICADO, RADICADO | DEVUELTO, DEVUELTO => true
  | _, _ => false
  end.

Definition en (x : t) (l : list t) : bool := existsb (eqb x) l.

Definition value (self : t) : string :=
  match self with
  | PENDIENTE_RADICAR => "pendiente_radicar"
  | RECIBIDO => "recibido"
  | REVISADO => "revisado"
  | CON_NOVEDADES => "con_novedades"
  | RADICADO => "radicado"
  | DEVUELTO => "devuelto"
  end.

Definition _get_transiciones_permitidas (self : t) : list t :=
  match self with
  | PENDIENTE_RADICAR => [RECIBIDO]
  | RECIBIDO => [REVISADO]
  | REVISADO => [RADICADO; CON_NOVEDADES]
  | CON_NOVEDADES => [REVISADO]
  | RADICADO => []
  | DEVUELTO => []
  end.

Definition puede_transicionar_a (self nuevo_estado : t) (es_admin : bool) : bool :=
  if es_admin && eqb nuevo_estado DEVUELTO then true
  else en nuevo_estado (_get_transiciones_permitidas self).

Definition es_estado_final (self : t) : bool := en self [RADICADO; DEVUELTO].

End EstadoRadicacion.

Module EstadoNovedad.

Inductive t : Type :=
| PENDIENTE | EN_REVISION | RESUELTA | REABIERTA.

Definition eqb (a b : t) : bool :=
  match a, b with
  | PENDIENTE, PENDIENTE | EN_REVISION, EN_REVISION
  | RESUELTA, RESUELTA | REABIERTA, REABIERTA => true
  | _, _ => false
  end.

Definition en (x : t) (l : list t) : bool := existsb (eqb x) l.

Definition value (self : t) : string :=
  match self with
  | PENDIENTE => "pendiente"
  | EN_REVISION => "en_revision"
  | RESUELTA => "resuelta"
  | REABIERTA => "reabierta"
  end.

Definition _get_transiciones_permitidas (self : t) : list t :=
  match self with
  | PENDIENTE => [EN_REVISION; RESUELTA]
  | EN_REVISION => [RESUELTA; PENDIENTE]
  | RESUELTA => [REABIERTA]
  | REABIERTA => [EN_REVISION; RESUELTA]
  end.

Definition puede_transicionar_a (self nuevo_estado : t) : bool :=
  en nuevo_estado (_get_transiciones_permitidas self).

Definition es_estado_final (self : t) : bool := eqb self RESUELTA.

Definition requiere_accion (self : t) : bool := en self [PENDIENTE; REABIERTA].

End EstadoNovedad.

Module PrioridadNovedad.

(** The four levels of the enumeration; [value] is the lower-case name the
    entity prints in upper case. *)
Inductive t : Type := BAJA | MEDIA | ALTA | CRITICA.

Definition eqb (a b : t) : bool :=
  match a, b with
  | BAJA, BAJA | MEDIA, MEDIA | ALTA, ALTA | CRITICA, CRITICA => true
  | _, _ => false
  end.

Definition value (self : t) : string :=
  match self with
  | BAJA => "baja" | MEDIA => "media" | ALTA => "alta" | CRITICA => "critica"
  end.

Definition orden (self : t) : Z :=
  match self with BAJA => 1 | MEDIA => 2 | ALTA => 3 | CRITICA => 4 end.

Definition es_mayor_que (self otra_prioridad : t) : bool :=
  orden self >? orden otra_prioridad.

Definition es_critica_o_alta (self : t) : bool :=
  eqb self ALTA || eqb self CRITICA.

End PrioridadNovedad.

(** ** HistorialAsignacion: one audit record *)

Module HistorialAsignacion.

Inductive TipoAsignacion : Type :=
| CREACION | REASIGNACION | INICIO_PROCESO | COMPLETAR_PROCESO
| DEVOLVER_PROCESO | INACTIVACION | REACTIVACION.

Definition TipoAsignacion_eqb (a b : TipoAsignacion) : bool :=
  match a, b with
  | CREACION, CREACION | REASIGNACION, REASIGNACION
  | INICIO_PROCESO, INICIO_PROCESO | COMPLETAR_PROCESO, COMPLETAR_PROCESO
  | DEVOLVER_PROCESO, DEVOLVER_PROCESO | INACTIVACION, INACTIVACION
  | REACTIVACION, REACTIVACION => true
  | _, _ => false
  end.

(** The record after [__post_init__]: the type of assignment is always set. *)
Record t : Type := {
  funcionario_id : string;
  fecha_asignacion : Z;
  motivo : string;
  funcionario_asigna : option string;
  tipo_asignacion : TipoAsignacion;
  observaciones : option string
}.

(** Truth value of an [Optional[str]]. *)
Definition dado (o : option string) : bool :=
  match o with Some s => PyStr.no_vacio s | None => false end.

Definition _detectar_tipo_asignacion (motivo : string) : TipoAsignacion :=
  let m0 := PyStr.lower motivo in
  let m1 := PyStr.reemplazar "á" "a" m0 in
  let m2 := PyStr.reemplazar "é" "e" m1 in
  let m3 := PyStr.reemplazar "í" "i" m2 in
  let m4 := PyStr.reemplazar "ó" "o" m3 in
  let m5 := PyStr.reemplazar "ú" "u" m4 in
  let motivo_lower := PyStr.reemplazar "ñ" "n" m5 in
  if PyStr.contiene "creacion" motivo_lower then CREACION
  else if PyStr.contiene "reasignacion" motivo_lower then REASIGNACION
  else if PyStr.contiene "inicio" motivo_lower then INICIO_PROCESO
  else if PyStr.contiene "completar" motivo_lower then COMPLETAR_PROCESO
  else if PyStr.contiene "devolver" motivo_lower then DEVOLVER_PROCESO
  else if PyStr.contiene "inactivar" motivo_lower then INACTIVACION
  else if PyStr.contiene "reactivar" motivo_lower then REACTIVACION
  else REASIGNACION.

(** The dataclass constructor followed by [__post_init__]. *)
Definition crear (r : Reloj) (funcionario_id : string) (fecha_asignacion : Z)
    (motivo : string) (funcionario_asigna : option string)
    (tipo_asignacion : option TipoAsignacion) (observaciones : option string)
  : resultado t :=
  let funcionario_normalizado :=
    if PyStr.no_vacio funcionario_id
    then PyStr.upper (PyStr.strip funcionario_id) else "" in
  let motivo_normalizado :=
    if PyStr.no_vacio motivo then PyStr.strip motivo else "" in
  let funcionario_asigna_normalizado :=
    match funcionario_asigna with
    | Some s => if PyStr.no_vacio s then Some (PyStr.upper (PyStr.strip s)) else None
    | None => None
    end in
  let observaciones_normalizadas :=
    match observaciones with
    | Some s => if PyStr.no_vacio s then Some (PyStr.strip s) else None
    | None => None
    end in
  if negb (PyStr.no_vacio funcionario_normalizado) then
    Error "El ID del funcionario no puede estar vacío"
  else if negb (PyStr.no_vacio motivo_normalizado) then
    Error "El motivo de asignación no puede estar vacío"
  else if PyStr.py_len motivo_normalizado >? 500 then
    Error "El motivo no puede exceder 500 caracteres"
  else if dado observaciones_normalizadas &&
          (match observaciones_normalizadas with
           | Some s => PyStr.py_len s >? 1000
           | None => false
           end) then
    Error "Las observaciones no pueden exceder 1000 caracteres"
  else if fecha_asignacion >? hoy r then
    Error "La fecha de asignación no puede ser futura"
  else
    Ok {| funcionario_id := funcionario_normalizado;
          fecha_asignacion := fecha_asignacion;
          motivo := motivo_normalizado;
          funcionario_asigna := funcionario_asigna_normalizado;
          tipo_asignacion :=
            match tipo_asignacion with
            | Some tp => tp
            | None => _detectar_tipo_asignacion motivo_normalizado
            end;
          observaciones := observaciones_normalizadas |}.

Definition es_asignacion_inicial (self : t) : bool :=
  TipoAsignacion_eqb (tipo_asignacion self) CREACION.

Definition crear_asignacion_inicial (r : Reloj) (funcionario_id : string)
    (fecha : Z) : resultado t :=
  crear r funcionario_id fecha "creacion" None (Some CREACION) None.

Definition crear_reasignacion_manual (r : Reloj) (funcionario_id : string)
    (funcionario_asigna : string) (motivo : string)
    (observaciones : option string) : resultado t :=
  crear r funcionario_id (hoy r) motivo (Some funcionario_asigna)
        (Some REASIGNACION) observaciones.

Definition crear_cambio_proceso (r : Reloj) (funcionario_id : string)
    (tipo_proceso : string) (accion : string)
    (motivo_adicional : option string) : resultado t :=
  let motivo_base := accion ++ "_" ++ tipo_proceso in
  let motivo :=
    match motivo_adicional with
    | Some m => if PyStr.no_vacio m then motivo_base ++ ": " ++ m else motivo_base
    | None => motivo_base
    end in
  let tipo_asignacion :=
    if String.eqb accion "inicio" then INICIO_PROCESO
    else if String.eqb accion "completar" then COMPLETAR_PROCESO
    else if String.eqb accion "devolver" then DEVOLVER_PROCESO
    else REASIGNACION in
  crear r funcionario_id (hoy r) motivo None (Some tipo_asignacion)
        motivo_adicional.

Definition crear_inactivacion (r : Reloj) (funcionario_id : string)
    (motivo : string) : resultado t :=
  crear r funcionario_id (hoy r) ("inactivar: " ++ motivo) None
        (Some INACTIVACION) (Some motivo).

Definition crear_reactivacion (r : Reloj) (funcionario_id : string)
  : resultado t :=
  crear r funcionario_id (hoy r) "reactivar" None (Some REACTIVACION) None.


(** [TipoAsignacion(valor)]: the member with that value, when there is one. *)
Definition TipoAsignacion_de_valor (valor : string) : option TipoAsignacion :=
  if String.eqb valor "creacion" then Some CREACION
  else if String.eqb valor "reasignacion" then Some REASIGNACION
  else if String.eqb valor "inicio_proceso" then Some INICIO_PROCESO
  else if String.eqb valor "completar_proceso" then Some COMPLETAR_PROCESO
  else if String.eqb valor "devolver_proceso" then Some DEVOLVER_PROCESO
  else if String.eqb valor "inactivacion" then Some INACTIVACION
  else if String.eqb valor "reactivacion" then Some REACTIVACION
  else None.

End HistorialAsignacion.

(** ** Domain events *)

(** The event classes of [cuenta_events].  [event_id] (a fresh UUID) and
    [timestamp] are drawn from the environment when an event is built and no
    method of the entities reads them; the records below carry the
    remaining fields, [version] being the constant 1. *)
Inductive DomainEvent : Type :=
| CuentaCreadaEvent
    (aggregate_id placa numero_cuenta tipo_servicio funcionario_creador : string)
| ProcesoIniciadoEvent
    (aggregate_id placa tipo_proceso funcionario numero_cuenta : string)
| ProcesoCompletadoEvent
    (aggregate_id placa tipo_proceso funcionario numero_cuenta resultado_ : string)
    (motivo_devolucion : option string)
| CuentaReasignadaEvent
    (aggregate_id placa funcionario_anterior funcionario_nuevo : string)
    (funcionario_autoriza : option string) (motivo : string)
| CuentaInactivadaEvent (aggregate_id placa funcionario motivo : string)
| CuentaReactivadaEvent (aggregate_id placa funcionario : string).

Definition CuentaCreadaEvent_create (placa numero_cuenta tipo_servicio
    funcionario_creador : string) : DomainEvent :=
  CuentaCreadaEvent placa placa numero_cuenta tipo_servicio funcionario_creador.

Definition ProcesoIniciadoEvent_create (placa tipo_proceso funcionario
    numero_cuenta : string) : DomainEvent :=
  ProcesoIniciadoEvent placa placa tipo_proceso funcionario numero_cuenta.

Definition ProcesoCompletadoEvent_create (placa tipo_proceso funcionario
    numero_cuenta resultado_ : string) (motivo_devolucion : option string)
  : DomainEvent :=
  ProcesoCompletadoEvent placa placa tipo_proceso funcionario numero_cuenta
                         resultado_ motivo_devolucion.

Definition CuentaReasignadaEvent_create (placa funcionario_anterior
    funcionario_nuevo : string) (funcionario_autoriza : option string)
    (motivo : string) : DomainEvent :=
  CuentaReasignadaEvent placa placa funcionario_anterior funcionario_nuevo
                        funcionario_autoriza motivo.

Definition CuentaInactivadaEvent_create (placa funcionario motivo : string)
  : DomainEvent :=
  CuentaInactivadaEvent placa placa funcionario motivo.

Definition CuentaReactivadaEvent_create (placa funcionario : string)
  : DomainEvent :=
  CuentaReactivadaEvent placa placa funcionario.

(** ** Value objects of the account *)

(** The plate, as the entity receives it: an instance already built and
    normalised by its own class; [str(placa)] is [valor]. *)
Module Placa.
Record t : Type := { valor : string }.
Definition str (self : t) : string := valor self.
End Placa.

(** Modelled from the spec: the module [tipo_servicio] of the enumerations
    is not among the sources; its members and their values are the ones the
    tests of the enumerations assert. *)
Module TipoServicio.
Inductive t : Type := PARTICULAR | OFICIAL | ESPECIAL | SERVICIO_PUBLICO.
Definition value (self : t) : string :=
  match self with
  | PARTICULAR => "particular"
  | OFICIAL => "oficial"
  | ESPECIAL => "especial"
  | SERVICIO_PUBLICO => "servicio_publico"
  end.
End TipoServicio.

(** The Gregorian calendar of [datetime.date]. *)
Module Calendario.

Definition es_bisiesto (y : Z) : bool :=
  (y mod 4 =? 0) && (negb (y mod 100 =? 0) || (y mod 400 =? 0)).

Definition dias_en_mes (y m : Z) : Z :=
  if m =? 2 then (if es_bisiesto y then 29 else 28)
  else if (m =? 4) || (m =? 6) || (m =? 9) || (m =? 11) then 30
  else 31.

Definition dias_antes_del_anio (year : Z) : Z :=
  let y := year - 1 in y * 365 + y / 4 - y / 100 + y / 400.

Fixpoint dias_antes_del_mes_aux (y : Z) (k : nat) : Z :=
  match k with
  | O => 0
  | S k' => dias_antes_del_mes_aux y k' + dias_en_mes y (Z.of_nat k)
  end.

Definition dias_antes_del_mes (y m : Z) : Z :=
  dias_antes_del_mes_aux y (Z.to_nat (m - 1)).

(** [date(y, m, d)] accepts exactly these. *)
Definition fecha_existe (y m d : Z) : bool :=
  (1 <=? y) && (y <=? 9999) && (1 <=? m) && (m <=? 12) &&
  (1 <=? d) && (d <=? dias_en_mes y m).

(** [date(y, m, d).toordinal()]. *)
Definition ordinal (y m d : Z) : Z :=
  dias_antes_del_anio y + dias_antes_del_mes y m + d.

End Calendario.

Module NumeroCuenta.

Record t : Type := { valor : string }.

Definition str (self : t) : string := valor self.

Fixpoint solo_digitos (s : string) : string :=
  match s with
  | EmptyString => EmptyString
  | String c r =>
      if PyStr.es_digito c then String c (solo_digitos r) else solo_digitos r
  end.

Fixpoint a_entero_aux (acc : Z) (s : string) : Z :=
  match s with
  | EmptyString => acc
  | String c r => a_entero_aux (acc * 10 + (PyStr.codigo c - 48)) r
  end.

(** [int(s)] on a string of decimal digits. *)
Definition a_entero (s : string) : Z := a_entero_aux 0 s.

Definition _es_formato_valido (numero : string) : bool :=
  (String.length numero =? 13)%nat.

Definition _es_fecha_valida (numero : string) : bool :=
  let year := a_entero (substring 0 4 numero) in
  let month := a_entero (substring 4 2 numero) in
  let day := a_entero (substring 6 2 numero) in
  if (year <? 1900) || (year >? 2100) then false
  else Calendario.fecha_existe year month day.

Definition _es_consecutivo_valido (numero : string) : bool :=
  let consecutivo := a_entero (substring 8 5 numero) in
  (1 <=? consecutivo) && (consecutivo <=? 99999).

Definition get_fecha_de (numero : string) : Z :=
  Calendario.ordinal (a_entero (substring 0 4 numero))
                     (a_entero (substring 4 2 numero))
                     (a_entero (substring 6 2 numero)).

Definition crear (r : Reloj) (valor : string) : resultado t :=
  if negb (PyStr.no_vacio valor) then
    Error "El número de cuenta no puede estar vacío"
  else
    let normalizado := solo_digitos valor in
    if negb (_es_formato_valido normalizado) then
      Error "Formato de número de cuenta inválido"
    else if negb (_es_fecha_valida normalizado) then
      Error "La fecha en el número de cuenta es inválida"
    else if negb (_es_consecutivo_valido normalizado) then
      Error "El consecutivo en el número de cuenta es inválido"
    else if get_fecha_de normalizado >? hoy r then
      Error "La fecha del número de cuenta no puede ser futura"
    else Ok {| valor := normalizado |}.

Definition digito (n : Z) : ascii := ascii_of_nat (Z.to_nat (48 + n mod 10)).

(** [f"{consecutivo:05d}"] for a number between 1 and 99999. *)
Definition cinco_digitos (n : Z) : string :=
  String (digito (n / 10000)) (String (digito (n / 1000))
    (String (digito (n / 100)) (String (digito (n / 10))
      (String (digito n) EmptyString)))).

Definition generar_para_hoy (r : Reloj) (consecutivo : Z) : resultado t :=
  if (consecutivo <? 1) || (consecutivo >? 99999) then
    Error "El consecutivo debe ser un entero entre 1 y 99999"
  else
    crear r (hoy_yyyymmdd r ++ cinco_digitos consecutivo).


Definition get_fecha (self : t) : Z := get_fecha_de (valor self).

Definition get_consecutivo (self : t) : Z :=
  a_entero (substring 8 5 (valor self)).

End NumeroCuenta.

Module FechaCreacion.

Record t : Type := { fecha : Z }.

Definition crear (r : Reloj) (fecha : Z) : resultado t :=
  if fecha >? hoy r then Error "La fecha de creación no puede ser futura"
  else Ok {| fecha := fecha |}.

Definition crear_hoy (r : Reloj) : resultado t := crear r (hoy r).

End FechaCreacion.

(** ** Cuenta: the aggregate root *)

Module Cuenta.

Record t : Type := {
  placa : Placa.t;
  numero_cuenta : NumeroCuenta.t;
  tipo_servicio : TipoServicio.t;
  fecha_creacion : FechaCreacion.t;
  funcionario_creador : string;
  estado : EstadoCuenta;
  historial_asignaciones : list HistorialAsignacion.t;
  _domain_events : list DomainEvent;
  _tipo_proceso_anterior : TipoProcesoAnterior.t;
  _proceso_traslado_activo : bool;
  _proceso_radicacion_activo : bool;
  _initialized : bool
}.

(** Assignments to one attribute of [self]. *)
Definition con_estado (e : EstadoCuenta) (c : t) : t :=
  {| placa := placa c; numero_cuenta := numero_cuenta c;
     tipo_servicio := tipo_servicio c; fecha_creacion := fecha_creacion c;
     funcionario_creador := funcionario_creador c; estado := e;
     historial_asignaciones := historial_asignaciones c;
     _domain_events := _domain_events c;
     _tipo_proceso_anterior := _tipo_proceso_anterior c;
     _proceso_traslado_activo := _proceso_traslado_activo c;
     _proceso_radicacion_activo := _proceso_radicacion_activo c;
     _initialized := _initialized c |}.

Definition con_historial (h : list HistorialAsignacion.t) (c : t) : t :=
  {| placa := placa c; numero_cuenta := numero_cuenta c;
     tipo_servicio := tipo_servicio c; fecha_creacion := fecha_creacion c;
     funcionario_creador := funcionario_creador c; estado := estado c;
     historial_asignaciones := h;
     _domain_events := _domain_events c;
     _tipo_proceso_anterior := _tipo_proceso_anterior c;
     _proceso_traslado_activo := _proceso_traslado_activo c;
     _proceso_radicacion_activo := _proceso_radicacion_activo c;
     _initialized := _initialized c |}.

Definition con_eventos (l : list DomainEvent) (c : t) : t :=
  {| placa := placa c; numero_cuenta := numero_cuenta c;
     tipo_servicio := tipo_servicio c; fecha_creacion := fecha_creacion c;
     funcionario_creador := funcionario_creador c; estado := estado c;
     historial_asignaciones := historial_asignaciones c;
     _domain_events := l;
     _tipo_proceso_anterior := _tipo_proceso_anterior c;
     _proceso_traslado_activo := _proceso_traslado_activo c;
     _proceso_radicacion_activo := _proceso_radicacion_activo c;
     _initialized := _initialized c |}.

Definition con_tipo_anterior (p : TipoProcesoAnterior.t) (c : t) : t :=
  {| placa := placa c; numero_cuenta := numero_cuenta c;
     tipo_servicio := tipo_servicio c; fecha_creacion := fecha_creacion c;
     funcionario_creador := funcionario_creador c; estado := estado c;
     historial_asignaciones := historial_asignaciones c;
     _domain_events := _domain_events c;
     _tipo_proceso_anterior := p;
     _proceso_traslado_activo := _proceso_traslado_activo c;
     _proceso_radicacion_activo := _proceso_radicacion_activo c;
     _initialized := _initialized c |}.

Definition con_traslado_activo (b : bool) (c : t) : t :=
  {| placa := placa c; numero_cuenta := numero_cuenta c;
     tipo_servicio := tipo_servicio c; fecha_creacion := fecha_creacion c;
     funcionario_creador := funcionario_creador c; estado := estado c;
     historial_asignaciones := historial_asignaciones c;
     _domain_events := _domain_events c;
     _tipo_proceso_anterior := _tipo_proceso_anterior c;
     _proceso_traslado_activo := b;
     _proceso_radicacion_activo := _proceso_radicacion_activo c;
     _initialized := _initialized c |}.

Definition con_radicacion_activa (b : bool) (c : t) : t :=
  {| placa := placa c; numero_cuenta := numero_cuenta c;
     tipo_servicio := tipo_servicio c; fecha_creacion := fecha_creacion c;
     funcionario_creador := funcionario_creador c; estado := estado c;
     historial_asignaciones := historial_asignaciones c;
     _domain_events := _domain_events c;
     _tipo_proceso_anterior := _tipo_proceso_anterior c;
     _proceso_traslado_activo := _proceso_traslado_activo c;
     _proceso_radicacion_activo := b;
     _initialized := _initialized c |}.

(** [self.historial_asignaciones.append(a)] *)
Definition anexar_asignacion (a : HistorialAsignacion.t) (c : t) : t :=
  con_historial (historial_asignaciones c ++ [a]) c.

Definition _add_domain_event (event : DomainEvent) (c : t) : t :=
  con_eventos (_domain_events c ++ [event]) c.

(** Returns the pending events and leaves the buffer empty. *)
Definition get_domain_events (c : t) : list DomainEvent * t :=
  (_domain_events c, con_eventos [] c).

Definition _validar_funcionario_creador (funcionario_creador : string)
  : resultado unit :=
  if negb (PyStr.no_vacio funcionario_creador) ||
     negb (PyStr.no_vacio (PyStr.strip funcionario_creador))
  then Error "El funcionario creador no puede estar vacío"
  else Ok tt.

Definition _validar_coherencia_estado (c : t) : resultado unit :=
  if EstadoCuenta_eqb (estado c) EN_TRASLADO && negb (_proceso_traslado_activo c)
  then Error "Estado EN_TRASLADO requiere proceso de traslado activo"
  else if EstadoCuenta_eqb (estado c) EN_RADICACION &&
          negb (_proceso_radicacion_activo c)
  then Error "Estado EN_RADICACION requiere proceso de radicación activo"
  else if _proceso_traslado_activo c && _proceso_radicacion_activo c
  then Error "No puede tener ambos procesos activos simultáneamente"
  else if (EstadoCuenta_eqb (estado c) ACTIVA ||
           EstadoCuenta_eqb (estado c) INACTIVA) &&
          (_proceso_traslado_activo c || _proceso_radicacion_activo c)
  then Error "Estado ACTIVA/INACTIVA no debe tener procesos activos"
  else Ok tt.

(** *** Queries *)

Definition tipo_proceso_anterior (c : t) := _tipo_proceso_anterior c.
Definition proceso_traslado_activo (c : t) := _proceso_traslado_activo c.
Definition proceso_radicacion_activo (c : t) := _proceso_radicacion_activo c.

Definition get_funcionario_actual (c : t) : string :=
  match historial_asignaciones c with
  | [] => funcionario_creador c
  | a :: r => HistorialAsignacion.funcionario_id (last r a)
  end.

Definition tiene_proceso_activo (c : t) : bool :=
  _proceso_traslado_activo c || _proceso_radicacion_activo c.

Definition tiene_traslado_activo (c : t) : bool := _proceso_traslado_activo c.
Definition tiene_radicacion_activa (c : t) : bool := _proceso_radicacion_activo c.

Definition esta_activa (c : t) : bool := EstadoCuenta_eqb (estado c) ACTIVA.
Definition esta_inactiva (c : t) : bool := EstadoCuenta_eqb (estado c) INACTIVA.

Definition get_numero_asignaciones (c : t) : nat :=
  List.length (historial_asignaciones c).

Definition puede_iniciar_traslado (c : t) : bool :=
  if tiene_proceso_activo c || esta_inactiva c then false
  else TipoProcesoAnterior.permite_traslado (_tipo_proceso_anterior c).

Definition puede_iniciar_radicacion (c : t) : bool :=
  if tiene_proceso_activo c || esta_inactiva c then false
  else TipoProcesoAnterior.permite_radicacion (_tipo_proceso_anterior c).

Definition get_razon_no_puede_trasladar (c : t) : option string :=
  if puede_iniciar_traslado c then None
  else if tiene_proceso_activo c then
    if tiene_traslado_activo c
    then Some "Ya tiene un proceso de traslado activo"
    else Some "Ya tiene un proceso de radicación activo"
  else if esta_inactiva c then Some "La cuenta está inactiva"
  else if negb (TipoProcesoAnterior.permite_traslado (_tipo_proceso_anterior c)) then
    if TipoProcesoAnterior.eqb (_tipo_proceso_anterior c)
         TipoProcesoAnterior.TRASLADO_COMPLETADO
    then Some "Esta placa ya fue enviada a otro organismo, solo puede recibir radicaciones"
    else Some ("Proceso anterior (" ++
               TipoProcesoAnterior.get_descripcion (_tipo_proceso_anterior c) ++
               ") no permite traslados")
  else Some "No se puede determinar la razón".

Definition get_razon_no_puede_radicar (c : t) : option string :=
  if puede_iniciar_radicacion c then None
  else if tiene_proceso_activo c then
    if tiene_radicacion_activa c
    then Some "Ya tiene un proceso de radicación activo"
    else Some "Ya tiene un proceso de traslado activo"
  else if esta_inactiva c then Some "La cuenta está inactiva"
  else if negb (TipoProcesoAnterior.permite_radicacion (_tipo_proceso_anterior c)) then
    if TipoProcesoAnterior.eqb (_tipo_proceso_anterior c)
         TipoProcesoAnterior.RADICACION_COMPLETADA
    then Some "Esta placa ya llegó de otro organismo, solo puede enviar traslados"
    else Some ("Proceso anterior (" ++
               TipoProcesoAnterior.get_descripcion (_tipo_proceso_anterior c) ++
               ") no permite radicaciones")
  else Some "No se puede determinar la razón".

Definition get_procesos_permitidos (c : t) : list string :=
  (if puede_iniciar_traslado c then ["traslado"] else []) ++
  (if puede_iniciar_radicacion c then ["radicacion"] else []).

(** How an f-string prints an [Optional[str]]. *)
Definition formato_opcional (o : option string) : string :=
  match o with Some s => s | None => "None" end.

(** *** Commands

    Each follows the statements of the method in their order; an exception
    raised by the construction of the audit record leaves the attributes
    assigned before it. *)

Definition iniciar_proceso_traslado (r : Reloj) (self : t)
    (funcionario_id : string) : efecto t :=
  if negb (puede_iniciar_traslado self) then
    Fallo self ("No se puede iniciar traslado: " ++
                formato_opcional (get_razon_no_puede_trasladar self))
  else
    let s1 := con_traslado_activo true self in
    let s2 := con_estado EN_TRASLADO s1 in
    match HistorialAsignacion.crear_cambio_proceso r funcionario_id
            "traslado" "inicio" None with
    | Error msg => Fallo s2 msg
    | Ok asignacion =>
        let s3 := anexar_asignacion asignacion s2 in
        Hecho (_add_domain_event
                 (ProcesoIniciadoEvent_create (Placa.str (placa s3)) "traslado"
                    funcionario_id (NumeroCuenta.str (numero_cuenta s3))) s3)
    end.

Definition iniciar_proceso_radicacion (r : Reloj) (self : t)
    (funcionario_id : string) : efecto t :=
  if negb (puede_iniciar_radicacion self) then
    Fallo self ("No se puede iniciar radicación: " ++
                formato_opcional (get_razon_no_puede_radicar self))
  else
    let s1 := con_radicacion_activa true self in
    let s2 := con_estado EN_RADICACION s1 in
    match HistorialAsignacion.crear_cambio_proceso r funcionario_id
            "radicacion" "inicio" None with
    | Error msg => Fallo s2 msg
    | Ok asignacion =>
        let s3 := anexar_asignacion asignacion s2 in
        Hecho (_add_domain_event
                 (ProcesoIniciadoEvent_create (Placa.str (placa s3)) "radicacion"
                    funcionario_id (NumeroCuenta.str (numero_cuenta s3))) s3)
    end.

Definition completar_proceso_traslado (r : Reloj) (self : t)
    (funcionario_id : string) : efecto t :=
  if negb (tiene_traslado_activo self) then
    Fallo self "No hay proceso de traslado activo para completar"
  else
    let s1 := con_traslado_activo false self in
    let s2 := con_tipo_anterior TipoProcesoAnterior.TRASLADO_COMPLETADO s1 in
    let s3 := con_estado ACTIVA s2 in
    match HistorialAsignacion.crear_cambio_proceso r funcionario_id
            "traslado" "completar" None with
    | Error msg => Fallo s3 msg
    | Ok asignacion =>
        let s4 := anexar_asignacion asignacion s3 in
        Hecho (_add_domain_event
                 (ProcesoCompletadoEvent_create (Placa.str (placa s4)) "traslado"
                    funcionario_id (NumeroCuenta.str (numero_cuenta s4))
                    "completado" None) s4)
    end.

Definition completar_proceso_radicacion (r : Reloj) (self : t)
    (funcionario_id : string) : efecto t :=
  if negb (tiene_radicacion_activa self) then
    Fallo self "No hay proceso de radicación activo para completar"
  else
    let s1 := con_radicacion_activa false self in
    let s2 := con_tipo_anterior TipoProcesoAnterior.RADICACION_COMPLETADA s1 in
    let s3 := con_estado ACTIVA s2 in
    match HistorialAsignacion.crear_cambio_proceso r funcionario_id
            "radicacion" "completar" None with
    | Error msg => Fallo s3 msg
    | Ok asignacion =>
        let s4 := anexar_asignacion asignacion s3 in
        Hecho (_add_domain_event
                 (ProcesoCompletadoEvent_create (Placa.str (placa s4)) "radicacion"
                    funcionario_id (NumeroCuenta.str (numero_cuenta s4))
                    "completado" None) s4)
    end.

Definition devolver_proceso_traslado (r : Reloj) (self : t)
    (funcionario_id motivo : string) : efecto t :=
  if negb (tiene_traslado_activo self) then
    Fallo self "No hay proceso de traslado activo para devolver"
  else
    let s1 := con_traslado_activo false self in
    let s2 := con_tipo_anterior TipoProcesoAnterior.TRASLADO_DEVUELTO s1 in
    let s3 := con_estado ACTIVA s2 in
    match HistorialAsignacion.crear_cambio_proceso r funcionario_id
            "traslado" "devolver" (Some motivo) with
    | Error msg => Fallo s3 msg
    | Ok asignacion =>
        let s4 := anexar_asignacion asignacion s3 in
        Hecho (_add_domain_event
                 (ProcesoCompletadoEvent_create (Placa.str (placa s4)) "traslado"
                    funcionario_id (NumeroCuenta.str (numero_cuenta s4))
                    "devuelto" (Some motivo)) s4)
    end.

Definition devolver_proceso_radicacion (r : Reloj) (self : t)
    (funcionario_id motivo : string) : efecto t :=
  if negb (tiene_radicacion_activa self) then
    Fallo self "No hay proceso de radicación activo para devolver"
  else
    let s1 := con_radicacion_activa false self in
    let s2 := con_tipo_anterior TipoProcesoAnterior.RADICACION_DEVUELTA s1 in
    let s3 := con_estado ACTIVA s2 in
    match HistorialAsignacion.crear_cambio_proceso r funcionario_id
            "radicacion" "devolver" (Some motivo) with
    | Error msg => Fallo s3 msg
    | Ok asignacion =>
        let s4 := anexar_asignacion asignacion s3 in
        Hecho (_add_domain_event
                 (ProcesoCompletadoEvent_create (Placa.str (placa s4)) "radicacion"
                    funcionario_id (NumeroCuenta.str (numero_cuenta s4))
                    "devuelto" (Some motivo)) s4)
    end.

Definition inactivar_cuenta (r : Reloj) (self : t)
    (funcionario_id motivo : string) : efecto t :=
  if tiene_proceso_activo self then
    Fallo self "No se puede inactivar una cuenta con procesos activos"
  else
    let s1 := con_estado INACTIVA self in
    match HistorialAsignacion.crear_inactivacion r funcionario_id motivo with
    | Error msg => Fallo s1 msg
    | Ok asignacion =>
        let s2 := anexar_asignacion asignacion s1 in
        Hecho (_add_domain_event
                 (CuentaInactivadaEvent_create (Placa.str (placa s2))
                    funcionario_id motivo) s2)
    end.

Definition reactivar_cuenta (r : Reloj) (self : t)
    (funcionario_id : string) : efecto t :=
  if negb (EstadoCuenta_eqb (estado self) INACTIVA) then
    Fallo self "Solo se pueden reactivar cuentas inactivas"
  else
    let s1 := con_estado ACTIVA self in
    match HistorialAsignacion.crear_reactivacion r funcionario_id with
    | Error msg => Fallo s1 msg
    | Ok asignacion =>
        let s2 := anexar_asignacion asignacion s1 in
        Hecho (_add_domain_event
                 (CuentaReactivadaEvent_create (Placa.str (placa s2))
                    funcionario_id) s2)
    end.

(** The defaults of the signature are [motivo = "reasignacion"] and
    [observaciones = None]. *)
Definition reasignar_funcionario (r : Reloj) (self : t)
    (nuevo_funcionario_id funcionario_autoriza motivo : string)
    (observaciones : option string) : efecto t :=
  let funcionario_anterior := get_funcionario_actual self in
  if String.eqb (PyStr.upper nuevo_funcionario_id) funcionario_anterior then
    Fallo self "El funcionario ya está asignado a esta cuenta"
  else
    match HistorialAsignacion.crear_reasignacion_manual r nuevo_funcionario_id
            funcionario_autoriza motivo observaciones with
    | Error msg => Fallo self msg
    | Ok asignacion =>
        let s1 := anexar_asignacion asignacion self in
        Hecho (_add_domain_event
                 (CuentaReasignadaEvent_create (Placa.str (placa s1))
                    funcionario_anterior nuevo_funcionario_id
                    (Some funcionario_autoriza) motivo) s1)
    end.

(** *** Construction *)

(** The dataclass constructor with [__post_init__]: the private attributes
    start at their defaults ([False], [None], an empty event list). *)
Definition crear (r : Reloj) (placa : Placa.t) (numero_cuenta : NumeroCuenta.t)
    (tipo_servicio : TipoServicio.t) (fecha_creacion : FechaCreacion.t)
    (funcionario_creador : string) (estado : EstadoCuenta)
    (historial_asignaciones : list HistorialAsignacion.t) : resultado t :=
  match _validar_funcionario_creador funcionario_creador with
  | Error msg => Error msg
  | Ok _ =>
      let creador := PyStr.upper (PyStr.strip funcionario_creador) in
      let con_inicial :=
        match historial_asignaciones with
        | [] =>
            match HistorialAsignacion.crear_asignacion_inicial r creador
                    (FechaCreacion.fecha fecha_creacion) with
            | Error msg => Error msg
            | Ok asignacion_inicial => Ok [asignacion_inicial]
            end
        | _ :: _ => Ok historial_asignaciones
        end in
      match con_inicial with
      | Error msg => Error msg
      | Ok historial =>
          let c :=
            {| placa := placa; numero_cuenta := numero_cuenta;
               tipo_servicio := tipo_servicio; fecha_creacion := fecha_creacion;
               funcionario_creador := creador; estado := estado;
               historial_asignaciones := historial;
               _domain_events := [];
               _tipo_proceso_anterior := TipoProcesoAnterior.NINGUNO;
               _proceso_traslado_activo := false;
               _proceso_radicacion_activo := false;
               _initialized := true |} in
          match _validar_coherencia_estado c with
          | Error msg => Error msg
          | Ok _ =>
              match historial with
              | [a] =>
                  if HistorialAsignacion.es_asignacion_inicial a then
                    Ok (_add_domain_event
                          (CuentaCreadaEvent_create (Placa.str placa)
                             (NumeroCuenta.str numero_cuenta)
                             (TipoServicio.value tipo_servicio) creador) c)
                  else Ok c
              | _ => Ok c
              end
          end
      end
  end.

Definition crear_nueva_cuenta (r : Reloj) (placa : Placa.t)
    (tipo_servicio : TipoServicio.t) (funcionario_creador : string)
    (consecutivo_cuenta : option Z) : resultado t :=
  match NumeroCuenta.generar_para_hoy r
          (match consecutivo_cuenta with Some n => n | None => 1 end) with
  | Error msg => Error msg
  | Ok numero_cuenta =>
      match FechaCreacion.crear_hoy r with
      | Error msg => Error msg
      | Ok fecha_creacion =>
          crear r placa numero_cuenta tipo_servicio fecha_creacion
                funcionario_creador ACTIVA []
      end
  end.

Definition crear_desde_repositorio (placa : Placa.t)
    (numero_cuenta : NumeroCuenta.t) (tipo_servicio : TipoServicio.t)
    (estado : EstadoCuenta) (fecha_creacion : FechaCreacion.t)
    (funcionario_creador : string) (historial : list HistorialAsignacion.t)
    (tipo_proceso_anterior : TipoProcesoAnterior.t)
    (proceso_traslado_activo proceso_radicacion_activo : bool) : resultado t :=
  let creador := PyStr.upper (PyStr.strip funcionario_creador) in
  let cuenta :=
    {| placa := placa; numero_cuenta := numero_cuenta;
       tipo_servicio := tipo_servicio; fecha_creacion := fecha_creacion;
       funcionario_creador := creador;
       estado := estado;
       historial_asignaciones := historial;
       _domain_events := [];
       _tipo_proceso_anterior := tipo_proceso_anterior;
       _proceso_traslado_activo := proceso_traslado_activo;
       _proceso_radicacion_activo := proceso_radicacion_activo;
       _initialized := true |} in
  match _validar_funcionario_creador creador with
  | Error msg => Error msg
  | Ok _ =>
      match _validar_coherencia_estado cuenta with
      | Error msg => Error msg
      | Ok _ => Ok cuenta
      end
  end.



Definition get_asignaciones_por_tipo (c : t) (tipo : string)
  : list HistorialAsignacion.t :=
  match HistorialAsignacion.TipoAsignacion_de_valor (PyStr.lower tipo) with
  | Some tipo_enum =>
      filter (fun h => HistorialAsignacion.TipoAsignacion_eqb
                         (HistorialAsignacion.tipo_asignacion h) tipo_enum)
             (historial_asignaciones c)
  | None => []
  end.

End Cuenta.

(** ** Observacion: free text with append and merge *)

Module Observacion.

Record t : Type := { valor : string }.

Definition espacio : ascii := ascii_of_nat 32.
Definition salto : ascii := ascii_of_nat 10.

(** [re.sub(r'[\x00-\x08\x0B\x0C\x0E-\x1F\x7F]', ' ', texto)] *)
Definition es_control (c : ascii) : bool :=
  PyStr.entre 0 8 c || PyStr.entre 11 12 c || PyStr.entre 14 31 c ||
  PyStr.entre 127 127 c.

Definition control_a_espacio (c : ascii) : ascii :=
  if es_control c then espacio else c.

(** [texto.split('\n')] *)
Fixpoint dividir_lineas (s : string) : list string :=
  match s with
  | EmptyString => [EmptyString]
  | String c r =>
      if Ascii.eqb c salto then EmptyString :: dividir_lineas r
      else
        match dividir_lineas r with
        | [] => [String c EmptyString]
        | l :: ls => String c l :: ls
        end
  end.

(** [re.sub(r' {2,}', ' ', linea)]: a space followed by a space is dropped. *)
Fixpoint colapsar_espacios (s : string) : string :=
  match s with
  | EmptyString => EmptyString
  | String c r =>
      match r with
      | String d _ =>
          if Ascii.eqb c espacio && Ascii.eqb d espacio
          then colapsar_espacios r
          else String c (colapsar_espacios r)
      | EmptyString => String c EmptyString
      end
  end.

(** The longest prefix of white space and what follows it. *)
Fixpoint tomar_espacios (s : string) : string * string :=
  match s with
  | EmptyString => (EmptyString, EmptyString)
  | String c r =>
      if PyStr.es_espacio c
      then let (w, resto) := tomar_espacios r in (String c w, resto)
      else (EmptyString, s)
  end.

(** What follows the last line feed of [w], when [w] has one. *)
Fixpoint tras_ultimo_salto (w : string) : option string :=
  match w with
  | EmptyString => None
  | String c r =>
      match tras_ultimo_salto r with
      | Some x => Some x
      | None => if Ascii.eqb c salto then Some r else None
      end
  end.

(** [re.sub(r'\n\s*\n', '\n\n', s)]: at a line feed, the greedy run of
    white space is cut at its last line feed. *)
Fixpoint unir_saltos (fuel : nat) (s : string) : string :=
  match fuel with
  | O => s
  | S k =>
      match s with
      | EmptyString => EmptyString
      | String c r =>
          if Ascii.eqb c salto then
            let (w, resto) := tomar_espacios r in
            match tras_ultimo_salto w with
            | Some w' => String salto (String salto (unir_saltos k (w' ++ resto)))
            | None => String c (unir_saltos k r)
            end
          else String c (unir_saltos k r)
      end
  end.

Definition _normalizar_texto (texto : string) : string :=
  if negb (PyStr.no_vacio texto) || negb (PyStr.no_vacio (PyStr.strip texto))
  then ""
  else
    let texto1 := PyStr.mapa control_a_espacio texto in
    let lineas := dividir_lineas texto1 in
    let lineas_normalizadas :=
      map (fun linea => PyStr.strip (colapsar_espacios linea)) lineas in
    let texto_normalizado := PyStr.unir LF lineas_normalizadas in
    let texto2 := unir_saltos (String.length texto_normalizado) texto_normalizado in
    PyStr.strip texto2.

Definition _es_longitud_valida (texto : string) : bool :=
  PyStr.py_len texto <=? 1000.

Definition es_letra_o_digito (c : ascii) : bool :=
  PyStr.es_minuscula c || PyStr.es_mayuscula c || PyStr.es_digito c.

(** The punctuation of the character class below 128. *)
Definition puntuacion_permitida : string :=
  ".,;:?!-_()[]'%#@<>|/+*=&$`~^" ++ String (ascii_of_nat 34) EmptyString.

Fixpoint pertenece (c : ascii) (s : string) : bool :=
  match s with
  | EmptyString => false
  | String d r => Ascii.eqb c d || pertenece c r
  end.

(** One character against the class of the pattern.  Below 128 the class
    is read off the pattern; the bytes of a code point above 127 (the
    accented letters and the symbols the class lists) are accepted. *)
Definition caracter_permitido (c : ascii) : bool :=
  es_letra_o_digito c || PyStr.es_espacio c ||
  pertenece c puntuacion_permitida || (128 <=? PyStr.codigo c).

Fixpoint todos (p : ascii -> bool) (s : string) : bool :=
  match s with
  | EmptyString => true
  | String c r => p c && todos p r
  end.

Definition _contiene_solo_caracteres_permitidos (texto : string) : bool :=
  if negb (PyStr.no_vacio texto) then true
  else todos caracter_permitido texto.

(** [\w]: letters, digits and the underscore; a byte above 127 counts as
    part of a letter. *)
Definition es_palabra (c : ascii) : bool :=
  es_letra_o_digito c || Ascii.eqb c (ascii_of_nat 95) ||
  (128 <=? PyStr.codigo c).

Fixpoint saltar (p : ascii -> bool) (s : string) : string :=
  match s with
  | EmptyString => EmptyString
  | String c r => if p c then saltar p r else s
  end.

Definition primero_es (p : ascii -> bool) (s : string) : bool :=
  match s with
  | EmptyString => false
  | String c _ => p c
  end.

Definition cola (s : string) : string :=
  match s with EmptyString => EmptyString | String _ r => r end.

(** Is there a position of [s] where [m] accepts the text from there on:
    [re.search] with an anchored matcher. *)
Fixpoint buscar (m : string -> bool) (s : string) : bool :=
  m s ||
  match s with
  | EmptyString => false
  | String _ r => buscar m r
  end.

(** [<script[^>]*>] *)
Definition m_script (s : string) : bool :=
  PyStr.empieza_con "<script" s && PyStr.contiene ">" (PyStr.quitar 7 s).

(** [on\w+\s*=\s*] and then a double or a single quote *)
Definition m_manejador (s : string) : bool :=
  PyStr.empieza_con "on" s &&
  (let s1 := PyStr.quitar 2 s in
   primero_es es_palabra s1 &&
   (let s2 := saltar PyStr.es_espacio (saltar es_palabra s1) in
    primero_es (Ascii.eqb (ascii_of_nat 61)) s2 &&
    (let s3 := saltar PyStr.es_espacio (cola s2) in
     primero_es (fun c => Ascii.eqb c (ascii_of_nat 34) ||
                          Ascii.eqb c (ascii_of_nat 39)) s3))).

(** [eval\s*\(] *)
Definition m_eval (s : string) : bool :=
  PyStr.empieza_con "eval" s &&
  primero_es (Ascii.eqb (ascii_of_nat 40))
             (saltar PyStr.es_espacio (PyStr.quitar 4 s)).

(** [window\.location\s*=] *)
Definition m_location (s : string) : bool :=
  PyStr.empieza_con "window.location" s &&
  primero_es (Ascii.eqb (ascii_of_nat 61))
             (saltar PyStr.es_espacio (PyStr.quitar 15 s)).

Definition _contiene_contenido_sospechoso (texto : string) : bool :=
  if negb (PyStr.no_vacio texto) then false
  else
    let texto_lower := PyStr.lower texto in
    buscar m_script texto_lower ||
    PyStr.contiene "</script>" texto_lower ||
    PyStr.contiene "javascript:" texto_lower ||
    buscar m_manejador texto_lower ||
    buscar m_eval texto_lower ||
    PyStr.contiene "document.write" texto_lower ||
    buscar m_location texto_lower.

(** The dataclass constructor followed by [__post_init__]. *)
Definition crear (valor : string) : resultado t :=
  let valor_normalizado := _normalizar_texto valor in
  if negb (_es_longitud_valida valor_normalizado) then
    Error "La observación no puede exceder 1000 caracteres"
  else if PyStr.no_vacio valor_normalizado &&
          negb (_contiene_solo_caracteres_permitidos valor_normalizado) then
    Error "La observación contiene caracteres no permitidos"
  else if _contiene_contenido_sospechoso valor_normalizado then
    Error "La observación contiene contenido no permitido (HTML, scripts, etc.)"
  else Ok {| valor := valor_normalizado |}.

(** [Observacion.vacia()], the constructor on the empty string, which
    never raises. *)
Definition vacia : t := {| valor := "" |}.

Definition crear_desde_texto (texto : string) : resultado t := crear texto.

Definition esta_vacia (self : t) : bool :=
  negb (PyStr.no_vacio (valor self)) ||
  negb (PyStr.no_vacio (PyStr.strip (valor self))).

Definition agregar_timestamp_automatico (r : Reloj) (self : t)
    (funcionario : string) : resultado t :=
  if negb (PyStr.no_vacio (PyStr.strip funcionario)) then
    Error "El funcionario no puede estar vacío"
  else
    let timestamp := marca r in
    let nuevo_contenido :=
      if esta_vacia self
      then "[" ++ timestamp ++ " - " ++ funcionario ++ "] Sin observaciones adicionales."
      else "[" ++ timestamp ++ " - " ++ funcionario ++ "] " ++ valor self in
    crear nuevo_contenido.

Definition crear_con_timestamp (r : Reloj) (texto funcionario : string)
  : resultado t :=
  match (if PyStr.no_vacio texto then crear texto else Ok vacia) with
  | Error msg => Error msg
  | Ok observacion_base =>
      agregar_timestamp_automatico r observacion_base funcionario
  end.

Definition separador : string := LF ++ "---" ++ LF.

(** [combinar_observaciones(observaciones)] with the default separator. *)
Definition combinar_observaciones (observaciones : list t) : resultado t :=
  let observaciones_validas :=
    filter (fun obs => negb (esta_vacia obs)) observaciones in
  match observaciones_validas with
  | [] => Ok vacia
  | _ :: _ => crear (PyStr.unir separador (map valor observaciones_validas))
  end.

End Observacion.

(** ** Value objects of the processes *)

Module Ubicacion.

Record t : Type := {
  codigo : string;
  nombre_completo : string;
  municipio : string;
  departamento : string;
  direccion : option string;
  telefono : option string
}.

Definition es_letra (c : ascii) : bool :=
  PyStr.es_minuscula c || PyStr.es_mayuscula c.

(** [str.title()]: a letter after a letter is lowered, any other letter is
    raised. *)
Fixpoint title_aux (tras_letra : bool) (s : string) : string :=
  match s with
  | EmptyString => EmptyString
  | String c r =>
      if es_letra c
      then String (if tras_letra then PyStr.minus c else PyStr.mayus c)
                  (title_aux true r)
      else String c (title_aux false r)
  end.

Definition title (s : string) : string := title_aux false s.

Definition get_nombre_corto (self : t) : string :=
  title (PyStr.reemplazar "_" " " (codigo self)).

End Ubicacion.

Module FechaTramite.
Record t : Type := { fecha : Z }.

(** The dataclass constructor followed by [__post_init__]. *)
Definition crear (r : Reloj) (fecha : Z) : resultado t :=
  if fecha >? hoy r + 30 then
    Error "La fecha de trámite no puede ser más de 30 días en el futuro"
  else if fecha <? hoy r - 365 then
    Error "La fecha de trámite no puede ser más de 1 año en el pasado"
  else Ok {| fecha := fecha |}.

Definition es_futuro (r : Reloj) (self : t) : bool := fecha self >? hoy r.

Definition dias_desde_hoy (r : Reloj) (self : t) : Z := hoy r - fecha self.

Definition esta_en_rango_permitido (r : Reloj) (self : t) : bool :=
  let limite_futuro := hoy r + 30 in
  let limite_pasado := hoy r - 365 in
  (limite_pasado <=? fecha self) && (fecha self <=? limite_futuro).
End FechaTramite.

Module FechaVencimiento.
Record t : Type := { fecha : Z }.

Definition calcular_desde_tramite (fecha_tramite : FechaTramite.t) : t :=
  {| fecha := FechaTramite.fecha fecha_tramite + 60 |}.

Definition esta_vencida (r : Reloj) (self : t) : bool := fecha self <? hoy r.

Definition esta_vigente (r : Reloj) (self : t) : bool := fecha self >=? hoy r.

Definition dias_restantes (r : Reloj) (self : t) : Z := fecha self - hoy r.

Definition esta_por_vencer (r : Reloj) (self : t) (dias_alerta : Z) : bool :=
  (0 <=? dias_restantes r self) && (dias_restantes r self <=? dias_alerta).

Definition es_critica (r : Reloj) (self : t) (dias_criticos : Z) : bool :=
  (0 <=? dias_restantes r self) && (dias_restantes r self <=? dias_criticos).

Definition nivel_urgencia (r : Reloj) (self : t) : string :=
  let dias := dias_restantes r self in
  if dias <? 0 then "vencida"
  else if dias <=? 3 then "critica"
  else if dias <=? 7 then "alerta"
  else "normal".
End FechaVencimiento.

(** ** Traslado *)

Module Traslado.

Record t : Type := {
  placa : Placa.t;
  organismo_destino : Ubicacion.t;
  fecha_tramite : FechaTramite.t;
  fecha_vencimiento : FechaVencimiento.t;
  funcionario_envia : string;
  estado : EstadoTraslado.t;
  observaciones : Observacion.t;
  funcionario_actual : option string;
  fecha_ultima_actualizacion : option Z;
  _domain_events : list DomainEvent;
  _initialized : bool
}.

Definition con_estado (e : EstadoTraslado.t) (x : t) : t :=
  {| placa := placa x; organismo_destino := organismo_destino x;
     fecha_tramite := fecha_tramite x; fecha_vencimiento := fecha_vencimiento x;
     funcionario_envia := funcionario_envia x; estado := e;
     observaciones := observaciones x;
     funcionario_actual := funcionario_actual x;
     fecha_ultima_actualizacion := fecha_ultima_actualizacion x;
     _domain_events := _domain_events x; _initialized := _initialized x |}.

Definition con_observaciones (o : Observacion.t) (x : t) : t :=
  {| placa := placa x; organismo_destino := organismo_destino x;
     fecha_tramite := fecha_tramite x; fecha_vencimiento := fecha_vencimiento x;
     funcionario_envia := funcionario_envia x; estado := estado x;
     observaciones := o;
     funcionario_actual := funcionario_actual x;
     fecha_ultima_actualizacion := fecha_ultima_actualizacion x;
     _domain_events := _domain_events x; _initialized := _initialized x |}.

Definition con_funcionario_actual (f : option string) (x : t) : t :=
  {| placa := placa x; organismo_destino := organismo_destino x;
     fecha_tramite := fecha_tramite x; fecha_vencimiento := fecha_vencimiento x;
     funcionario_envia := funcionario_envia x; estado := estado x;
     observaciones := observaciones x;
     funcionario_actual := f;
     fecha_ultima_actualizacion := fecha_ultima_actualizacion x;
     _domain_events := _domain_events x; _initialized := _initialized x |}.

Definition con_fecha_actualizacion (d : option Z) (x : t) : t :=
  {| placa := placa x; organismo_destino := organismo_destino x;
     fecha_tramite := fecha_tramite x; fecha_vencimiento := fecha_vencimiento x;
     funcionario_envia := funcionario_envia x; estado := estado x;
     observaciones := observaciones x;
     funcionario_actual := funcionario_actual x;
     fecha_ultima_actualizacion := d;
     _domain_events := _domain_events x; _initialized := _initialized x |}.

Definition con_eventos (l : list DomainEvent) (x : t) : t :=
  {| placa := placa x; organismo_destino := organismo_destino x;
     fecha_tramite := fecha_tramite x; fecha_vencimiento := fecha_vencimiento x;
     funcionario_envia := funcionario_envia x; estado := estado x;
     observaciones := observaciones x;
     funcionario_actual := funcionario_actual x;
     fecha_ultima_actualizacion := fecha_ultima_actualizacion x;
     _domain_events := l; _initialized := _initialized x |}.

Definition _add_domain_event (event : DomainEvent) (x : t) : t :=
  con_eventos (_domain_events x ++ [event]) x.

Definition get_domain_events (x : t) : list DomainEvent * t :=
  (_domain_events x, con_eventos [] x).

Definition _validar_funcionario_envia (funcionario_envia : string)
  : resultado unit :=
  if negb (PyStr.no_vacio funcionario_envia) ||
     negb (PyStr.no_vacio (PyStr.strip funcionario_envia))
  then Error "El funcionario que envía no puede estar vacío"
  else Ok tt.

Definition _validar_fechas (fv : FechaVencimiento.t) (ft : FechaTramite.t)
  : resultado unit :=
  if FechaVencimiento.fecha fv <=? FechaTramite.fecha ft
  then Error "La fecha de vencimiento debe ser posterior a la fecha de trámite"
  else Ok tt.

Definition esta_en_estado_final (self : t) : bool :=
  EstadoTraslado.es_estado_final (estado self).

Definition puede_pasar_a_revision (self : t) : bool :=
  EstadoTraslado.eqb (estado self) EstadoTraslado.ENVIADO_ORGANISMO_DESTINO.

Definition puede_completar_traslado (self : t) : bool :=
  EstadoTraslado.eqb (estado self) EstadoTraslado.REVISADO.

Definition puede_reportar_novedad (self : t) : bool :=
  EstadoTraslado.eqb (estado self) EstadoTraslado.REVISADO.

Definition puede_resolver_novedad (self : t) : bool :=
  EstadoTraslado.eqb (estado self) EstadoTraslado.CON_NOVEDADES.

Definition puede_ser_devuelto (self : t) (es_admin : bool) : bool :=
  if es_admin then negb (esta_en_estado_final self)
  else EstadoTraslado.puede_transicionar_a (estado self)
         EstadoTraslado.DEVUELTO es_admin.

(** The three assignments every transition starts with. *)
Definition transicion (r : Reloj) (e : EstadoTraslado.t)
    (funcionario_id : string) (self : t) : t :=
  con_fecha_actualizacion (Some (hoy r))
    (con_funcionario_actual (Some (PyStr.upper (PyStr.strip funcionario_id)))
       (con_estado e self)).

(** The closing block of the commands that log an entry: a stamped
    observation is built from [texto], merged after the current one and
    stored. *)
Definition anexar_entrada (r : Reloj) (texto funcionario_id : string)
    (self : t) : efecto t :=
  match Observacion.crear_con_timestamp r texto funcionario_id with
  | Error msg => Fallo self msg
  | Ok obs =>
      match Observacion.combinar_observaciones [observaciones self; obs] with
      | Error msg => Fallo self msg
      | Ok nueva_obs => Hecho (con_observaciones nueva_obs self)
      end
  end.

Definition marcar_como_revisado (r : Reloj) (self : t)
    (funcionario_id : string) : efecto t :=
  if negb (puede_pasar_a_revision self) then
    Fallo self ("No se puede pasar a revisión desde estado: " ++
                EstadoTraslado.value (estado self))
  else Hecho (transicion r EstadoTraslado.REVISADO funcionario_id self).

Definition completar_traslado (r : Reloj) (self : t) (funcionario_id : string)
    (observaciones_finales : option string) : efecto t :=
  if negb (puede_completar_traslado self) then
    Fallo self ("No se puede completar traslado desde estado: " ++
                EstadoTraslado.value (estado self))
  else
    let s1 := transicion r EstadoTraslado.TRASLADADO funcionario_id self in
    match observaciones_finales with
    | None => Hecho s1
    | Some finales =>
        if negb (PyStr.no_vacio finales) then Hecho s1
        else
          match Observacion.agregar_timestamp_automatico r (observaciones s1)
                  funcionario_id with
          | Error msg => Fallo s1 msg
          | Ok obs_con_timestamp =>
              match Observacion.crear_desde_texto
                      (Observacion.valor obs_con_timestamp ++ LF ++
                       "COMPLETADO: " ++ finales) with
              | Error msg => Fallo s1 msg
              | Ok nueva_obs => Hecho (con_observaciones nueva_obs s1)
              end
          end
    end.

Definition reportar_novedad (r : Reloj) (self : t)
    (funcionario_id descripcion_novedad : string) : efecto t :=
  if negb (puede_reportar_novedad self) then
    Fallo self ("No se puede reportar novedad desde estado: " ++
                EstadoTraslado.value (estado self))
  else
    anexar_entrada r ("NOVEDAD REPORTADA: " ++ descripcion_novedad)
      funcionario_id
      (transicion r EstadoTraslado.CON_NOVEDADES funcionario_id self).

Definition resolver_novedad (r : Reloj) (self : t)
    (funcionario_id descripcion_resolucion : string) : efecto t :=
  if negb (puede_resolver_novedad self) then
    Fallo self ("No se puede resolver novedad desde estado: " ++
                EstadoTraslado.value (estado self))
  else
    anexar_entrada r ("NOVEDAD RESUELTA: " ++ descripcion_resolucion)
      funcionario_id
      (transicion r EstadoTraslado.REVISADO funcionario_id self).

Definition devolver_traslado (r : Reloj) (self : t)
    (funcionario_id motivo_devolucion : string) (es_admin : bool) : efecto t :=
  if negb (puede_ser_devuelto self es_admin) then
    Fallo self ("No se puede devolver traslado desde estado: " ++
                EstadoTraslado.value (estado self))
  else
    anexar_entrada r ("TRASLADO DEVUELTO: " ++ motivo_devolucion)
      funcionario_id
      (transicion r EstadoTraslado.DEVUELTO funcionario_id self).

Definition actualizar_observaciones (r : Reloj) (self : t)
    (funcionario_id nuevas_observaciones : string) : efecto t :=
  if esta_en_estado_final self then
    Fallo self "No se pueden actualizar observaciones en estado final"
  else
    match anexar_entrada r nuevas_observaciones funcionario_id self with
    | Fallo s msg => Fallo s msg
    | Hecho s => Hecho (con_fecha_actualizacion (Some (hoy r)) s)
    end.

(** The dataclass constructor with [__post_init__]. *)
Definition crear (r : Reloj) (placa : Placa.t) (organismo_destino : Ubicacion.t)
    (fecha_tramite : FechaTramite.t) (fecha_vencimiento : FechaVencimiento.t)
    (funcionario_envia : string) (estado : EstadoTraslado.t)
    (observaciones : Observacion.t) (funcionario_actual : option string)
    (fecha_ultima_actualizacion : option Z) : resultado t :=
  match _validar_funcionario_envia funcionario_envia with
  | Error msg => Error msg
  | Ok _ =>
      match _validar_fechas fecha_vencimiento fecha_tramite with
      | Error msg => Error msg
      | Ok _ =>
          let envia := PyStr.upper (PyStr.strip funcionario_envia) in
          Ok {| placa := placa; organismo_destino := organismo_destino;
                fecha_tramite := fecha_tramite;
                fecha_vencimiento := fecha_vencimiento;
                funcionario_envia := envia; estado := estado;
                observaciones := observaciones;
                funcionario_actual :=
                  match funcionario_actual with
                  | None => Some envia
                  | Some f => Some f
                  end;
                fecha_ultima_actualizacion :=
                  match fecha_ultima_actualizacion with
                  | None => Some (hoy r)
                  | Some d => Some d
                  end;
                _domain_events := []; _initialized := true |}
      end
  end.

Definition crear_nuevo (r : Reloj) (placa : Placa.t)
    (organismo_destino : Ubicacion.t) (fecha_tramite : FechaTramite.t)
    (funcionario_envia : string) (observaciones_iniciales : option string)
  : resultado t :=
  let fecha_vencimiento := FechaVencimiento.calcular_desde_tramite fecha_tramite in
  match (if HistorialAsignacion.dado observaciones_iniciales
         then Observacion.crear_con_timestamp r
                (match observaciones_iniciales with Some s => s | None => "" end)
                funcionario_envia
         else Ok Observacion.vacia) with
  | Error msg => Error msg
  | Ok observaciones =>
      crear r placa organismo_destino fecha_tramite fecha_vencimiento
            funcionario_envia EstadoTraslado.ENVIADO_ORGANISMO_DESTINO
            observaciones None None
  end.

Definition crear_desde_repositorio (placa : Placa.t)
    (organismo_destino : Ubicacion.t) (fecha_tramite : FechaTramite.t)
    (fecha_vencimiento : FechaVencimiento.t) (funcionario_envia : string)
    (estado : EstadoTraslado.t) (observaciones : Observacion.t)
    (funcionario_actual : option string)
    (fecha_ultima_actualizacion : option Z) : resultado t :=
  let envia := PyStr.upper (PyStr.strip funcionario_envia) in
  match _validar_funcionario_envia envia with
  | Error msg => Error msg
  | Ok _ =>
      match _validar_fechas fecha_vencimiento fecha_tramite with
      | Error msg => Error msg
      | Ok _ =>
          Ok {| placa := placa; organismo_destino := organismo_destino;
                fecha_tramite := fecha_tramite;
                fecha_vencimiento := fecha_vencimiento;
                funcionario_envia := envia; estado := estado;
                observaciones := observaciones;
                funcionario_actual := funcionario_actual;
                fecha_ultima_actualizacion := fecha_ultima_actualizacion;
                _domain_events := []; _initialized := true |}
      end
  end.





(** [a * -1 if es_futuro() else a], with [a] the age of the date. *)
Definition get_dias_en_proceso (r : Reloj) (self : t) : Z :=
  if FechaTramite.es_futuro r (fecha_tramite self)
  then FechaTramite.dias_desde_hoy r (fecha_tramite self) * -1
  else FechaTramite.dias_desde_hoy r (fecha_tramite self).

End Traslado.

(** ** Radicacion *)

Module Radicacion.

Record t : Type := {
  placa : Placa.t;
  organismo_origen : Ubicacion.t;
  fecha_tramite : FechaTramite.t;
  fecha_vencimiento : FechaVencimiento.t;
  funcionario_recibe : string;
  estado : EstadoRadicacion.t;
  observaciones : Observacion.t;
  funcionario_actual : option string;
  fecha_ultima_actualizacion : option Z;
  _domain_events : list DomainEvent;
  _initialized : bool;
  _fue_recibida : bool
}.

Definition con_estado (e : EstadoRadicacion.t) (x : t) : t :=
  {| placa := placa x; organismo_origen := organismo_origen x;
     fecha_tramite := fecha_tramite x; fecha_vencimiento := fecha_vencimiento x;
     funcionario_recibe := funcionario_recibe x; estado := e;
     observaciones := observaciones x;
     funcionario_actual := funcionario_actual x;
     fecha_ultima_actualizacion := fecha_ultima_actualizacion x;
     _domain_events := _domain_events x; _initialized := _initialized x;
     _fue_recibida := _fue_recibida x |}.

Definition con_observaciones (o : Observacion.t) (x : t) : t :=
  {| placa := placa x; organismo_origen := organismo_origen x;
     fecha_tramite := fecha_tramite x; fecha_vencimiento := fecha_vencimiento x;
     funcionario_recibe := funcionario_recibe x; estado := estado x;
     observaciones := o;
     funcionario_actual := funcionario_actual x;
     fecha_ultima_actualizacion := fecha_ultima_actualizacion x;
     _domain_events := _domain_events x; _initialized := _initialized x;
     _fue_recibida := _fue_recibida x |}.

Definition con_funcionario_actual (f : option string) (x : t) : t :=
  {| placa := placa x; organismo_origen := organismo_origen x;
     fecha_tramite := fecha_tramite x; fecha_vencimiento := fecha_vencimiento x;
     funcionario_recibe := funcionario_recibe x; estado := estado x;
     observaciones := observaciones x;
     funcionario_actual := f;
     fecha_ultima_actualizacion := fecha_ultima_actualizacion x;
     _domain_events := _domain_events x; _initialized := _initialized x;
     _fue_recibida := _fue_recibida x |}.

Definition con_fecha_actualizacion (d : option Z) (x : t) : t :=
  {| placa := placa x; organismo_origen := organismo_origen x;
     fecha_tramite := fecha_tramite x; fecha_vencimiento := fecha_vencimiento x;
     funcionario_recibe := funcionario_recibe x; estado := estado x;
     observaciones := observaciones x;
     funcionario_actual := funcionario_actual x;
     fecha_ultima_actualizacion := d;
     _domain_events := _domain_events x; _initialized := _initialized x;
     _fue_recibida := _fue_recibida x |}.

Definition con_eventos (l : list DomainEvent) (x : t) : t :=
  {| placa := placa x; organismo_origen := organismo_origen x;
     fecha_tramite := fecha_tramite x; fecha_vencimiento := fecha_vencimiento x;
     funcionario_recibe := funcionario_recibe x; estado := estado x;
     observaciones := observaciones x;
     funcionario_actual := funcionario_actual x;
     fecha_ultima_actualizacion := fecha_ultima_actualizacion x;
     _domain_events := l; _initialized := _initialized x;
     _fue_recibida := _fue_recibida x |}.

Definition con_fue_recibida (b : bool) (x : t) : t :=
  {| placa := placa x; organismo_origen := organismo_origen x;
     fecha_tramite := fecha_tramite x; fecha_vencimiento := fecha_vencimiento x;
     funcionario_recibe := funcionario_recibe x; estado := estado x;
     observaciones := observaciones x;
     funcionario_actual := funcionario_actual x;
     fecha_ultima_actualizacion := fecha_ultima_actualizacion x;
     _domain_events := _domain_events x; _initialized := _initialized x;
     _fue_recibida := b |}.

Definition _add_domain_event (event : DomainEvent) (x : t) : t :=
  con_eventos (_domain_events x ++ [event]) x.

Definition get_domain_events (x : t) : list DomainEvent * t :=
  (_domain_events x, con_eventos [] x).

Definition _validar_funcionario_recibe (funcionario_recibe : string)
  : resultado unit :=
  if negb (PyStr.no_vacio funcionario_recibe) ||
     negb (PyStr.no_vacio (PyStr.strip funcionario_recibe))
  then Error "El funcionario que recibe no puede estar vacío"
  else Ok tt.

Definition _validar_fechas (fv : FechaVencimiento.t) (ft : FechaTramite.t)
  : resultado unit :=
  if FechaVencimiento.fecha fv <=? FechaTramite.fecha ft
  then Error "La fecha de vencimiento debe ser posterior a la fecha de trámite"
  else Ok tt.

Definition fue_recibida (self : t) : bool := _fue_recibida self.

Definition esta_en_estado_final (self : t) : bool :=
  EstadoRadicacion.es_estado_final (estado self).

Definition puede_ser_recibida (self : t) : bool :=
  EstadoRadicacion.eqb (estado self) EstadoRadicacion.PENDIENTE_RADICAR.

Definition puede_pasar_a_revision (self : t) : bool :=
  EstadoRadicacion.eqb (estado self) EstadoRadicacion.RECIBIDO.

Definition puede_completar_radicacion (self : t) : bool :=
  EstadoRadicacion.eqb (estado self) EstadoRadicacion.REVISADO.

Definition puede_reportar_novedad (self : t) : bool :=
  EstadoRadicacion.eqb (estado self) EstadoRadicacion.REVISADO.

Definition puede_resolver_novedad (self : t) : bool :=
  EstadoRadicacion.eqb (estado self) EstadoRadicacion.CON_NOVEDADES.

Definition puede_ser_devuelta (self : t) (es_admin : bool) : bool :=
  if es_admin then negb (esta_en_estado_final self)
  else EstadoRadicacion.puede_transicionar_a (estado self)
         EstadoRadicacion.DEVUELTO es_admin.

(** The three assignments every transition starts with. *)
Definition transicion (r : Reloj) (e : EstadoRadicacion.t)
    (funcionario_id : string) (self : t) : t :=
  con_fecha_actualizacion (Some (hoy r))
    (con_funcionario_actual (Some (PyStr.upper (PyStr.strip funcionario_id)))
       (con_estado e self)).

(** The closing block of the commands that log an entry. *)
Definition anexar_entrada (r : Reloj) (texto funcionario_id : string)
    (self : t) : efecto t :=
  match Observacion.crear_con_timestamp r texto funcionario_id with
  | Error msg => Fallo self msg
  | Ok obs =>
      match Observacion.combinar_observaciones [observaciones self; obs] with
      | Error msg => Fallo self msg
      | Ok nueva_obs => Hecho (con_observaciones nueva_obs self)
      end
  end.

Definition marcar_como_recibida (r : Reloj) (self : t)
    (funcionario_id : string) : efecto t :=
  if negb (puede_ser_recibida self) then
    Fallo self ("No se puede recibir desde estado: " ++
                EstadoRadicacion.value (estado self))
  else
    anexar_entrada r
      ("Radicación recibida del " ++
       Ubicacion.get_nombre_corto (organismo_origen self))
      funcionario_id
      (con_fue_recibida true
         (transicion r EstadoRadicacion.RECIBIDO funcionario_id self)).

Definition marcar_como_revisada (r : Reloj) (self : t)
    (funcionario_id : string) : efecto t :=
  if negb (puede_pasar_a_revision self) then
    Fallo self ("No se puede pasar a revisión desde estado: " ++
                EstadoRadicacion.value (estado self))
  else Hecho (transicion r EstadoRadicacion.REVISADO funcionario_id self).

Definition completar_radicacion (r : Reloj) (self : t) (funcionario_id : string)
    (observaciones_finales : option string) : efecto t :=
  if negb (puede_completar_radicacion self) then
    Fallo self ("No se puede completar radicación desde estado: " ++
                EstadoRadicacion.value (estado self))
  else
    let s1 := transicion r EstadoRadicacion.RADICADO funcionario_id self in
    match observaciones_finales with
    | None => Hecho s1
    | Some finales =>
        if negb (PyStr.no_vacio finales) then Hecho s1
        else
          match Observacion.agregar_timestamp_automatico r (observaciones s1)
                  funcionario_id with
          | Error msg => Fallo s1 msg
          | Ok obs_con_timestamp =>
              match Observacion.crear_desde_texto
                      (Observacion.valor obs_con_timestamp ++ LF ++
                       "COMPLETADA: " ++ finales) with
              | Error msg => Fallo s1 msg
              | Ok nueva_obs => Hecho (con_observaciones nueva_obs s1)
              end
          end
    end.

Definition reportar_novedad (r : Reloj) (self : t)
    (funcionario_id descripcion_novedad : string) : efecto t :=
  if negb (puede_reportar_novedad self) then
    Fallo self ("No se puede reportar novedad desde estado: " ++
                EstadoRadicacion.value (estado self))
  else
    anexar_entrada r ("NOVEDAD REPORTADA: " ++ descripcion_novedad)
      funcionario_id
      (transicion r EstadoRadicacion.CON_NOVEDADES funcionario_id self).

Definition resolver_novedad (r : Reloj) (self : t)
    (funcionario_id descripcion_resolucion : string) : efecto t :=
  if negb (puede_resolver_novedad self) then
    Fallo self ("No se puede resolver novedad desde estado: " ++
                EstadoRadicacion.value (estado self))
  else
    anexar_entrada r ("NOVEDAD RESUELTA: " ++ descripcion_resolucion)
      funcionario_id
      (transicion r EstadoRadicacion.REVISADO funcionario_id self).

Definition devolver_radicacion (r : Reloj) (self : t)
    (funcionario_id motivo_devolucion : string) (es_admin : bool) : efecto t :=
  if negb (puede_ser_devuelta self es_admin) then
    Fallo self ("No se puede devolver radicación desde estado: " ++
                EstadoRadicacion.value (estado self))
  else
    anexar_entrada r ("RADICACIÓN DEVUELTA: " ++ motivo_devolucion)
      funcionario_id
      (transicion r EstadoRadicacion.DEVUELTO funcionario_id self).

Definition actualizar_observaciones (r : Reloj) (self : t)
    (funcionario_id nuevas_observaciones : string) : efecto t :=
  if esta_en_estado_final self then
    Fallo self "No se pueden actualizar observaciones en estado final"
  else
    match anexar_entrada r nuevas_observaciones funcionario_id self with
    | Fallo s msg => Fallo s msg
    | Hecho s => Hecho (con_fecha_actualizacion (Some (hoy r)) s)
    end.

(** The dataclass constructor with [__post_init__]; [_fue_recibida] starts
    at its default. *)
Definition crear (r : Reloj) (placa : Placa.t) (organismo_origen : Ubicacion.t)
    (fecha_tramite : FechaTramite.t) (fecha_vencimiento : FechaVencimiento.t)
    (funcionario_recibe : string) (estado : EstadoRadicacion.t)
    (observaciones : Observacion.t) (funcionario_actual : option string)
    (fecha_ultima_actualizacion : option Z) : resultado t :=
  match _validar_funcionario_recibe funcionario_recibe with
  | Error msg => Error msg
  | Ok _ =>
      match _validar_fechas fecha_vencimiento fecha_tramite with
      | Error msg => Error msg
      | Ok _ =>
          let recibe := PyStr.upper (PyStr.strip funcionario_recibe) in
          Ok {| placa := placa; organismo_origen := organismo_origen;
                fecha_tramite := fecha_tramite;
                fecha_vencimiento := fecha_vencimiento;
                funcionario_recibe := recibe; estado := estado;
                observaciones := observaciones;
                funcionario_actual :=
                  match funcionario_actual with
                  | None => Some recibe
                  | Some f => Some f
                  end;
                fecha_ultima_actualizacion :=
                  match fecha_ultima_actualizacion with
                  | None => Some (hoy r)
                  | Some d => Some d
                  end;
                _domain_events := []; _initialized := true;
                _fue_recibida := false |}
      end
  end.

Definition crear_nueva (r : Reloj) (placa : Placa.t)
    (organismo_origen : Ubicacion.t) (fecha_tramite : FechaTramite.t)
    (funcionario_recibe : string) (observaciones_iniciales : option string)
  : resultado t :=
  let fecha_vencimiento := FechaVencimiento.calcular_desde_tramite fecha_tramite in
  match (if HistorialAsignacion.dado observaciones_iniciales
         then Observacion.crear_con_timestamp r
                (match observaciones_iniciales with Some s => s | None => "" end)
                funcionario_recibe
         else Ok Observacion.vacia) with
  | Error msg => Error msg
  | Ok observaciones =>
      crear r placa organismo_origen fecha_tramite fecha_vencimiento
            funcionario_recibe EstadoRadicacion.PENDIENTE_RADICAR
            observaciones None None
  end.

(** The factory builds the object with [object.__new__] and assigns the
    attributes one by one; [_fue_recibida] is not among them, so reading it
    finds the default of the class, [False]. *)
Definition crear_desde_repositorio (placa : Placa.t)
    (organismo_origen : Ubicacion.t) (fecha_tramite : FechaTramite.t)
    (fecha_vencimiento : FechaVencimiento.t) (funcionario_recibe : string)
    (estado : EstadoRadicacion.t) (observaciones : Observacion.t)
    (funcionario_actual : option string)
    (fecha_ultima_actualizacion : option Z) : resultado t :=
  let recibe := PyStr.upper (PyStr.strip funcionario_recibe) in
  match _validar_funcionario_recibe recibe with
  | Error msg => Error msg
  | Ok _ =>
      match _validar_fechas fecha_vencimiento fecha_tramite with
      | Error msg => Error msg
      | Ok _ =>
          Ok {| placa := placa; organismo_origen := organismo_origen;
                fecha_tramite := fecha_tramite;
                fecha_vencimiento := fecha_vencimiento;
                funcionario_recibe := recibe; estado := estado;
                observaciones := observaciones;
                funcionario_actual := funcionario_actual;
                fecha_ultima_actualizacion := fecha_ultima_actualizacion;
                _domain_events := []; _initialized := true;
                _fue_recibida := false |}
      end
  end.

(** [a * -1 if es_futuro() else a], with [a] the age of the date. *)
Definition get_dias_en_proceso (r : Reloj) (self : t) : Z :=
  if FechaTramite.es_futuro r (fecha_tramite self)
  then FechaTramite.dias_desde_hoy r (fecha_tramite self) * -1
  else FechaTramite.dias_desde_hoy r (fecha_tramite self).

End Radicacion.

(** ** Novedad *)

Module TipoNovedad.
Inductive t : Type :=
| DOCUMENTO_FALTANTE | DOCUMENTO_INCORRECTO | INFORMACION_INCONSISTENTE
| FIRMA_FALTANTE | FECHA_INCORRECTA | DATOS_PROPIETARIO_INCOMPLETOS
| SOAT_VENCIDO | TECNICOMECANICA_VENCIDA | OTRO.
End TipoNovedad.

(** The identifier and the description, as the entity receives them:
    instances built and validated by their own classes. *)
Module IdentificadorNovedad.
Record t : Type := {
  codigo : string;
  fecha_creacion : Z;
  consecutivo : Z;
  uuid_interno : string
}.
End IdentificadorNovedad.

Module DescripcionNovedad.
Record t : Type := { valor : string }.
End DescripcionNovedad.

Module Novedad.

Record t : Type := {
  identificador : IdentificadorNovedad.t;
  placa : Placa.t;
  tipo_novedad : TipoNovedad.t;
  descripcion : DescripcionNovedad.t;
  prioridad : PrioridadNovedad.t;
  funcionario_reporta : string;
  fecha_reporte : Z;
  tipo_proceso : string;
  estado : EstadoNovedad.t;
  observaciones : Observacion.t;
  funcionario_resuelve : option string;
  fecha_resolucion : option Z;
  descripcion_resolucion : option string;
  funcionario_actual : option string;
  fecha_ultima_actualizacion : option Z;
  _domain_events : list DomainEvent;
  _initialized : bool
}.

Definition con_estado (e : EstadoNovedad.t) (x : t) : t :=
  {| identificador := identificador x; placa := placa x;
     tipo_novedad := tipo_novedad x; descripcion := descripcion x;
     prioridad := prioridad x; funcionario_reporta := funcionario_reporta x;
     fecha_reporte := fecha_reporte x; tipo_proceso := tipo_proceso x;
     estado := e; observaciones := observaciones x;
     funcionario_resuelve := funcionario_resuelve x;
     fecha_resolucion := fecha_resolucion x;
     descripcion_resolucion := descripcion_resolucion x;
     funcionario_actual := funcionario_actual x;
     fecha_ultima_actualizacion := fecha_ultima_actualizacion x;
     _domain_events := _domain_events x; _initialized := _initialized x |}.

Definition con_prioridad (p : PrioridadNovedad.t) (x : t) : t :=
  {| identificador := identificador x; placa := placa x;
     tipo_novedad := tipo_novedad x; descripcion := descripcion x;
     prioridad := p; funcionario_reporta := funcionario_reporta x;
     fecha_reporte := fecha_reporte x; tipo_proceso := tipo_proceso x;
     estado := estado x; observaciones := observaciones x;
     funcionario_resuelve := funcionario_resuelve x;
     fecha_resolucion := fecha_resolucion x;
     descripcion_resolucion := descripcion_resolucion x;
     funcionario_actual := funcionario_actual x;
     fecha_ultima_actualizacion := fecha_ultima_actualizacion x;
     _domain_events := _domain_events x; _initialized := _initialized x |}.

Definition con_observaciones (o : Observacion.t) (x : t) : t :=
  {| identificador := identificador x; placa := placa x;
     tipo_novedad := tipo_novedad x; descripcion := descripcion x;
     prioridad := prioridad x; funcionario_reporta := funcionario_reporta x;
     fecha_reporte := fecha_reporte x; tipo_proceso := tipo_proceso x;
     estado := estado x; observaciones := o;
     funcionario_resuelve := funcionario_resuelve x;
     fecha_resolucion := fecha_resolucion x;
     descripcion_resolucion := descripcion_resolucion x;
     funcionario_actual := funcionario_actual x;
     fecha_ultima_actualizacion := fecha_ultima_actualizacion x;
     _domain_events := _domain_events x; _initialized := _initialized x |}.

(** The three attributes of the resolution, assigned together. *)
Definition con_resolucion (f : option string) (d : option Z)
    (txt : option string) (x : t) : t :=
  {| identificador := identificador x; placa := placa x;
     tipo_novedad := tipo_novedad x; descripcion := descripcion x;
     prioridad := prioridad x; funcionario_reporta := funcionario_reporta x;
     fecha_reporte := fecha_reporte x; tipo_proceso := tipo_proceso x;
     estado := estado x; observaciones := observaciones x;
     funcionario_resuelve := f;
     fecha_resolucion := d;
     descripcion_resolucion := txt;
     funcionario_actual := funcionario_actual x;
     fecha_ultima_actualizacion := fecha_ultima_actualizacion x;
     _domain_events := _domain_events x; _initialized := _initialized x |}.

Definition con_funcionario_actual (f : option string) (x : t) : t :=
  {| identificador := identificador x; placa := placa x;
     tipo_novedad := tipo_novedad x; descripcion := descripcion x;
     prioridad := prioridad x; funcionario_reporta := funcionario_reporta x;
     fecha_reporte := fecha_reporte x; tipo_proceso := tipo_proceso x;
     estado := estado x; observaciones := observaciones x;
     funcionario_resuelve := funcionario_resuelve x;
     fecha_resolucion := fecha_resolucion x;
     descripcion_resolucion := descripcion_resolucion x;
     funcionario_actual := f;
     fecha_ultima_actualizacion := fecha_ultima_actualizacion x;
     _domain_events := _domain_events x; _initialized := _initialized x |}.

Definition con_fecha_actualizacion (d : option Z) (x : t) : t :=
  {| identificador := identificador x; placa := placa x;
     tipo_novedad := tipo_novedad x; descripcion := descripcion x;
     prioridad := prioridad x; funcionario_reporta := funcionario_reporta x;
     fecha_reporte := fecha_reporte x; tipo_proceso := tipo_proceso x;
     estado := estado x; observaciones := observaciones x;
     funcionario_resuelve := funcionario_resuelve x;
     fecha_resolucion := fecha_resolucion x;
     descripcion_resolucion := descripcion_resolucion x;
     funcionario_actual := funcionario_actual x;
     fecha_ultima_actualizacion := d;
     _domain_events := _domain_events x; _initialized := _initialized x |}.

Definition con_eventos (l : list DomainEvent) (x : t) : t :=
  {| identificador := identificador x; placa := placa x;
     tipo_novedad := tipo_novedad x; descripcion := descripcion x;
     prioridad := prioridad x; funcionario_reporta := funcionario_reporta x;
     fecha_reporte := fecha_reporte x; tipo_proceso := tipo_proceso x;
     estado := estado x; observaciones := observaciones x;
     funcionario_resuelve := funcionario_resuelve x;
     fecha_resolucion := fecha_resolucion x;
     descripcion_resolucion := descripcion_resolucion x;
     funcionario_actual := funcionario_actual x;
     fecha_ultima_actualizacion := fecha_ultima_actualizacion x;
     _domain_events := l; _initialized := _initialized x |}.

Definition _add_domain_event (event : DomainEvent) (x : t) : t :=
  con_eventos (_domain_events x ++ [event]) x.

Definition get_domain_events (x : t) : list DomainEvent * t :=
  (_domain_events x, con_eventos [] x).

Definition _validar_funcionario_reporta (funcionario_reporta : string)
  : resultado unit :=
  if negb (PyStr.no_vacio funcionario_reporta) ||
     negb (PyStr.no_vacio (PyStr.strip funcionario_reporta))
  then Error "El funcionario que reporta no puede estar vacío"
  else Ok tt.

Definition _validar_tipo_proceso (tipo_proceso : string) : resultado unit :=
  let tp := PyStr.lower tipo_proceso in
  if String.eqb tp "traslado" || String.eqb tp "radicacion" then Ok tt
  else Error "El tipo de proceso debe ser 'traslado' o 'radicacion'".

Definition _validar_fechas (r : Reloj) (fecha_reporte : Z)
    (fecha_resolucion : option Z) : resultado unit :=
  if fecha_reporte >? hoy r then
    Error "La fecha de reporte no puede ser futura"
  else
    match fecha_resolucion with
    | Some d =>
        if d <? fecha_reporte
        then Error "La fecha de resolución no puede ser anterior al reporte"
        else Ok tt
    | None => Ok tt
    end.

Definition esta_resuelta (self : t) : bool :=
  EstadoNovedad.eqb (estado self) EstadoNovedad.RESUELTA.

Definition puede_pasar_a_revision (self : t) : bool :=
  EstadoNovedad.puede_transicionar_a (estado self) EstadoNovedad.EN_REVISION.

Definition puede_ser_resuelta (self : t) : bool :=
  EstadoNovedad.puede_transicionar_a (estado self) EstadoNovedad.RESUELTA.

Definition puede_ser_reabierta (self : t) : bool :=
  EstadoNovedad.puede_transicionar_a (estado self) EstadoNovedad.REABIERTA.

Definition puede_cambiar_prioridad (self : t) : bool :=
  negb (esta_resuelta self).

(** [not texto or not texto.strip()] *)
Definition en_blanco (texto : string) : bool :=
  negb (PyStr.no_vacio texto) || negb (PyStr.no_vacio (PyStr.strip texto)).

(** The closing block of the commands that log an entry. *)
Definition anexar_entrada (r : Reloj) (texto funcionario_id : string)
    (self : t) : efecto t :=
  match Observacion.crear_con_timestamp r texto funcionario_id with
  | Error msg => Fallo self msg
  | Ok obs =>
      match Observacion.combinar_observaciones [observaciones self; obs] with
      | Error msg => Fallo self msg
      | Ok nueva_obs => Hecho (con_observaciones nueva_obs self)
      end
  end.

Definition tomar_en_revision (r : Reloj) (self : t) (funcionario_id : string)
  : efecto t :=
  if negb (puede_pasar_a_revision self) then
    Fallo self ("No se puede pasar a revisión desde estado: " ++
                EstadoNovedad.value (estado self))
  else
    let s1 := con_estado EstadoNovedad.EN_REVISION self in
    let s2 := con_funcionario_actual
                (Some (PyStr.upper (PyStr.strip funcionario_id))) s1 in
    let s3 := con_fecha_actualizacion (Some (hoy r)) s2 in
    anexar_entrada r ("Novedad tomada en revisión por " ++ funcionario_id)
      funcionario_id s3.

Definition resolver_novedad (r : Reloj) (self : t)
    (funcionario_id descripcion_resolucion : string) : efecto t :=
  if negb (puede_ser_resuelta self) then
    Fallo self ("No se puede resolver desde estado: " ++
                EstadoNovedad.value (estado self))
  else if en_blanco descripcion_resolucion then
    Fallo self "La descripción de resolución no puede estar vacía"
  else
    let f := Some (PyStr.upper (PyStr.strip funcionario_id)) in
    let s1 := con_estado EstadoNovedad.RESUELTA self in
    let s2 := con_resolucion f (Some (hoy r))
                (Some (PyStr.strip descripcion_resolucion)) s1 in
    let s3 := con_funcionario_actual f s2 in
    let s4 := con_fecha_actualizacion (Some (hoy r)) s3 in
    anexar_entrada r ("NOVEDAD RESUELTA: " ++ descripcion_resolucion)
      funcionario_id s4.

Definition reabrir_novedad (r : Reloj) (self : t)
    (funcionario_id motivo_reapertura : string) : efecto t :=
  if negb (puede_ser_reabierta self) then
    Fallo self ("No se puede reabrir desde estado: " ++
                EstadoNovedad.value (estado self))
  else if en_blanco motivo_reapertura then
    Fallo self "El motivo de reapertura no puede estar vacío"
  else
    let s1 := con_estado EstadoNovedad.REABIERTA self in
    let s2 := con_funcionario_actual
                (Some (PyStr.upper (PyStr.strip funcionario_id))) s1 in
    let s3 := con_fecha_actualizacion (Some (hoy r)) s2 in
    let s4 := con_resolucion None None None s3 in
    anexar_entrada r ("NOVEDAD REABIERTA: " ++ motivo_reapertura)
      funcionario_id s4.

Definition cambiar_prioridad (r : Reloj) (self : t) (funcionario_id : string)
    (nueva_prioridad : PrioridadNovedad.t) (justificacion : string)
  : efecto t :=
  if negb (puede_cambiar_prioridad self) then
    Fallo self "No se puede cambiar la prioridad de una novedad resuelta"
  else if PrioridadNovedad.eqb nueva_prioridad (prioridad self) then
    Fallo self "La nueva prioridad debe ser diferente a la actual"
  else if en_blanco justificacion then
    Fallo self "La justificación del cambio de prioridad no puede estar vacía"
  else
    let prioridad_anterior := prioridad self in
    let s1 := con_prioridad nueva_prioridad self in
    let s2 := con_funcionario_actual
                (Some (PyStr.upper (PyStr.strip funcionario_id))) s1 in
    let s3 := con_fecha_actualizacion (Some (hoy r)) s2 in
    anexar_entrada r
      ("PRIORIDAD CAMBIADA: De " ++
       PyStr.upper (PrioridadNovedad.value prioridad_anterior) ++ " a " ++
       PyStr.upper (PrioridadNovedad.value nueva_prioridad) ++ ". " ++
       justificacion)
      funcionario_id s3.

Definition actualizar_observaciones (r : Reloj) (self : t)
    (funcionario_id nuevas_observaciones : string) : efecto t :=
  if esta_resuelta self then
    Fallo self "No se pueden actualizar observaciones de una novedad resuelta"
  else
    match anexar_entrada r nuevas_observaciones funcionario_id self with
    | Fallo s msg => Fallo s msg
    | Hecho s => Hecho (con_fecha_actualizacion (Some (hoy r)) s)
    end.

(** The dataclass constructor with [__post_init__]. *)
Definition crear (r : Reloj) (identificador : IdentificadorNovedad.t)
    (placa : Placa.t) (tipo_novedad : TipoNovedad.t)
    (descripcion : DescripcionNovedad.t) (prioridad : PrioridadNovedad.t)
    (funcionario_reporta : string) (fecha_reporte : Z) (tipo_proceso : string)
    (estado : EstadoNovedad.t) (observaciones : Observacion.t)
    (funcionario_resuelve : option string) (fecha_resolucion : option Z)
    (descripcion_resolucion : option string)
    (funcionario_actual : option string)
    (fecha_ultima_actualizacion : option Z) : resultado t :=
  match _validar_funcionario_reporta funcionario_reporta with
  | Error msg => Error msg
  | Ok _ =>
  match _validar_tipo_proceso tipo_proceso with
  | Error msg => Error msg
  | Ok _ =>
  match _validar_fechas r fecha_reporte fecha_resolucion with
  | Error msg => Error msg
  | Ok _ =>
      let reporta := PyStr.upper (PyStr.strip funcionario_reporta) in
      Ok {| identificador := identificador; placa := placa;
            tipo_novedad := tipo_novedad; descripcion := descripcion;
            prioridad := prioridad; funcionario_reporta := reporta;
            fecha_reporte := fecha_reporte;
            tipo_proceso := PyStr.strip (PyStr.lower tipo_proceso);
            estado := estado; observaciones := observaciones;
            funcionario_resuelve := funcionario_resuelve;
            fecha_resolucion := fecha_resolucion;
            descripcion_resolucion := descripcion_resolucion;
            funcionario_actual :=
              match funcionario_actual with
              | None => Some reporta
              | Some f => Some f
              end;
            fecha_ultima_actualizacion :=
              match fecha_ultima_actualizacion with
              | None => Some (hoy r)
              | Some d => Some d
              end;
            _domain_events := []; _initialized := true |}
  end end end.

Definition crear_desde_repositorio (r : Reloj)
    (identificador : IdentificadorNovedad.t)
    (placa : Placa.t) (tipo_novedad : TipoNovedad.t)
    (descripcion : DescripcionNovedad.t) (prioridad : PrioridadNovedad.t)
    (funcionario_reporta : string) (fecha_reporte : Z) (tipo_proceso : string)
    (estado : EstadoNovedad.t) (observaciones : Observacion.t)
    (funcionario_resuelve : option string) (fecha_resolucion : option Z)
    (descripcion_resolucion : option string)
    (funcionario_actual : option string)
    (fecha_ultima_actualizacion : option Z) : resultado t :=
  let reporta := PyStr.upper (PyStr.strip funcionario_reporta) in
  let proceso := PyStr.strip (PyStr.lower tipo_proceso) in
  match _validar_funcionario_reporta reporta with
  | Error msg => Error msg
  | Ok _ =>
  match _validar_tipo_proceso proceso with
  | Error msg => Error msg
  | Ok _ =>
  match _validar_fechas r fecha_reporte fecha_resolucion with
  | Error msg => Error msg
  | Ok _ =>
      Ok {| identificador := identificador; placa := placa;
            tipo_novedad := tipo_novedad; descripcion := descripcion;
            prioridad := prioridad; funcionario_reporta := reporta;
            fecha_reporte := fecha_reporte;
            tipo_proceso := proceso;
            estado := estado; observaciones := observaciones;
            funcionario_resuelve := funcionario_resuelve;
            fecha_resolucion := fecha_resolucion;
            descripcion_resolucion := descripcion_resolucion;
            funcionario_actual := funcionario_actual;
            fecha_ultima_actualizacion := fecha_ultima_actualizacion;
            _domain_events := []; _initialized := true |}
  end end end.

End Novedad.

(** ** Commands as data, and runs *)

(** The coherence of an account state with its two process flags. *)
Definition coherente_valores (e : EstadoCuenta) (traslado radicacion : bool)
  : Prop :=
  ~ (traslado = true /\ radicacion = true) /\
  (e = EN_TRASLADO <-> traslado = true) /\
  (e = EN_RADICACION <-> radicacion = true) /\
  ((e = ACTIVA \/ e = INACTIVA) <-> (traslado = false /\ radicacion = false)).

Definition coherente (c : Cuenta.t) : Prop :=
  coherente_valores (Cuenta.estado c) (Cuenta.proceso_traslado_activo c)
                    (Cuenta.proceso_radicacion_activo c).

Module CuentaCmd.

(** One call of a public method of [Cuenta] that can change the object. *)
Inductive t : Type :=
| IniciarTraslado (funcionario_id : string)
| IniciarRadicacion (funcionario_id : string)
| CompletarTraslado (funcionario_id : string)
| CompletarRadicacion (funcionario_id : string)
| DevolverTraslado (funcionario_id motivo : string)
| DevolverRadicacion (funcionario_id motivo : string)
| Inactivar (funcionario_id motivo : string)
| Reactivar (funcionario_id : string)
| Reasignar (nuevo autoriza motivo : string) (observaciones : option string)
| GetDomainEvents.

Definition ejecutar (r : Reloj) (cmd : t) (c : Cuenta.t) : efecto Cuenta.t :=
  match cmd with
  | IniciarTraslado f => Cuenta.iniciar_proceso_traslado r c f
  | IniciarRadicacion f => Cuenta.iniciar_proceso_radicacion r c f
  | CompletarTraslado f => Cuenta.completar_proceso_traslado r c f
  | CompletarRadicacion f => Cuenta.completar_proceso_radicacion r c f
  | DevolverTraslado f m => Cuenta.devolver_proceso_traslado r c f m
  | DevolverRadicacion f m => Cuenta.devolver_proceso_radicacion r c f m
  | Inactivar f m => Cuenta.inactivar_cuenta r c f m
  | Reactivar f => Cuenta.reactivar_cuenta r c f
  | Reasignar n a m o => Cuenta.reasignar_funcionario r c n a m o
  | GetDomainEvents => Hecho (snd (Cuenta.get_domain_events c))
  end.

(** The object after a sequence of calls, each at its own clock reading; a
    call that raises leaves the object as the exception found it and the
    run goes on. *)
Fixpoint correr (cmds : list (Reloj * t)) (c : Cuenta.t) : Cuenta.t :=
  match cmds with
  | [] => c
  | (r, cmd) :: resto => correr resto (estado_tras (ejecutar r cmd c))
  end.

(** The event a command hands to [_add_domain_event] when it gets there,
    read off the [create] call of each method. *)
Definition evento_de (cmd : t) (c : Cuenta.t) : list DomainEvent :=
  let p := Placa.str (Cuenta.placa c) in
  let n := NumeroCuenta.str (Cuenta.numero_cuenta c) in
  match cmd with
  | IniciarTraslado f => [ProcesoIniciadoEvent_create p "traslado" f n]
  | IniciarRadicacion f => [ProcesoIniciadoEvent_create p "radicacion" f n]
  | CompletarTraslado f =>
      [ProcesoCompletadoEvent_create p "traslado" f n "completado" None]
  | CompletarRadicacion f =>
      [ProcesoCompletadoEvent_create p "radicacion" f n "completado" None]
  | DevolverTraslado f m =>
      [ProcesoCompletadoEvent_create p "traslado" f n "devuelto" (Some m)]
  | DevolverRadicacion f m =>
      [ProcesoCompletadoEvent_create p "radicacion" f n "devuelto" (Some m)]
  | Inactivar f m => [CuentaInactivadaEvent_create p f m]
  | Reactivar f => [CuentaReactivadaEvent_create p f]
  | Reasignar nuevo a m _ =>
      [CuentaReasignadaEvent_create p (Cuenta.get_funcionario_actual c)
         nuevo (Some a) m]
  | GetDomainEvents => []
  end.

(** What the buffer is expected to hold after a run that starts with
    [buf] pending: a drain empties it, a command that returns adds its
    event at the end, a command that raises adds nothing. *)
Fixpoint pendientes (cmds : list (Reloj * t)) (c : Cuenta.t)
    (buf : list DomainEvent) : list DomainEvent :=
  match cmds with
  | [] => buf
  | (r, cmd) :: resto =>
      let e := ejecutar r cmd c in
      let buf' :=
        match cmd with
        | GetDomainEvents => []
        | _ => if exitoso e then (buf ++ evento_de cmd c)%list else buf
        end in
      pendientes resto (estado_tras e) buf'
  end.


End CuentaCmd.

(** An account that came out of one of its constructors. *)
Definition construida (c : Cuenta.t) : Prop :=
  (exists r placa tipo_servicio funcionario_creador consecutivo,
      Cuenta.crear_nueva_cuenta r placa tipo_servicio funcionario_creador
        consecutivo = Ok c) \/
  (exists placa numero tipo_servicio estado fecha funcionario_creador
          historial anterior traslado radicacion,
      Cuenta.crear_desde_repositorio placa numero tipo_servicio estado fecha
        funcionario_creador historial anterior traslado radicacion = Ok c) \/
  (exists r placa numero tipo_servicio fecha funcionario_creador estado
          historial,
      Cuenta.crear r placa numero tipo_servicio fecha funcionario_creador
        estado historial = Ok c).

Module NovedadCmd.

Inductive t : Type :=
| TomarEnRevision (funcionario_id : string)
| ResolverNovedad (funcionario_id descripcion_resolucion : string)
| ReabrirNovedad (funcionario_id motivo_reapertura : string)
| CambiarPrioridad (funcionario_id : string)
                   (nueva_prioridad : PrioridadNovedad.t)
                   (justificacion : string)
| ActualizarObservaciones (funcionario_id nuevas_observaciones : string)
| GetDomainEvents.

Definition ejecutar (r : Reloj) (cmd : t) (n : Novedad.t) : efecto Novedad.t :=
  match cmd with
  | TomarEnRevision f => Novedad.tomar_en_revision r n f
  | ResolverNovedad f d => Novedad.resolver_novedad r n f d
  | ReabrirNovedad f m => Novedad.reabrir_novedad r n f m
  | CambiarPrioridad f p j => Novedad.cambiar_prioridad r n f p j
  | ActualizarObservaciones f o => Novedad.actualizar_observaciones r n f o
  | GetDomainEvents => Hecho (snd (Novedad.get_domain_events n))
  end.



Fixpoint correr (cmds : list (Reloj * t)) (n : Novedad.t) : Novedad.t :=
  match cmds with
  | [] => n
  | (r, cmd) :: resto => correr resto (estado_tras (ejecutar r cmd n))
  end.

End NovedadCmd.

Module RadicacionCmd.

Inductive t : Type :=
| MarcarComoRecibida (funcionario_id : string)
| MarcarComoRevisada (funcionario_id : string)
| CompletarRadicacion (funcionario_id : string)
                      (observaciones_finales : option string)
| ReportarNovedad (funcionario_id descripcion_novedad : string)
| ResolverNovedad (funcionario_id descripcion_resolucion : string)
| DevolverRadicacion (funcionario_id motivo_devolucion : string)
                     (es_admin : bool)
| ActualizarObservaciones (funcionario_id nuevas_observaciones : string)
| GetDomainEvents.

Definition ejecutar (r : Reloj) (cmd : t) (x : Radicacion.t)
  : efecto Radicacion.t :=
  match cmd with
  | MarcarComoRecibida f => Radicacion.marcar_como_recibida r x f
  | MarcarComoRevisada f => Radicacion.marcar_como_revisada r x f
  | CompletarRadicacion f o => Radicacion.completar_radicacion r x f o
  | ReportarNovedad f d => Radicacion.reportar_novedad r x f d
  | ResolverNovedad f d => Radicacion.resolver_novedad r x f d
  | DevolverRadicacion f m a => Radicacion.devolver_radicacion r x f m a
  | ActualizarObservaciones f o => Radicacion.actualizar_observaciones r x f o
  | GetDomainEvents => Hecho (snd (Radicacion.get_domain_events x))
  end.

Definition es_recibir (cmd : t) : bool :=
  match cmd with MarcarComoRecibida _ => true | _ => false end.


Fixpoint correr (cmds : list (Reloj * t)) (x : Radicacion.t) : Radicacion.t :=
  match cmds with
  | [] => x
  | (r, cmd) :: resto => correr resto (estado_tras (ejecutar r cmd x))
  end.

(** The administrator flag a call carries; only [devolver] has one. *)
Definition es_admin_de (cmd : t) : bool :=
  match cmd with DevolverRadicacion _ _ a => a | _ => false end.

Definition es_drenaje (cmd : t) : bool :=
  match cmd with GetDomainEvents => true | _ => false end.

End RadicacionCmd.


(** ** Sample data *)

Module Ejemplo.

Definition reloj : Reloj :=
  {| hoy := 739924; hoy_yyyymmdd := "20261104"; marca := "04/11/2026 10:30" |}.

Definition placa : Placa.t := {| Placa.valor := "ABC123" |}.

Definition cali : Ubicacion.t :=
  {| Ubicacion.codigo := "CALI";
     Ubicacion.nombre_completo := "Secretaría de Movilidad de Cali";
     Ubicacion.municipio := "Cali";
     Ubicacion.departamento := "Valle del Cauca";
     Ubicacion.direccion := None; Ubicacion.telefono := None |}.

(** [Cuenta.crear_nueva_cuenta(Placa("ABC123"), TipoServicio.PARTICULAR, "FUNC001")] *)
Definition cuenta_nueva : resultado Cuenta.t :=
  Cuenta.crear_nueva_cuenta reloj placa TipoServicio.PARTICULAR "FUNC001" None.

(** ["A" * 600] *)
Definition motivo_muy_largo : string := PyStr.repetir "A"%char 600.



(** A transfer just sent, with one stamped observation. *)
Definition traslado_enviado : resultado Traslado.t :=
  Traslado.crear_nuevo reloj placa cali {| FechaTramite.fecha := 739924 |}
    "JPEREZ" (Some "Traslado de prueba").

Definition radicacion_recibida : resultado Radicacion.t :=
  Radicacion.crear_desde_repositorio placa cali
    {| FechaTramite.fecha := 739920 |} {| FechaVencimiento.fecha := 739980 |}
    "MGARCIA" EstadoRadicacion.RECIBIDO Observacion.vacia
    (Some "MGARCIA") (Some 739921).

Definition novedad_resuelta : resultado Novedad.t :=
  Novedad.crear_desde_repositorio reloj
    {| IdentificadorNovedad.codigo := "NOV-20261101-00001";
       IdentificadorNovedad.fecha_creacion := 739921;
       IdentificadorNovedad.consecutivo := 1;
       IdentificadorNovedad.uuid_interno := "a1b2c3d4" |}
    placa TipoNovedad.DOCUMENTO_FALTANTE
    {| DescripcionNovedad.valor := "Falta el certificado de tradicion" |}
    PrioridadNovedad.ALTA "R0" 739921 "traslado" EstadoNovedad.RESUELTA
    Observacion.vacia (Some "R1") (Some 739922) (Some "fix")
    (Some "R1") (Some 739922).

End Ejemplo.

(** The coherence of a state with its flags, as a decision. *)
Definition coherente_b (e : EstadoCuenta) (traslado radicacion : bool) : bool :=
  match e, traslado, radicacion with
  | ACTIVA, false, false
  | INACTIVA, false, false
  | EN_TRASLADO, true, false
  | EN_RADICACION, false, true => true
  | _, _, _ => false
  end.

(** The coherence decision on an account. *)
Definition coh (c : Cuenta.t) : bool :=
  coherente_b (Cuenta.estado c) (Cuenta._proceso_traslado_activo c)
              (Cuenta._proceso_radicacion_activo c).

(** Does the string hold a character that is not white space: what the
    test [s.strip()] asks. *)
Fixpoint tiene_visible (s : string) : bool :=
  match s with
  | EmptyString => false
  | String c r => negb (PyStr.es_espacio c) || tiene_visible r
  end.

Module TrasladoCmd.

Inductive t : Type :=
| MarcarComoRevisado (funcionario_id : string)
| CompletarTraslado (funcionario_id : string)
                    (observaciones_finales : option string)
| ReportarNovedad (funcionario_id descripcion_novedad : string)
| ResolverNovedad (funcionario_id descripcion_resolucion : string)
| DevolverTraslado (funcionario_id motivo_devolucion : string)
                   (es_admin : bool)
| ActualizarObservaciones (funcionario_id nuevas_observaciones : string)
| GetDomainEvents.

Definition ejecutar (r : Reloj) (cmd : t) (x : Traslado.t)
  : efecto Traslado.t :=
  match cmd with
  | MarcarComoRevisado f => Traslado.marcar_como_revisado r x f
  | CompletarTraslado f o => Traslado.completar_traslado r x f o
  | ReportarNovedad f d => Traslado.reportar_novedad r x f d
  | ResolverNovedad f d => Traslado.resolver_novedad r x f d
  | DevolverTraslado f m a => Traslado.devolver_traslado r x f m a
  | ActualizarObservaciones f o => Traslado.actualizar_observaciones r x f o
  | GetDomainEvents => Hecho (snd (Traslado.get_domain_events x))
  end.


(** The administrator flag a call carries; only [devolver] has one. *)
Definition es_admin_de (cmd : t) : bool :=
  match cmd with DevolverTraslado _ _ a => a | _ => false end.

Definition es_drenaje (cmd : t) : bool :=
  match cmd with GetDomainEvents => true | _ => false end.

End TrasladoCmd.

(** Two objects that agree on every attribute but the event buffer. *)
Definition cuenta_salvo_eventos (a b : Cuenta.t) : Prop :=
  Cuenta.placa a = Cuenta.placa b /\
  Cuenta.numero_cuenta a = Cuenta.numero_cuenta b /\
  Cuenta.tipo_servicio a = Cuenta.tipo_servicio b /\
  Cuenta.fecha_creacion a = Cuenta.fecha_creacion b /\
  Cuenta.funcionario_creador a = Cuenta.funcionario_creador b /\
  Cuenta.estado a = Cuenta.estado b /\
  Cuenta.historial_asignaciones a = Cuenta.historial_asignaciones b /\
  Cuenta._tipo_proceso_anterior a = Cuenta._tipo_proceso_anterior b /\
  Cuenta._proceso_traslado_activo a = Cuenta._proceso_traslado_activo b /\
  Cuenta._proceso_radicacion_activo a = Cuenta._proceso_radicacion_activo b /\
  Cuenta._initialized a = Cuenta._initialized b.

Definition traslado_salvo_eventos (a b : Traslado.t) : Prop :=
  Traslado.placa a = Traslado.placa b /\
  Traslado.organismo_destino a = Traslado.organismo_destino b /\
  Traslado.fecha_tramite a = Traslado.fecha_tramite b /\
  Traslado.fecha_vencimiento a = Traslado.fecha_vencimiento b /\
  Traslado.funcionario_envia a = Traslado.funcionario_envia b /\
  Traslado.estado a = Traslado.estado b /\
  Traslado.observaciones a = Traslado.observaciones b /\
  Traslado.funcionario_actual a = Traslado.funcionario_actual b /\
  Traslado.fecha_ultima_actualizacion a = Traslado.fecha_ultima_actualizacion b /\
  Traslado._initialized a = Traslado._initialized b.

Definition radicacion_salvo_eventos (a b : Radicacion.t) : Prop :=
  Radicacion.placa a = Radicacion.placa b /\
  Radicacion.organismo_origen a = Radicacion.organismo_origen b /\
  Radicacion.fecha_tramite a = Radicacion.fecha_tramite b /\
  Radicacion.fecha_vencimiento a = Radicacion.fecha_vencimiento b /\
  Radicacion.funcionario_recibe a = Radicacion.funcionario_recibe b /\
  Radicacion.estado a = Radicacion.estado b /\
  Radicacion.observaciones a = Radicacion.observaciones b /\
  Radicacion.funcionario_actual a = Radicacion.funcionario_actual b /\
  Radicacion.fecha_ultima_actualizacion a =
    Radicacion.fecha_ultima_actualizacion b /\
  Radicacion._initialized a = Radicacion._initialized b /\
  Radicacion._fue_recibida a = Radicacion._fue_recibida b.

Definition novedad_salvo_eventos (a b : Novedad.t) : Prop :=
  Novedad.identificador a = Novedad.identificador b /\
  Novedad.placa a = Novedad.placa b /\
  Novedad.tipo_novedad a = Novedad.tipo_novedad b /\
  Novedad.descripcion a = Novedad.descripcion b /\
  Novedad.prioridad a = Novedad.prioridad b /\
  Novedad.funcionario_reporta a = Novedad.funcionario_reporta b /\
  Novedad.fecha_reporte a = Novedad.fecha_reporte b /\
  Novedad.tipo_proceso a = Novedad.tipo_proceso b /\
  Novedad.estado a = Novedad.estado b /\
  Novedad.observaciones a = Novedad.observaciones b /\
  Novedad.funcionario_resuelve a = Novedad.funcionario_resuelve b /\
  Novedad.fecha_resolucion a = Novedad.fecha_resolucion b /\
  Novedad.descripcion_resolucion a = Novedad.descripcion_resolucion b /\
  Novedad.funcionario_actual a = Novedad.funcionario_actual b /\
  Novedad.fecha_ultima_actualizacion a = Novedad.fecha_ultima_actualizacion b /\
  Novedad._initialized a = Novedad._initialized b.

(** The buffer a command of a process entity or of an incident leaves:
    a drain empties it and no other command touches it. *)
Definition tras_comando (drena : bool) (buf : list DomainEvent)
  : list DomainEvent :=
  if drena then [] else buf.





(** The resolution attributes are all set in RESUELTA and all None in the
    other states. *)
Definition resolucion_coherente (n : Novedad.t) : bool :=
  match Novedad.estado n, Novedad.funcionario_resuelve n,
        Novedad.fecha_resolucion n, Novedad.descripcion_resolucion n with
  | EstadoNovedad.RESUELTA, Some _, Some _, Some _ => true
  | EstadoNovedad.RESUELTA, _, _, _ => false
  | _, None, None, None => true
  | _, _, _, _ => false
  end.

(** The reception flag against the state: not received only before the
    reception or after a return, received never in PENDIENTE_RADICAR. *)
Definition recepcion_coherente (x : Radicacion.t) : bool :=
  match Radicacion._fue_recibida x, Radicacion.estado x with
  | false, EstadoRadicacion.PENDIENTE_RADICAR
  | false, EstadoRadicacion.DEVUELTO => true
  | true, EstadoRadicacion.PENDIENTE_RADICAR => false
  | true, _ => true
  | false, _ => false
  end.

(** The clock prints the day it counts: eight digits that name a date
    between 1900 and 2100 whose ordinal is [hoy]. *)
Definition reloj_de_calendario (r : Reloj) : Prop :=
  String.length (hoy_yyyymmdd r) = 8%nat /\
  NumeroCuenta.solo_digitos (hoy_yyyymmdd r) = hoy_yyyymmdd r /\
  NumeroCuenta._es_fecha_valida (hoy_yyyymmdd r) = true /\
  NumeroCuenta.get_fecha_de (hoy_yyyymmdd r) = hoy r.


(** * Properties *)

(** ** The coherence invariant of the account *)

Lemma coherente_refleja (e : EstadoCuenta) (t r : bool) :
  coherente_valores e t r <-> coherente_b e t r = true.
Proof.
  unfold coherente_valores.
  destruct e, t, r; simpl; split; intro H; try reflexivity; try discriminate;
    try (repeat split; intros; try discriminate; try tauto;
         try (destruct H0; discriminate); try (intros [? ?]; discriminate));
    try (exfalso; destruct H as (H1 & H2 & H3 & H4);
         first [ apply H1; split; reflexivity
               | assert (X : true = false) by (first [apply H2 | apply H3]; reflexivity); discriminate
               | assert (X : false = true) by (first [apply H2 | apply H3]; reflexivity); discriminate
               | destruct H4 as [H4 H5];
                 first [ destruct (H4 (or_introl eq_refl)); discriminate
                       | destruct (H4 (or_intror eq_refl)); discriminate
                       | destruct (H5 (conj eq_refl eq_refl)); discriminate ] ]).
Qed.


Lemma validar_coherencia_ok (c : Cuenta.t) :
  Cuenta._validar_coherencia_estado c = Ok tt -> coh c = true.
Proof.
  unfold Cuenta._validar_coherencia_estado, coh.
  destruct (Cuenta.estado c), (Cuenta._proceso_traslado_activo c),
    (Cuenta._proceso_radicacion_activo c); simpl; intro H;
    first [reflexivity | discriminate].
Qed.

Ltac caso_asignacion :=
  match goal with
  | |- context [match ?x with Ok _ => _ | Error _ => _ end] =>
      destruct x; simpl
  end.

Lemma paso_coherente (r : Reloj) (cmd : CuentaCmd.t) (c : Cuenta.t) :
  coh c = true -> coh (estado_tras (CuentaCmd.ejecutar r cmd c)) = true.
Proof.
  unfold coh. destruct c as [p n ts fc creador e h evs ant tr ra ini].
  destruct cmd; simpl;
    unfold Cuenta.iniciar_proceso_traslado, Cuenta.iniciar_proceso_radicacion,
      Cuenta.completar_proceso_traslado, Cuenta.completar_proceso_radicacion,
      Cuenta.devolver_proceso_traslado, Cuenta.devolver_proceso_radicacion,
      Cuenta.inactivar_cuenta, Cuenta.reactivar_cuenta,
      Cuenta.reasignar_funcionario,
      Cuenta.puede_iniciar_traslado, Cuenta.puede_iniciar_radicacion,
      Cuenta.tiene_proceso_activo, Cuenta.esta_inactiva,
      Cuenta.tiene_traslado_activo, Cuenta.tiene_radicacion_activa;
    simpl; intro H.
  all: destruct e, tr, ra; try discriminate H; simpl; try reflexivity.
  all: try (destruct (TipoProcesoAnterior.permite_traslado ant); simpl; try reflexivity).
  all: try (destruct (TipoProcesoAnterior.permite_radicacion ant); simpl; try reflexivity).
  all: try (caso_asignacion; reflexivity).
  all: try (match goal with |- context [if ?b then _ else _] => destruct b; simpl; try reflexivity end; caso_asignacion; reflexivity).
Qed.

Lemma crear_desde_repositorio_coherente placa numero ts estado fecha creador
    historial anterior traslado radicacion c :
  Cuenta.crear_desde_repositorio placa numero ts estado fecha creador
    historial anterior traslado radicacion = Ok c -> coh c = true.
Proof.
  unfold Cuenta.crear_desde_repositorio.
  destruct (Cuenta._validar_funcionario_creador _); [|discriminate].
  match goal with
  | |- context [Cuenta._validar_coherencia_estado ?x] =>
      destruct (Cuenta._validar_coherencia_estado x) as [[]|] eqn:V
  end; [|discriminate].
  intro H; injection H as <-. exact (validar_coherencia_ok _ V).
Qed.

Lemma crear_coherente r placa numero ts fecha creador estado historial c :
  Cuenta.crear r placa numero ts fecha creador estado historial = Ok c ->
  coh c = true.
Proof.
  unfold Cuenta.crear.
  destruct (Cuenta._validar_funcionario_creador _); [|discriminate].
  match goal with
  | |- context [match ?x with Ok _ => _ | Error _ => _ end] =>
      destruct x as [h|]; [|discriminate]
  end.
  match goal with
  | |- context [Cuenta._validar_coherencia_estado ?x] =>
      destruct (Cuenta._validar_coherencia_estado x) as [[]|] eqn:V
  end; [|discriminate].
  apply validar_coherencia_ok in V. unfold coh in *. simpl in V.
  destruct h as [|x1 [|x2 h']];
    try destruct (HistorialAsignacion.es_asignacion_inicial x1);
    intro H; injection H as <-; simpl; exact V.
Qed.

Lemma crear_nueva_cuenta_coherente r placa ts creador consecutivo c :
  Cuenta.crear_nueva_cuenta r placa ts creador consecutivo = Ok c ->
  coh c = true.
Proof.
  unfold Cuenta.crear_nueva_cuenta.
  destruct (NumeroCuenta.generar_para_hoy _ _); [|discriminate].
  destruct (FechaCreacion.crear_hoy _); [|discriminate].
  apply crear_coherente.
Qed.

Lemma construida_coherente (c : Cuenta.t) : construida c -> coh c = true.
Proof.
  intros [H | [H | H]].
  - destruct H as (r & p & ts & f & k & H).
    exact (crear_nueva_cuenta_coherente _ _ _ _ _ _ H).
  - destruct H as (p & n & ts & e & fc & f & h & a & tr & ra & H).
    exact (crear_desde_repositorio_coherente _ _ _ _ _ _ _ _ _ _ _ H).
  - destruct H as (r & p & n & ts & fc & f & e & h & H).
    exact (crear_coherente _ _ _ _ _ _ _ _ _ H).
Qed.

Lemma correr_coherente (cmds : list (Reloj * CuentaCmd.t)) :
  forall c, coh c = true -> coh (CuentaCmd.correr cmds c) = true.
Proof.
  induction cmds as [|[r cmd] resto IH]; intros c H; simpl.
  - exact H.
  - apply IH. apply paso_coherente. exact H.
Qed.

(** C1.  An account that came out of a constructor, after any sequence of
    calls of its commands (those that return and those that raise), never
    has both process flags set; its state is EN_TRASLADO exactly when the
    transfer flag is set, EN_RADICACION exactly when the reception flag is
    set, and ACTIVA or INACTIVA exactly when neither is. *)
Theorem C1_coherencia_estado_procesos (c : Cuenta.t)
    (cmds : list (Reloj * CuentaCmd.t)) :
  construida c -> coherente (CuentaCmd.correr cmds c).
Proof.
  intro H. apply coherente_refleja.
  apply (correr_coherente cmds c). apply construida_coherente. exact H.
Qed.

(** C1, at a new account taken through three commands. *)
Lemma C1_witness :
  exists c, Ejemplo.cuenta_nueva = Ok c /\
    coherente (CuentaCmd.correr
                 [(Ejemplo.reloj, CuentaCmd.IniciarTraslado "FUNC001");
                  (Ejemplo.reloj, CuentaCmd.IniciarRadicacion "FUNC002");
                  (Ejemplo.reloj, CuentaCmd.DevolverTraslado "FUNC002" "error")]
                 c).
Proof.
  eexists. split; [vm_compute; reflexivity|].
  apply C1_coherencia_estado_procesos.
  left. exists Ejemplo.reloj, Ejemplo.placa, TipoServicio.PARTICULAR, "FUNC001", None.
  vm_compute. reflexivity.
Defined.

(** ** The permission matrix of the previous process *)

(** C4.  Both processes are permitted exactly after NINGUNO and the two
    DEVUELTO values; exactly one is permitted exactly after the two
    COMPLETADO values: TRASLADO_COMPLETADO permits only a reception and
    RADICACION_COMPLETADA only a transfer. *)
Theorem C4_matriz_permisos (t : TipoProcesoAnterior.t) :
  (TipoProcesoAnterior.permite_traslado t &&
   TipoProcesoAnterior.permite_radicacion t = true <->
   t = TipoProcesoAnterior.NINGUNO \/
   t = TipoProcesoAnterior.TRASLADO_DEVUELTO \/
   t = TipoProcesoAnterior.RADICACION_DEVUELTA) /\
  (xorb (TipoProcesoAnterior.permite_traslado t)
        (TipoProcesoAnterior.permite_radicacion t) = true <->
   t = TipoProcesoAnterior.TRASLADO_COMPLETADO \/
   t = TipoProcesoAnterior.RADICACION_COMPLETADA) /\
  TipoProcesoAnterior.permite_traslado
    TipoProcesoAnterior.TRASLADO_COMPLETADO = false /\
  TipoProcesoAnterior.permite_radicacion
    TipoProcesoAnterior.TRASLADO_COMPLETADO = true /\
  TipoProcesoAnterior.permite_traslado
    TipoProcesoAnterior.RADICACION_COMPLETADA = true /\
  TipoProcesoAnterior.permite_radicacion
    TipoProcesoAnterior.RADICACION_COMPLETADA = false.
Proof.
  repeat split; try reflexivity; destruct t; simpl; intro H;
    try discriminate; try reflexivity; try tauto;
    repeat (destruct H as [H | H]; try discriminate).
Qed.

(** ** A command that raises after it has assigned *)

(** C2, at the failing input.  On a new account with a transfer started,
    [devolver_proceso_traslado("FUNC002", "A" * 600)] raises because the
    motive of the audit record exceeds 500 characters, and by then the flag,
    the previous process and the state have been assigned: only the history
    and the pending events are as they were. *)
Theorem C2_devolver_motivo_largo_deja_cambios :
  exists c0 c1 c2,
    Ejemplo.cuenta_nueva = Ok c0 /\
    Cuenta.iniciar_proceso_traslado Ejemplo.reloj c0 "FUNC001" = Hecho c1 /\
    Cuenta.devolver_proceso_traslado Ejemplo.reloj c1 "FUNC002"
      Ejemplo.motivo_muy_largo
    = Fallo c2 "El motivo no puede exceder 500 caracteres" /\
    (Cuenta.estado c1 = EN_TRASLADO /\ Cuenta.estado c2 = ACTIVA) /\
    (Cuenta.proceso_traslado_activo c1 = true /\
     Cuenta.proceso_traslado_activo c2 = false) /\
    (Cuenta.tipo_proceso_anterior c1 = TipoProcesoAnterior.NINGUNO /\
     Cuenta.tipo_proceso_anterior c2 = TipoProcesoAnterior.TRASLADO_DEVUELTO) /\
    Cuenta.historial_asignaciones c2 = Cuenta.historial_asignaciones c1 /\
    Cuenta._domain_events c2 = Cuenta._domain_events c1.
Proof.
  do 3 eexists.
  split; [vm_compute; reflexivity|].
  split; [vm_compute; reflexivity|].
  split; [vm_compute; reflexivity|].
  vm_compute. repeat split.
Qed.

(** ** Building audit records *)






(** ** A transfer started and completed on a new account *)





(** ** Blank strings *)



Lemma tiene_visible_lstrip (s : string) :
  tiene_visible (PyStr.lstrip s) = tiene_visible s.
Proof.
  induction s as [|c s IH]; simpl; [reflexivity|].
  destruct (PyStr.es_espacio c) eqn:E; simpl; [exact IH | rewrite E; reflexivity].
Qed.

Lemma no_vacio_rstrip (s : string) :
  PyStr.no_vacio (PyStr.rstrip s) = tiene_visible s.
Proof.
  induction s as [|c s IH]; simpl; [reflexivity|].
  destruct (PyStr.rstrip s) eqn:R; simpl in *.
  - rewrite <- IH. destruct (PyStr.es_espacio c); reflexivity.
  - rewrite <- IH. rewrite orb_true_r. reflexivity.
Qed.

Lemma no_vacio_strip_visible (s : string) :
  PyStr.no_vacio (PyStr.strip s) = tiene_visible s.
Proof.
  unfold PyStr.strip. rewrite no_vacio_rstrip. apply tiene_visible_lstrip.
Qed.





(** ** Rebuilding an account from storage *)



(** ** The event buffer *)

Ltac caso_resultado :=
  match goal with
  | |- context [match ?x with Ok _ => _ | Error _ => _ end] =>
      destruct x; simpl
  end.

(** One command of the account: a drain empties the buffer, a command that
    returns adds its event at the end, a command that raises adds nothing. *)
Lemma cuenta_paso_eventos (r : Reloj) (cmd : CuentaCmd.t) (c : Cuenta.t) :
  Cuenta._domain_events (estado_tras (CuentaCmd.ejecutar r cmd c)) =
  match cmd with
  | CuentaCmd.GetDomainEvents => []
  | _ => if exitoso (CuentaCmd.ejecutar r cmd c)
         then (Cuenta._domain_events c ++ CuentaCmd.evento_de cmd c)%list
         else Cuenta._domain_events c
  end.
Proof.
  destruct c as [p n ts fc creador e h evs ant tr ra ini].
  destruct cmd; simpl;
    unfold Cuenta.iniciar_proceso_traslado, Cuenta.iniciar_proceso_radicacion,
      Cuenta.completar_proceso_traslado, Cuenta.completar_proceso_radicacion,
      Cuenta.devolver_proceso_traslado, Cuenta.devolver_proceso_radicacion,
      Cuenta.inactivar_cuenta, Cuenta.reactivar_cuenta,
      Cuenta.reasignar_funcionario; simpl;
    try reflexivity;
    match goal with
    | |- context [if ?b then Fallo _ _ else _] => destruct b; simpl
    end; try reflexivity; caso_resultado; reflexivity.
Qed.

Lemma correr_pendientes (cmds : list (Reloj * CuentaCmd.t)) :
  forall c,
    Cuenta._domain_events (CuentaCmd.correr cmds c) =
    CuentaCmd.pendientes cmds c (Cuenta._domain_events c).
Proof.
  induction cmds as [|[r cmd] resto IH]; intro c; simpl; [reflexivity|].
  rewrite IH, cuenta_paso_eventos. destruct cmd; reflexivity.
Qed.

Lemma traslado_anexar_eventos r texto f x :
  Traslado._domain_events (estado_tras (Traslado.anexar_entrada r texto f x)) =
  Traslado._domain_events x.
Proof.
  unfold Traslado.anexar_entrada. repeat caso_resultado; reflexivity.
Qed.

Lemma traslado_paso_eventos (r : Reloj) (cmd : TrasladoCmd.t) (x : Traslado.t) :
  Traslado._domain_events (estado_tras (TrasladoCmd.ejecutar r cmd x)) =
  tras_comando
    (match cmd with TrasladoCmd.GetDomainEvents => true | _ => false end)
    (Traslado._domain_events x).
Proof.
  destruct cmd as [f | f obs | f d | f d | f m a | f obs | ]; simpl.
  - unfold Traslado.marcar_como_revisado.
    destruct (negb _); reflexivity.
  - unfold Traslado.completar_traslado.
    destruct (negb _); [reflexivity|].
    destruct obs as [fin|]; [|reflexivity].
    destruct (negb (PyStr.no_vacio fin)); [reflexivity|].
    repeat caso_resultado; reflexivity.
  - unfold Traslado.reportar_novedad.
    destruct (negb _); [reflexivity|]. rewrite traslado_anexar_eventos; reflexivity.
  - unfold Traslado.resolver_novedad.
    destruct (negb _); [reflexivity|]. rewrite traslado_anexar_eventos; reflexivity.
  - unfold Traslado.devolver_traslado.
    destruct (negb _); [reflexivity|]. rewrite traslado_anexar_eventos; reflexivity.
  - unfold Traslado.actualizar_observaciones.
    destruct (Traslado.esta_en_estado_final x); [reflexivity|].
    pose proof (traslado_anexar_eventos r obs f x) as H.
    destruct (Traslado.anexar_entrada r obs f x); simpl in *; exact H.
  - reflexivity.
Qed.

Lemma radicacion_anexar_eventos r texto f x :
  Radicacion._domain_events (estado_tras (Radicacion.anexar_entrada r texto f x)) =
  Radicacion._domain_events x.
Proof.
  unfold Radicacion.anexar_entrada. repeat caso_resultado; reflexivity.
Qed.

Lemma radicacion_paso_eventos (r : Reloj) (cmd : RadicacionCmd.t)
    (x : Radicacion.t) :
  Radicacion._domain_events (estado_tras (RadicacionCmd.ejecutar r cmd x)) =
  tras_comando
    (match cmd with RadicacionCmd.GetDomainEvents => true | _ => false end)
    (Radicacion._domain_events x).
Proof.
  destruct cmd as [f | f | f obs | f d | f d | f m a | f obs | ]; simpl.
  - unfold Radicacion.marcar_como_recibida.
    destruct (negb _); [reflexivity|]. rewrite radicacion_anexar_eventos; reflexivity.
  - unfold Radicacion.marcar_como_revisada.
    destruct (negb _); reflexivity.
  - unfold Radicacion.completar_radicacion.
    destruct (negb _); [reflexivity|].
    destruct obs as [fin|]; [|reflexivity].
    destruct (negb (PyStr.no_vacio fin)); [reflexivity|].
    repeat caso_resultado; reflexivity.
  - unfold Radicacion.reportar_novedad.
    destruct (negb _); [reflexivity|]. rewrite radicacion_anexar_eventos; reflexivity.
  - unfold Radicacion.resolver_novedad.
    destruct (negb _); [reflexivity|]. rewrite radicacion_anexar_eventos; reflexivity.
  - unfold Radicacion.devolver_radicacion.
    destruct (negb _); [reflexivity|]. rewrite radicacion_anexar_eventos; reflexivity.
  - unfold Radicacion.actualizar_observaciones.
    destruct (Radicacion.esta_en_estado_final x); [reflexivity|].
    pose proof (radicacion_anexar_eventos r obs f x) as H.
    destruct (Radicacion.anexar_entrada r obs f x); simpl in *; exact H.
  - reflexivity.
Qed.

Lemma novedad_anexar_eventos r texto f x :
  Novedad._domain_events (estado_tras (Novedad.anexar_entrada r texto f x)) =
  Novedad._domain_events x.
Proof.
  unfold Novedad.anexar_entrada. repeat caso_resultado; reflexivity.
Qed.

Lemma novedad_paso_eventos (r : Reloj) (cmd : NovedadCmd.t) (x : Novedad.t) :
  Novedad._domain_events (estado_tras (NovedadCmd.ejecutar r cmd x)) =
  tras_comando
    (match cmd with NovedadCmd.GetDomainEvents => true | _ => false end)
    (Novedad._domain_events x).
Proof.
  destruct cmd as [f | f d | f m | f p j | f obs | ]; simpl.
  - unfold Novedad.tomar_en_revision.
    destruct (negb _); [reflexivity|]. rewrite novedad_anexar_eventos; reflexivity.
  - unfold Novedad.resolver_novedad.
    destruct (negb _); [reflexivity|].
    destruct (Novedad.en_blanco d); [reflexivity|]. rewrite novedad_anexar_eventos; reflexivity.
  - unfold Novedad.reabrir_novedad.
    destruct (negb _); [reflexivity|].
    destruct (Novedad.en_blanco m); [reflexivity|]. rewrite novedad_anexar_eventos; reflexivity.
  - unfold Novedad.cambiar_prioridad.
    destruct (negb _); [reflexivity|].
    destruct (PrioridadNovedad.eqb _ _); [reflexivity|].
    destruct (Novedad.en_blanco j); [reflexivity|]. rewrite novedad_anexar_eventos; reflexivity.
  - unfold Novedad.actualizar_observaciones.
    destruct (Novedad.esta_resuelta x); [reflexivity|].
    pose proof (novedad_anexar_eventos r obs f x) as H.
    destruct (Novedad.anexar_entrada r obs f x); simpl in *; exact H.
  - reflexivity.
Qed.

(** C9.  On each of the four entities [get_domain_events] returns the
    buffer as it is, leaves it empty (a second call at once returns the
    empty list) and changes no other attribute.  On an account the buffer
    after any run of commands is the list of events of the commands that
    returned since the last drain, in the order of the calls; the commands
    of Traslado, Radicacion and Novedad never add to theirs. *)
Theorem C9_get_domain_events_drena :
  (forall c : Cuenta.t,
      fst (Cuenta.get_domain_events c) = Cuenta._domain_events c /\
      Cuenta._domain_events (snd (Cuenta.get_domain_events c)) = [] /\
      fst (Cuenta.get_domain_events (snd (Cuenta.get_domain_events c))) = [] /\
      cuenta_salvo_eventos (snd (Cuenta.get_domain_events c)) c) /\
  (forall x : Traslado.t,
      fst (Traslado.get_domain_events x) = Traslado._domain_events x /\
      Traslado._domain_events (snd (Traslado.get_domain_events x)) = [] /\
      fst (Traslado.get_domain_events (snd (Traslado.get_domain_events x))) = [] /\
      traslado_salvo_eventos (snd (Traslado.get_domain_events x)) x) /\
  (forall x : Radicacion.t,
      fst (Radicacion.get_domain_events x) = Radicacion._domain_events x /\
      Radicacion._domain_events (snd (Radicacion.get_domain_events x)) = [] /\
      fst (Radicacion.get_domain_events (snd (Radicacion.get_domain_events x))) = [] /\
      radicacion_salvo_eventos (snd (Radicacion.get_domain_events x)) x) /\
  (forall x : Novedad.t,
      fst (Novedad.get_domain_events x) = Novedad._domain_events x /\
      Novedad._domain_events (snd (Novedad.get_domain_events x)) = [] /\
      fst (Novedad.get_domain_events (snd (Novedad.get_domain_events x))) = [] /\
      novedad_salvo_eventos (snd (Novedad.get_domain_events x)) x) /\
  (forall (cmds : list (Reloj * CuentaCmd.t)) (c : Cuenta.t),
      fst (Cuenta.get_domain_events (CuentaCmd.correr cmds c)) =
      CuentaCmd.pendientes cmds c (Cuenta._domain_events c)) /\
  (forall r cmd x,
      Traslado._domain_events (estado_tras (TrasladoCmd.ejecutar r cmd x)) =
      tras_comando
        (match cmd with TrasladoCmd.GetDomainEvents => true | _ => false end)
        (Traslado._domain_events x)) /\
  (forall r cmd x,
      Radicacion._domain_events (estado_tras (RadicacionCmd.ejecutar r cmd x)) =
      tras_comando
        (match cmd with RadicacionCmd.GetDomainEvents => true | _ => false end)
        (Radicacion._domain_events x)) /\
  (forall r cmd x,
      Novedad._domain_events (estado_tras (NovedadCmd.ejecutar r cmd x)) =
      tras_comando
        (match cmd with NovedadCmd.GetDomainEvents => true | _ => false end)
        (Novedad._domain_events x)).
Proof.
  split; [intro c; repeat split; reflexivity|].
  split; [intro x; repeat split; reflexivity|].
  split; [intro x; repeat split; reflexivity|].
  split; [intro x; repeat split; reflexivity|].
  split; [intros cmds c; apply correr_pendientes|].
  split; [exact traslado_paso_eventos|].
  split; [exact radicacion_paso_eventos | exact novedad_paso_eventos].
Qed.

(** The events of a run on a new account: the creation event, then the
    start and the completion of a transfer; the blank reactivation that
    raises in between adds nothing, and the drain that follows returns the
    three in order. *)
Example C9_ejemplo_orden :
  exists c,
    Ejemplo.cuenta_nueva = Ok c /\
    fst (Cuenta.get_domain_events
           (CuentaCmd.correr
              [(Ejemplo.reloj, CuentaCmd.IniciarTraslado "FUNC001");
               (Ejemplo.reloj, CuentaCmd.Reactivar "FUNC001");
               (Ejemplo.reloj, CuentaCmd.CompletarTraslado "FUNC002")] c)) =
    [CuentaCreadaEvent "ABC123" "ABC123" "2026110400001" "particular" "FUNC001";
     ProcesoIniciadoEvent "ABC123" "ABC123" "traslado" "FUNC001" "2026110400001";
     ProcesoCompletadoEvent "ABC123" "ABC123" "traslado" "FUNC002"
       "2026110400001" "completado" None].
Proof. eexists. split; vm_compute; reflexivity. Qed.


(** ** The reception flag of a Radicacion *)

Lemma radicacion_anexar_fue_recibida r texto f x :
  Radicacion._fue_recibida (estado_tras (Radicacion.anexar_entrada r texto f x)) =
  Radicacion._fue_recibida x.
Proof.
  unfold Radicacion.anexar_entrada. repeat caso_resultado; reflexivity.
Qed.

(** No command but [marcar_como_recibida] assigns the flag. *)
Lemma radicacion_paso_fue_recibida (r : Reloj) (cmd : RadicacionCmd.t)
    (x : Radicacion.t) :
  RadicacionCmd.es_recibir cmd = false ->
  Radicacion._fue_recibida (estado_tras (RadicacionCmd.ejecutar r cmd x)) =
  Radicacion._fue_recibida x.
Proof.
  destruct cmd as [f | f | f obs | f d | f d | f m a | f obs | ]; simpl;
    intro H; try discriminate H.
  - unfold Radicacion.marcar_como_revisada.
    destruct (negb _); reflexivity.
  - unfold Radicacion.completar_radicacion.
    destruct (negb _); [reflexivity|].
    destruct obs as [fin|]; [|reflexivity].
    destruct (negb (PyStr.no_vacio fin)); [reflexivity|].
    repeat caso_resultado; reflexivity.
  - unfold Radicacion.reportar_novedad.
    destruct (negb _); [reflexivity|].
    rewrite radicacion_anexar_fue_recibida; reflexivity.
  - unfold Radicacion.resolver_novedad.
    destruct (negb _); [reflexivity|].
    rewrite radicacion_anexar_fue_recibida; reflexivity.
  - unfold Radicacion.devolver_radicacion.
    destruct (negb _); [reflexivity|].
    rewrite radicacion_anexar_fue_recibida; reflexivity.
  - unfold Radicacion.actualizar_observaciones.
    destruct (Radicacion.esta_en_estado_final x); [reflexivity|].
    pose proof (radicacion_anexar_fue_recibida r obs f x) as E.
    destruct (Radicacion.anexar_entrada r obs f x); simpl in *; exact E.
  - reflexivity.
Qed.

(** C10.  A Radicacion that [crear_desde_repositorio] returns answers
    False to [fue_recibida], whatever estado it was rebuilt with, and keeps
    answering False after any command other than [marcar_como_recibida]:
    the flag is assigned by that command alone and the factory does not
    restore it. *)
Theorem C10_fue_recibida_no_se_restaura
    (placa : Placa.t) (origen : Ubicacion.t) (ft : FechaTramite.t)
    (fv : FechaVencimiento.t) (recibe : string) (estado : EstadoRadicacion.t)
    (obs : Observacion.t) (actual : option string) (ultima : option Z)
    (x : Radicacion.t) :
  Radicacion.crear_desde_repositorio placa origen ft fv recibe estado obs
    actual ultima = Ok x ->
  Radicacion.estado x = estado /\
  Radicacion.fue_recibida x = false /\
  forall r cmd,
    RadicacionCmd.es_recibir cmd = false ->
    Radicacion.fue_recibida (estado_tras (RadicacionCmd.ejecutar r cmd x)) = false.
Proof.
  unfold Radicacion.crear_desde_repositorio.
  destruct (Radicacion._validar_funcionario_recibe _); [|discriminate].
  destruct (Radicacion._validar_fechas _ _); [|discriminate].
  intro H; injection H as <-.
  split; [reflexivity|]. split; [reflexivity|].
  intros r cmd Hc. unfold Radicacion.fue_recibida.
  rewrite (radicacion_paso_fue_recibida r cmd _ Hc). reflexivity.
Qed.

(** C10, at a reception stored in state RECIBIDO. *)
Lemma C10_witness :
  exists x,
    Ejemplo.radicacion_recibida = Ok x /\
    Radicacion.estado x = EstadoRadicacion.RECIBIDO /\
    Radicacion.fue_recibida x = false /\
    forall r cmd,
      RadicacionCmd.es_recibir cmd = false ->
      Radicacion.fue_recibida (estado_tras (RadicacionCmd.ejecutar r cmd x)) = false.
Proof.
  eexists. split; [vm_compute; reflexivity|].
  apply (C10_fue_recibida_no_se_restaura Ejemplo.placa Ejemplo.cali
           {| FechaTramite.fecha := 739920 |}
           {| FechaVencimiento.fecha := 739980 |}
           "MGARCIA" EstadoRadicacion.RECIBIDO Observacion.vacia
           (Some "MGARCIA") (Some 739921)).
  vm_compute. reflexivity.
Defined.

(** The live call does set the flag: a new reception that is received
    answers True. *)
Example C10_ejemplo_recibida_en_vivo :
  exists x x',
    Radicacion.crear_nueva Ejemplo.reloj Ejemplo.placa Ejemplo.cali
      {| FechaTramite.fecha := 739924 |} "MGARCIA" None = Ok x /\
    Radicacion.fue_recibida x = false /\
    Radicacion.marcar_como_recibida Ejemplo.reloj x "RECEPTOR" = Hecho x' /\
    Radicacion.fue_recibida x' = true.
Proof.
  do 2 eexists.
  split; [vm_compute; reflexivity|].
  split; [vm_compute; reflexivity|].
  split; vm_compute; reflexivity.
Qed.

(** ** A resolved incident *)




(** The stored incident is reopened by R2: the call returns, and the
    resolution by R1 is gone from the attributes. *)
Example C7_ejemplo_reapertura :
  exists n n',
    Ejemplo.novedad_resuelta = Ok n /\
    Novedad.funcionario_resuelve n = Some "R1" /\
    Novedad.reabrir_novedad Ejemplo.reloj n "R2" "regression" = Hecho n' /\
    Novedad.estado n' = EstadoNovedad.REABIERTA /\
    Novedad.funcionario_resuelve n' = None /\
    Novedad.observaciones n' =
      {| Observacion.valor :=
           "[04/11/2026 10:30 - R2] NOVEDAD REABIERTA: regression" |}.
Proof.
  do 2 eexists.
  split; [vm_compute; reflexivity|].
  split; [vm_compute; reflexivity|].
  split; [vm_compute; reflexivity|].
  split; [vm_compute; reflexivity|].
  split; vm_compute; reflexivity.
Qed.

(** ** Returning a process: the administrator bypass *)







(** An administrator returns a transfer just sent; without the flag the
    same call raises. *)
Example C3_ejemplo_admin :
  exists t t',
    Ejemplo.traslado_enviado = Ok t /\
    Traslado.devolver_traslado Ejemplo.reloj t "ADMIN01"
      "Documentacion incompleta" true = Hecho t' /\
    Traslado.estado t' = EstadoTraslado.DEVUELTO /\
    Traslado.devolver_traslado Ejemplo.reloj t "ADMIN01"
      "Documentacion incompleta" false =
    Fallo t "No se puede devolver traslado desde estado: enviado_organismo_destino".
Proof.
  do 2 eexists.
  split; [vm_compute; reflexivity|].
  split; [vm_compute; reflexivity|].
  split; vm_compute; reflexivity.
Qed.

(** ** What a transition writes *)






(** The observations the reported incident leaves: the previous text, the
    separator and the stamped entry. *)
Example C6_ejemplo_texto :
  exists t t1 t2,
    Ejemplo.traslado_enviado = Ok t /\
    Traslado.marcar_como_revisado Ejemplo.reloj t "revisor001" = Hecho t1 /\
    Traslado.reportar_novedad Ejemplo.reloj t1 "REVISOR001" "Falta el SOAT" =
      Hecho t2 /\
    Observacion.valor (Traslado.observaciones t2) =
      "[04/11/2026 10:30 - JPEREZ] Traslado de prueba" ++ LF ++ "---" ++ LF ++
      "[04/11/2026 10:30 - REVISOR001] NOVEDAD REPORTADA: Falta el SOAT".
Proof.
  do 3 eexists.
  split; [vm_compute; reflexivity|].
  split; [vm_compute; reflexivity|].
  split; vm_compute; reflexivity.
Qed.


(** * Further properties of the code *)

(** ** Why a process is refused *)

(** X1.  [get_razon_no_puede_trasladar] answers None exactly when a
    transfer may start; otherwise the reason is one of four: a transfer or
    a reception is in course, the account is inactive, or the plate was
    already sent.  The generic reason and the fallback of the method are
    never returned.  [get_razon_no_puede_radicar] behaves alike. *)
Theorem X1_razon_siempre_especifica (c : Cuenta.t) :
  (Cuenta.get_razon_no_puede_trasladar c = None <->
   Cuenta.puede_iniciar_traslado c = true) /\
  (Cuenta.puede_iniciar_traslado c = false ->
   Cuenta.get_razon_no_puede_trasladar c =
     Some "Ya tiene un proceso de traslado activo" \/
   Cuenta.get_razon_no_puede_trasladar c =
     Some "Ya tiene un proceso de radicación activo" \/
   Cuenta.get_razon_no_puede_trasladar c = Some "La cuenta está inactiva" \/
   Cuenta.get_razon_no_puede_trasladar c =
     Some "Esta placa ya fue enviada a otro organismo, solo puede recibir radicaciones") /\
  (Cuenta.get_razon_no_puede_radicar c = None <->
   Cuenta.puede_iniciar_radicacion c = true) /\
  (Cuenta.puede_iniciar_radicacion c = false ->
   Cuenta.get_razon_no_puede_radicar c =
     Some "Ya tiene un proceso de radicación activo" \/
   Cuenta.get_razon_no_puede_radicar c =
     Some "Ya tiene un proceso de traslado activo" \/
   Cuenta.get_razon_no_puede_radicar c = Some "La cuenta está inactiva" \/
   Cuenta.get_razon_no_puede_radicar c =
     Some "Esta placa ya llegó de otro organismo, solo puede enviar traslados").
Proof.
  destruct c as [p n ts fc creador e h evs ant tr ra ini].
  unfold Cuenta.get_razon_no_puede_trasladar, Cuenta.get_razon_no_puede_radicar,
    Cuenta.puede_iniciar_traslado, Cuenta.puede_iniciar_radicacion,
    Cuenta.tiene_proceso_activo, Cuenta.esta_inactiva,
    Cuenta.tiene_traslado_activo, Cuenta.tiene_radicacion_activa.
  cbn [Cuenta._proceso_traslado_activo Cuenta._proceso_radicacion_activo
       Cuenta.estado Cuenta._tipo_proceso_anterior].
  destruct tr, ra, e, ant;
    cbn [orb negb EstadoCuenta_eqb TipoProcesoAnterior.permite_traslado
         TipoProcesoAnterior.permite_radicacion TipoProcesoAnterior.en existsb
         TipoProcesoAnterior.eqb];
    (split; [split; intro H; first [reflexivity | discriminate H]|]);
    (split; [intro H; first [discriminate H | tauto]|]);
    (split; [split; intro H; first [reflexivity | discriminate H]|]);
    intro H; first [discriminate H | tauto].
Qed.

(** X1, at an account with TRASLADO_COMPLETADO as previous process. *)
Lemma X1_witness :
  exists c c1 c2,
    Ejemplo.cuenta_nueva = Ok c /\
    Cuenta.iniciar_proceso_traslado Ejemplo.reloj c "FUNC001" = Hecho c1 /\
    Cuenta.completar_proceso_traslado Ejemplo.reloj c1 "FUNC001" = Hecho c2 /\
    Cuenta.get_razon_no_puede_trasladar c2 =
      Some "Esta placa ya fue enviada a otro organismo, solo puede recibir radicaciones".
Proof.
  do 3 eexists.
  split; [vm_compute; reflexivity|].
  split; [vm_compute; reflexivity|].
  match goal with
  | |- ?h = Hecho ?e /\ _ =>
      assert (E : h = Hecho e) by (vm_compute; reflexivity); split; [exact E|]
  end.
  match goal with
  | |- Cuenta.get_razon_no_puede_trasladar ?x = _ =>
      destruct (proj1 (proj2 (X1_razon_siempre_especifica x)) eq_refl)
        as [H | [H | [H | H]]];
      first [exact H | (vm_compute in H; discriminate H)]
  end.
Defined.

(** X2.  An account lists no permitted process exactly when it has a
    process in course or is inactive: the previous process alone never
    forbids both. *)
Theorem X2_procesos_permitidos_vacio (c : Cuenta.t) :
  Cuenta.get_procesos_permitidos c = [] <->
  Cuenta.tiene_proceso_activo c || Cuenta.esta_inactiva c = true.
Proof.
  unfold Cuenta.get_procesos_permitidos, Cuenta.puede_iniciar_traslado,
    Cuenta.puede_iniciar_radicacion.
  destruct (Cuenta.tiene_proceso_activo c || Cuenta.esta_inactiva c).
  - split; reflexivity.
  - destruct (Cuenta._tipo_proceso_anterior c); cbn; split; intro H; discriminate H.
Qed.

(** ** The previous process, seen three ways *)

(** X3.  [get_proceso_contrario_permitido] agrees with the two permission
    tests: it names the one process that is permitted, or "ambos" when both
    are, and never answers "ninguno". *)
Theorem X3_proceso_contrario_coherente (t : TipoProcesoAnterior.t) :
  TipoProcesoAnterior.get_proceso_contrario_permitido t =
  (if TipoProcesoAnterior.permite_traslado t
   then if TipoProcesoAnterior.permite_radicacion t then "ambos" else "traslado"
   else "radicacion") /\
  TipoProcesoAnterior.get_proceso_contrario_permitido t <> "ninguno" /\
  TipoProcesoAnterior.es_completado_exitosamente t =
    negb (TipoProcesoAnterior.permite_traslado t &&
          TipoProcesoAnterior.permite_radicacion t).
Proof.
  destruct t; cbn; repeat split; discriminate.
Qed.

(** ** Priorities *)

(** X4.  [es_mayor_que] is a strict total order on the four priorities,
    with CRITICA on top, and [es_critica_o_alta] holds exactly above
    MEDIA. *)
Theorem X4_prioridad_orden_total (a b c : PrioridadNovedad.t) :
  PrioridadNovedad.es_mayor_que a a = false /\
  (PrioridadNovedad.es_mayor_que a b = true ->
   PrioridadNovedad.es_mayor_que b c = true ->
   PrioridadNovedad.es_mayor_que a c = true) /\
  (a = b \/ PrioridadNovedad.es_mayor_que a b = true \/
   PrioridadNovedad.es_mayor_que b a = true) /\
  PrioridadNovedad.es_mayor_que a PrioridadNovedad.CRITICA = false /\
  PrioridadNovedad.es_critica_o_alta a =
    PrioridadNovedad.es_mayor_que a PrioridadNovedad.MEDIA.
Proof.
  repeat split; destruct a; try destruct b; try destruct c; cbn;
    try reflexivity; try discriminate; tauto.
Qed.

(** ** Expiry *)

(** X5.  The four urgency levels split the days left: "vencida" below 0,
    "critica" from 0 to 3, "alerta" from 4 to 7, "normal" above; and they
    agree with the tests [esta_vencida], [es_critica] and
    [esta_por_vencer] at their default thresholds. *)
Theorem X5_nivel_urgencia (r : Reloj) (v : FechaVencimiento.t) :
  let d := FechaVencimiento.dias_restantes r v in
  (FechaVencimiento.nivel_urgencia r v = "vencida" <-> d < 0) /\
  (FechaVencimiento.nivel_urgencia r v = "critica" <-> 0 <= d <= 3) /\
  (FechaVencimiento.nivel_urgencia r v = "alerta" <-> 4 <= d <= 7) /\
  (FechaVencimiento.nivel_urgencia r v = "normal" <-> 7 < d) /\
  FechaVencimiento.esta_vencida r v =
    String.eqb (FechaVencimiento.nivel_urgencia r v) "vencida" /\
  FechaVencimiento.es_critica r v 3 =
    String.eqb (FechaVencimiento.nivel_urgencia r v) "critica" /\
  FechaVencimiento.esta_por_vencer r v 7 =
    String.eqb (FechaVencimiento.nivel_urgencia r v) "critica" ||
    String.eqb (FechaVencimiento.nivel_urgencia r v) "alerta" /\
  FechaVencimiento.esta_vigente r v = negb (FechaVencimiento.esta_vencida r v).
Proof.
  unfold FechaVencimiento.nivel_urgencia, FechaVencimiento.esta_vencida,
    FechaVencimiento.es_critica, FechaVencimiento.esta_por_vencer,
    FechaVencimiento.esta_vigente, FechaVencimiento.dias_restantes.
  cbv zeta.
  destruct (FechaVencimiento.fecha v - hoy r <? 0) eqn:E0;
    [|destruct (FechaVencimiento.fecha v - hoy r <=? 3) eqn:E3;
      [|destruct (FechaVencimiento.fecha v - hoy r <=? 7) eqn:E7]];
    repeat match goal with
           | H : (_ <? _) = _ |- _ =>
               first [apply Z.ltb_lt in H | apply Z.ltb_ge in H]
           | H : (_ <=? _) = _ |- _ =>
               first [apply Z.leb_le in H | apply Z.leb_gt in H]
           end;
    repeat split; intros; try discriminate; try lia; try reflexivity;
    cbn [String.eqb Ascii.eqb Bool.eqb orb];
    try (symmetry; apply Z.ltb_lt; lia);
    try (symmetry; apply Z.ltb_ge; lia).
  all: try (apply Z.ltb_lt; lia).
  all: try (apply Z.ltb_ge; lia).
  all: try (rewrite Z.geb_leb; apply eq_true_iff_eq; rewrite Z.leb_le, negb_true_iff, Z.ltb_ge; lia).
  all: try (apply eq_true_iff_eq; rewrite andb_true_iff, !Z.leb_le; split; [lia | discriminate || lia]).
Qed.

(** ** The audit history *)

(** One command of the account: the history keeps every record it had,
    gains exactly one when the command returns (none for a drain) and
    none when it raises. *)
Lemma cuenta_paso_historial (r : Reloj) (cmd : CuentaCmd.t) (c : Cuenta.t) :
  exists l,
    Cuenta.historial_asignaciones (estado_tras (CuentaCmd.ejecutar r cmd c)) =
      (Cuenta.historial_asignaciones c ++ l)%list /\
    List.length l =
      match cmd with
      | CuentaCmd.GetDomainEvents => 0%nat
      | _ => if exitoso (CuentaCmd.ejecutar r cmd c) then 1%nat else 0%nat
      end.
Proof.
  destruct c as [p n ts fc creador e h evs ant tr ra ini].
  destruct cmd; simpl;
    unfold Cuenta.iniciar_proceso_traslado, Cuenta.iniciar_proceso_radicacion,
      Cuenta.completar_proceso_traslado, Cuenta.completar_proceso_radicacion,
      Cuenta.devolver_proceso_traslado, Cuenta.devolver_proceso_radicacion,
      Cuenta.inactivar_cuenta, Cuenta.reactivar_cuenta,
      Cuenta.reasignar_funcionario; simpl;
    try (exists []; rewrite app_nil_r; split; reflexivity);
    match goal with
    | |- context [if ?b then Fallo _ _ else _] => destruct b; simpl
    end;
    try (exists []; rewrite app_nil_r; split; reflexivity);
    match goal with
    | |- context [match ?x with Ok _ => _ | Error _ => _ end] =>
        destruct x as [asg|]; simpl
    end;
    first [ exists [asg]; split; reflexivity
          | exists []; rewrite app_nil_r; split; reflexivity ].
Qed.

(** X6.  The history is append-only: after any run of commands the
    history the account had is a prefix of the one it has, a command that
    returns adds exactly one record, and a command that raises or a drain
    adds none. *)
Theorem X6_historial_solo_crece :
  (forall r cmd c,
      exists l,
        Cuenta.historial_asignaciones (estado_tras (CuentaCmd.ejecutar r cmd c)) =
          (Cuenta.historial_asignaciones c ++ l)%list /\
        List.length l =
          match cmd with
          | CuentaCmd.GetDomainEvents => 0%nat
          | _ => if exitoso (CuentaCmd.ejecutar r cmd c) then 1%nat else 0%nat
          end) /\
  (forall cmds c,
      exists l,
        Cuenta.historial_asignaciones (CuentaCmd.correr cmds c) =
          (Cuenta.historial_asignaciones c ++ l)%list /\
        (List.length l <= List.length cmds)%nat).
Proof.
  split; [exact cuenta_paso_historial|].
  induction cmds as [|[r cmd] resto IH]; intro c; simpl.
  - exists []. rewrite app_nil_r. split; [reflexivity | apply Nat.le_refl].
  - destruct (IH (estado_tras (CuentaCmd.ejecutar r cmd c))) as (l2 & E2 & L2).
    destruct (cuenta_paso_historial r cmd c) as (l1 & E1 & L1).
    exists (l1 ++ l2)%list. rewrite E2, E1, app_assoc. split; [reflexivity|].
    rewrite length_app.
    assert (List.length l1 <= 1)%nat
      by (rewrite L1; destruct cmd;
          try destruct (exitoso _); auto).
    lia.
Qed.

(** ** Reassigning the official *)



(** ** One process at a time *)

(** X8.  On an account with a process in course or inactive, both
    [iniciar_proceso_traslado] and [iniciar_proceso_radicacion] raise and
    leave the account exactly as it was, whoever the official. *)
Theorem X8_no_inicia_con_proceso_o_inactiva (r : Reloj) (c : Cuenta.t)
    (f : string) :
  Cuenta.tiene_proceso_activo c || Cuenta.esta_inactiva c = true ->
  (exitoso (Cuenta.iniciar_proceso_traslado r c f) = false /\
   estado_tras (Cuenta.iniciar_proceso_traslado r c f) = c) /\
  (exitoso (Cuenta.iniciar_proceso_radicacion r c f) = false /\
   estado_tras (Cuenta.iniciar_proceso_radicacion r c f) = c).
Proof.
  intro H.
  unfold Cuenta.iniciar_proceso_traslado, Cuenta.iniciar_proceso_radicacion,
    Cuenta.puede_iniciar_traslado, Cuenta.puede_iniciar_radicacion.
  rewrite H. cbn [negb exitoso estado_tras].
  split; split; reflexivity.
Qed.

(** X8, at an account with a transfer in course. *)
Lemma X8_witness :
  exists c c1,
    Ejemplo.cuenta_nueva = Ok c /\
    Cuenta.iniciar_proceso_traslado Ejemplo.reloj c "FUNC001" = Hecho c1 /\
    Cuenta.iniciar_proceso_radicacion Ejemplo.reloj c1 "FUNC002" =
      Fallo c1 "No se puede iniciar radicación: Ya tiene un proceso de traslado activo" /\
    exitoso (Cuenta.iniciar_proceso_traslado Ejemplo.reloj c1 "FUNC002") = false.
Proof.
  do 2 eexists.
  split; [vm_compute; reflexivity|].
  split; [vm_compute; reflexivity|].
  split; [vm_compute; reflexivity|].
  match goal with
  | |- exitoso (Cuenta.iniciar_proceso_traslado ?r ?c ?f) = false =>
      refine (proj1 (proj1 (X8_no_inicia_con_proceso_o_inactiva r c f _)));
      vm_compute; reflexivity
  end.
Defined.

(** ** Origin and destination *)

(** X9.  On a coherent account, a transfer that completes leaves only a
    reception permitted, a reception that completes leaves only a transfer
    permitted, and a process that is returned leaves both permitted. *)
Theorem X9_alternancia_origen_destino (r : Reloj) (c c' : Cuenta.t)
    (f m : string) :
  coh c = true ->
  (Cuenta.completar_proceso_traslado r c f = Hecho c' ->
   Cuenta.get_procesos_permitidos c' = ["radicacion"]) /\
  (Cuenta.completar_proceso_radicacion r c f = Hecho c' ->
   Cuenta.get_procesos_permitidos c' = ["traslado"]) /\
  (Cuenta.devolver_proceso_traslado r c f m = Hecho c' ->
   Cuenta.get_procesos_permitidos c' = ["traslado"; "radicacion"]) /\
  (Cuenta.devolver_proceso_radicacion r c f m = Hecho c' ->
   Cuenta.get_procesos_permitidos c' = ["traslado"; "radicacion"]).
Proof.
  unfold coh. destruct c as [p n ts fc creador e h evs ant tr ra ini].
  cbn [Cuenta.estado Cuenta._proceso_traslado_activo
       Cuenta._proceso_radicacion_activo].
  intro H.
  unfold Cuenta.completar_proceso_traslado, Cuenta.completar_proceso_radicacion,
    Cuenta.devolver_proceso_traslado, Cuenta.devolver_proceso_radicacion,
    Cuenta.tiene_traslado_activo, Cuenta.tiene_radicacion_activa.
  cbn [Cuenta._proceso_traslado_activo Cuenta._proceso_radicacion_activo].
  destruct e, tr, ra; try discriminate H; cbn [negb];
    repeat split; try discriminate;
    match goal with
    | |- context [match ?x with Ok _ => _ | Error _ => _ end] =>
        destruct x; [|discriminate]
    end; intro E; injection E as <-; reflexivity.
Qed.

(** X9, at a new account whose transfer is returned. *)
Lemma X9_witness :
  exists c c1 c2,
    Ejemplo.cuenta_nueva = Ok c /\
    Cuenta.iniciar_proceso_traslado Ejemplo.reloj c "FUNC001" = Hecho c1 /\
    Cuenta.devolver_proceso_traslado Ejemplo.reloj c1 "ADMIN" "error de digitacion"
      = Hecho c2 /\
    Cuenta.get_procesos_permitidos c2 = ["traslado"; "radicacion"].
Proof.
  do 3 eexists.
  split; [vm_compute; reflexivity|].
  split; [vm_compute; reflexivity|].
  match goal with
  | |- ?h = Hecho ?e /\ _ =>
      assert (E : h = Hecho e) by (vm_compute; reflexivity); split; [exact E|]
  end.
  match type of E with
  | Cuenta.devolver_proceso_traslado ?r ?c ?f ?m = Hecho ?c' =>
      refine (proj1 (proj2 (proj2 (X9_alternancia_origen_destino r c c' f m _))) E);
      vm_compute; reflexivity
  end.
Defined.

(** ** What the public constructor cannot build *)

(** X10.  The dataclass constructor never returns an account in
    EN_TRASLADO or EN_RADICACION: its flags start unset, so the coherence
    check rejects those states.  An account in process can only come from
    [crear_desde_repositorio] or from a command. *)
Theorem X10_constructor_sin_proceso r placa numero ts fecha creador estado
    historial c :
  Cuenta.crear r placa numero ts fecha creador estado historial = Ok c ->
  (Cuenta.estado c = ACTIVA \/ Cuenta.estado c = INACTIVA) /\
  Cuenta.estado c = estado /\
  Cuenta.tiene_proceso_activo c = false /\
  Cuenta.tipo_proceso_anterior c = TipoProcesoAnterior.NINGUNO /\
  (historial <> [] -> Cuenta.historial_asignaciones c = historial).
Proof.
  unfold Cuenta.crear.
  destruct (Cuenta._validar_funcionario_creador _); [|discriminate].
  match goal with
  | |- context [match ?x with Ok _ => _ | Error _ => _ end] =>
      destruct x as [h|] eqn:Eh; [|discriminate]
  end.
  assert (Hh : historial <> [] -> h = historial).
  { intro N. destruct historial as [|a0 h0]; [contradiction|].
    injection Eh as <-. reflexivity. }
  unfold Cuenta._validar_coherencia_estado.
  cbn [Cuenta.estado Cuenta._proceso_traslado_activo
       Cuenta._proceso_radicacion_activo].
  destruct estado; cbn; try discriminate;
    (destruct h as [|x1 [|x2 h']];
     try destruct (HistorialAsignacion.es_asignacion_inicial x1);
     intro H; injection H as <-; cbn;
     repeat split; auto).
Qed.

(** X10, at the account the factory of new accounts builds. *)
Lemma X10_witness :
  exists n fc c,
    NumeroCuenta.generar_para_hoy Ejemplo.reloj 7 = Ok n /\
    FechaCreacion.crear_hoy Ejemplo.reloj = Ok fc /\
    Cuenta.crear Ejemplo.reloj Ejemplo.placa n TipoServicio.OFICIAL fc
      "func009" INACTIVA [] = Ok c /\
    Cuenta.estado c = INACTIVA /\
    Cuenta.tiene_proceso_activo c = false.
Proof.
  do 3 eexists.
  split; [vm_compute; reflexivity|].
  split; [vm_compute; reflexivity|].
  match goal with
  | |- ?h = Ok ?e /\ _ =>
      assert (E : h = Ok e) by (vm_compute; reflexivity); split; [exact E|]
  end.
  destruct (X10_constructor_sin_proceso _ _ _ _ _ _ _ _ _ E) as (_ & H1 & H2 & _).
  split; [exact H1 | exact H2].
Defined.

(** ** What an audit record guarantees *)



(** ** Inactivating and reactivating *)


(** ** The dates of the history *)








(** ** The reception flag of a filing, in one life of the object *)

Ltac reducir_radicacion :=
  cbn [negb andb orb existsb estado_tras
       EstadoRadicacion.eqb EstadoRadicacion.en EstadoRadicacion.es_estado_final
       EstadoRadicacion.puede_transicionar_a
       EstadoRadicacion._get_transiciones_permitidas
       Radicacion._fue_recibida Radicacion.estado Radicacion.transicion
       Radicacion.con_estado Radicacion.con_funcionario_actual
       Radicacion.con_fecha_actualizacion Radicacion.con_fue_recibida
       Radicacion.con_observaciones Radicacion.con_eventos
       Radicacion.get_domain_events snd].

Lemma radicacion_anexar_estado r texto f x :
  Radicacion.estado (estado_tras (Radicacion.anexar_entrada r texto f x)) =
  Radicacion.estado x.
Proof.
  unfold Radicacion.anexar_entrada.
  destruct (Observacion.crear_con_timestamp r texto f) as [obs|]; [|reflexivity].
  destruct (Observacion.combinar_observaciones _); reflexivity.
Qed.

Lemma radicacion_actualizar_estado r f o x :
  Radicacion.estado
    (estado_tras
       match Radicacion.anexar_entrada r o f x with
       | Fallo s msg => Fallo s msg
       | Hecho s => Hecho (Radicacion.con_fecha_actualizacion (Some (hoy r)) s)
       end) = Radicacion.estado x /\
  Radicacion._fue_recibida
    (estado_tras
       match Radicacion.anexar_entrada r o f x with
       | Fallo s msg => Fallo s msg
       | Hecho s => Hecho (Radicacion.con_fecha_actualizacion (Some (hoy r)) s)
       end) = Radicacion._fue_recibida x.
Proof.
  pose proof (radicacion_anexar_estado r o f x) as E.
  pose proof (radicacion_anexar_fue_recibida r o f x) as F.
  destruct (Radicacion.anexar_entrada r o f x); cbn [estado_tras] in *;
    split; assumption.
Qed.

Lemma radicacion_completar_estado r f fin s1 :
  let e :=
    match Observacion.agregar_timestamp_automatico r (Radicacion.observaciones s1) f with
    | Error msg => Fallo s1 msg
    | Ok obs_con_timestamp =>
        match Observacion.crear_desde_texto
                (Observacion.valor obs_con_timestamp ++ LF ++
                 "COMPLETADA: " ++ fin) with
        | Error msg => Fallo s1 msg
        | Ok nueva_obs => Hecho (Radicacion.con_observaciones nueva_obs s1)
        end
    end in
  Radicacion.estado (estado_tras e) = Radicacion.estado s1 /\
  Radicacion._fue_recibida (estado_tras e) = Radicacion._fue_recibida s1.
Proof.
  intro e. subst e.
  destruct (Observacion.agregar_timestamp_automatico _ _ _) as [o|];
    [|split; reflexivity].
  destruct (Observacion.crear_desde_texto _); split; reflexivity.
Qed.

(** One command keeps the flag and the state in agreement, whether the
    command returns or raises. *)
Lemma radicacion_paso_recepcion (r : Reloj) (cmd : RadicacionCmd.t)
    (x : Radicacion.t) :
  recepcion_coherente x = true ->
  recepcion_coherente (estado_tras (RadicacionCmd.ejecutar r cmd x)) = true.
Proof.
  unfold recepcion_coherente. intro H.
  destruct cmd as [f | f | f obs | f d | f d | f m a | f obs | ];
    cbn [RadicacionCmd.ejecutar].
  - unfold Radicacion.marcar_como_recibida, Radicacion.puede_ser_recibida.
    destruct (negb _); [exact H|].
    rewrite radicacion_anexar_fue_recibida, radicacion_anexar_estado.
    reflexivity.
  - unfold Radicacion.marcar_como_revisada, Radicacion.puede_pasar_a_revision.
    destruct (Radicacion.estado x) eqn:E; reducir_radicacion; rewrite ?E;
      exact H.
  - unfold Radicacion.completar_radicacion, Radicacion.puede_completar_radicacion.
    destruct (Radicacion.estado x) eqn:E; reducir_radicacion; rewrite ?E;
      try exact H.
    assert (F : Radicacion._fue_recibida x = true)
      by (destruct (Radicacion._fue_recibida x); [reflexivity | discriminate H]).
    destruct obs as [fin|]; [|reducir_radicacion; rewrite F; reflexivity].
    destruct (negb (PyStr.no_vacio fin));
      [reducir_radicacion; rewrite F; reflexivity|].
    destruct (radicacion_completar_estado r f fin
                (Radicacion.transicion r EstadoRadicacion.RADICADO f x))
      as [E1 E2].
    cbn zeta in E1, E2. rewrite E1, E2. reducir_radicacion.
    rewrite F. reflexivity.
  - unfold Radicacion.reportar_novedad, Radicacion.puede_reportar_novedad.
    destruct (Radicacion.estado x) eqn:E; reducir_radicacion; rewrite ?E;
      try exact H.
    rewrite radicacion_anexar_fue_recibida, radicacion_anexar_estado.
    reducir_radicacion.
    destruct (Radicacion._fue_recibida x); [reflexivity | discriminate H].
  - unfold Radicacion.resolver_novedad, Radicacion.puede_resolver_novedad.
    destruct (Radicacion.estado x) eqn:E; reducir_radicacion; rewrite ?E;
      try exact H.
    rewrite radicacion_anexar_fue_recibida, radicacion_anexar_estado.
    reducir_radicacion.
    destruct (Radicacion._fue_recibida x); [reflexivity | discriminate H].
  - unfold Radicacion.devolver_radicacion.
    destruct (negb _); [exact H|].
    rewrite radicacion_anexar_fue_recibida, radicacion_anexar_estado.
    reducir_radicacion.
    destruct (Radicacion._fue_recibida x); reflexivity.
  - unfold Radicacion.actualizar_observaciones.
    destruct (Radicacion.esta_en_estado_final x); [exact H|].
    destruct (radicacion_actualizar_estado r f obs x) as [E1 E2].
    rewrite E1, E2. exact H.
  - reducir_radicacion. exact H.
Qed.

Lemma radicacion_correr_recepcion (cmds : list (Reloj * RadicacionCmd.t)) :
  forall x, recepcion_coherente x = true ->
            recepcion_coherente (RadicacionCmd.correr cmds x) = true.
Proof.
  induction cmds as [|[r cmd] resto IH]; intros x H; simpl; [exact H|].
  apply IH. apply radicacion_paso_recepcion. exact H.
Qed.

(** X14.  In one life of a filing, from [crear_nueva] through any run of
    commands (those that raise included), [fue_recibida] is false only in
    PENDIENTE_RADICAR or DEVUELTO, and is never true in PENDIENTE_RADICAR. *)
Theorem X14_recepcion_coherente_en_vivo (r0 : Reloj) (placa : Placa.t)
    (origen : Ubicacion.t) (ft : FechaTramite.t) (f : string)
    (obs : option string) (x : Radicacion.t)
    (cmds : list (Reloj * RadicacionCmd.t)) :
  Radicacion.crear_nueva r0 placa origen ft f obs = Ok x ->
  recepcion_coherente (RadicacionCmd.correr cmds x) = true.
Proof.
  intro H. apply radicacion_correr_recepcion.
  revert H. unfold Radicacion.crear_nueva.
  destruct (if HistorialAsignacion.dado obs then _ else _) as [o|];
    [|discriminate].
  unfold Radicacion.crear.
  destruct (Radicacion._validar_funcionario_recibe f); [|discriminate].
  destruct (Radicacion._validar_fechas _ _); [|discriminate].
  intro H; injection H as <-. reflexivity.
Qed.

(** X14, at a filing received, reviewed and returned by an administrator. *)
Lemma X14_witness :
  exists x,
    Radicacion.crear_nueva Ejemplo.reloj Ejemplo.placa Ejemplo.cali
      {| FechaTramite.fecha := 739924 |} "MGARCIA" None = Ok x /\
    recepcion_coherente
      (RadicacionCmd.correr
         [(Ejemplo.reloj, RadicacionCmd.MarcarComoRecibida "MGARCIA");
          (Ejemplo.reloj, RadicacionCmd.MarcarComoRevisada "MGARCIA");
          (Ejemplo.reloj, RadicacionCmd.DevolverRadicacion "ADMIN" "incompleta" true)]
         x) = true.
Proof.
  eexists.
  match goal with
  | |- ?h = Ok ?e /\ _ =>
      assert (E : h = Ok e) by (vm_compute; reflexivity); split; [exact E|]
  end.
  exact (X14_recepcion_coherente_en_vivo _ _ _ _ _ _ _ _ E).
Defined.

(** ** The resolution data of an incident *)

Ltac reducir_novedad :=
  cbn [negb andb orb existsb estado_tras
       EstadoNovedad.eqb EstadoNovedad.en EstadoNovedad.es_estado_final
       EstadoNovedad.puede_transicionar_a
       EstadoNovedad._get_transiciones_permitidas
       Novedad.estado Novedad.funcionario_resuelve Novedad.fecha_resolucion
       Novedad.descripcion_resolucion
       Novedad.con_estado Novedad.con_funcionario_actual
       Novedad.con_fecha_actualizacion Novedad.con_resolucion
       Novedad.con_prioridad
       Novedad.con_observaciones Novedad.con_eventos
       Novedad.get_domain_events snd].

Lemma novedad_anexar_resolucion r texto f x :
  resolucion_coherente (estado_tras (Novedad.anexar_entrada r texto f x)) =
  resolucion_coherente x /\
  Novedad.estado (estado_tras (Novedad.anexar_entrada r texto f x)) =
  Novedad.estado x.
Proof.
  unfold Novedad.anexar_entrada.
  destruct (Observacion.crear_con_timestamp r texto f) as [obs|];
    [|split; reflexivity].
  destruct (Observacion.combinar_observaciones _); split; reflexivity.
Qed.

Lemma novedad_paso_resolucion (r : Reloj) (cmd : NovedadCmd.t) (n : Novedad.t) :
  resolucion_coherente n = true ->
  resolucion_coherente (estado_tras (NovedadCmd.ejecutar r cmd n)) = true.
Proof.
  intro H.
  destruct cmd as [f | f d | f m | f p j | f o | ]; cbn [NovedadCmd.ejecutar].
  - unfold Novedad.tomar_en_revision, Novedad.puede_pasar_a_revision.
    destruct (negb _) eqn:G; [exact H|].
    rewrite (proj1 (novedad_anexar_resolucion _ _ _ _)).
    revert H G. unfold resolucion_coherente. reducir_novedad.
    destruct (Novedad.estado n); reducir_novedad; try discriminate;
      intros H _; exact H.
  - unfold Novedad.resolver_novedad.
    destruct (negb _); [exact H|].
    destruct (Novedad.en_blanco d); [exact H|].
    rewrite (proj1 (novedad_anexar_resolucion _ _ _ _)). reflexivity.
  - unfold Novedad.reabrir_novedad.
    destruct (negb _); [exact H|].
    destruct (Novedad.en_blanco m); [exact H|].
    rewrite (proj1 (novedad_anexar_resolucion _ _ _ _)). reflexivity.
  - unfold Novedad.cambiar_prioridad.
    destruct (negb _); [exact H|].
    destruct (PrioridadNovedad.eqb _ _); [exact H|].
    destruct (Novedad.en_blanco j); [exact H|].
    rewrite (proj1 (novedad_anexar_resolucion _ _ _ _)). exact H.
  - unfold Novedad.actualizar_observaciones.
    destruct (Novedad.esta_resuelta n); [exact H|].
    pose proof (proj1 (novedad_anexar_resolucion r o f n)) as A.
    destruct (Novedad.anexar_entrada r o f n); cbn [estado_tras] in *;
      rewrite <- H, <- A; reflexivity.
  - exact H.
Qed.

Lemma novedad_correr_resolucion (cmds : list (Reloj * NovedadCmd.t)) :
  forall n, resolucion_coherente n = true ->
            resolucion_coherente (NovedadCmd.correr cmds n) = true.
Proof.
  induction cmds as [|[r cmd] resto IH]; intros n H; simpl; [exact H|].
  apply IH. apply novedad_paso_resolucion. exact H.
Qed.

(** X15.  An incident built by the constructor in PENDIENTE without
    resolution data keeps, through any run of commands, the official, the
    date and the description of the resolution all set when it is RESUELTA
    and all None when it is not. *)
Theorem X15_resolucion_coherente (r0 : Reloj) (id : IdentificadorNovedad.t)
    (placa : Placa.t) (tipo : TipoNovedad.t) (desc : DescripcionNovedad.t)
    (p : PrioridadNovedad.t) (reporta : string) (fecha : Z) (proceso : string)
    (obs : Observacion.t) (n : Novedad.t)
    (cmds : list (Reloj * NovedadCmd.t)) :
  Novedad.crear r0 id placa tipo desc p reporta fecha proceso
    EstadoNovedad.PENDIENTE obs None None None None None = Ok n ->
  resolucion_coherente (NovedadCmd.correr cmds n) = true.
Proof.
  intro H. apply novedad_correr_resolucion.
  revert H. unfold Novedad.crear.
  destruct (Novedad._validar_funcionario_reporta reporta); [|discriminate].
  destruct (Novedad._validar_tipo_proceso proceso); [|discriminate].
  destruct (Novedad._validar_fechas r0 fecha None); [|discriminate].
  intro H; injection H as <-. reflexivity.
Qed.

(** X15, at an incident taken in review, resolved and reopened. *)
Lemma X15_witness :
  exists n,
    Novedad.crear Ejemplo.reloj
      {| IdentificadorNovedad.codigo := "NOV-20261104-00001";
         IdentificadorNovedad.fecha_creacion := 739924;
         IdentificadorNovedad.consecutivo := 1;
         IdentificadorNovedad.uuid_interno := "a1b2c3d4" |}
      Ejemplo.placa TipoNovedad.DOCUMENTO_FALTANTE
      {| DescripcionNovedad.valor := "Falta el certificado de tradicion" |}
      PrioridadNovedad.ALTA "R0" 739924 "traslado"
      EstadoNovedad.PENDIENTE Observacion.vacia None None None None None
      = Ok n /\
    resolucion_coherente
      (NovedadCmd.correr
         [(Ejemplo.reloj, NovedadCmd.TomarEnRevision "R1");
          (Ejemplo.reloj, NovedadCmd.ResolverNovedad "R1" "certificado recibido");
          (Ejemplo.reloj, NovedadCmd.ReabrirNovedad "R2" "certificado vencido")]
         n) = true.
Proof.
  eexists.
  match goal with
  | |- ?h = Ok ?e /\ _ =>
      assert (E : h = Ok e) by (vm_compute; reflexivity); split; [exact E|]
  end.
  exact (X15_resolucion_coherente _ _ _ _ _ _ _ _ _ _ _ _ E).
Defined.

Ltac reducir_traslado :=
  cbn [negb andb orb existsb estado_tras
       EstadoTraslado.eqb EstadoTraslado.en EstadoTraslado.es_estado_final
       EstadoTraslado.puede_transicionar_a
       EstadoTraslado._get_transiciones_permitidas
       Traslado.estado Traslado.transicion
       Traslado.con_estado Traslado.con_funcionario_actual
       Traslado.con_fecha_actualizacion
       Traslado.con_observaciones Traslado.con_eventos
       Traslado.get_domain_events snd].

(** ** Final states *)

(** X16.  A transfer in TRASLADADO or DEVUELTO and a filing in RADICADO or
    DEVUELTO accept no command: every command but the drain of the events
    raises, the return by an administrator included, and leaves the object
    as it was. *)
Theorem X16_estado_final_no_admite_comandos :
  (forall (r : Reloj) (cmd : TrasladoCmd.t) (x : Traslado.t),
      Traslado.esta_en_estado_final x = true ->
      TrasladoCmd.es_drenaje cmd = false ->
      exists msg, TrasladoCmd.ejecutar r cmd x = Fallo x msg) /\
  (forall (r : Reloj) (cmd : RadicacionCmd.t) (x : Radicacion.t),
      Radicacion.esta_en_estado_final x = true ->
      RadicacionCmd.es_drenaje cmd = false ->
      exists msg, RadicacionCmd.ejecutar r cmd x = Fallo x msg).
Proof.
  split; intros r cmd x F D.
  - unfold Traslado.esta_en_estado_final in F.
    destruct cmd as [f | f obs | f d | f d | f m a | f obs | ];
      try discriminate D; cbn [TrasladoCmd.ejecutar].
    + unfold Traslado.marcar_como_revisado, Traslado.puede_pasar_a_revision.
      destruct (Traslado.estado x); try discriminate F;
        reducir_traslado; eexists; reflexivity.
    + unfold Traslado.completar_traslado, Traslado.puede_completar_traslado.
      destruct (Traslado.estado x); try discriminate F;
        reducir_traslado; eexists; reflexivity.
    + unfold Traslado.reportar_novedad, Traslado.puede_reportar_novedad.
      destruct (Traslado.estado x); try discriminate F;
        reducir_traslado; eexists; reflexivity.
    + unfold Traslado.resolver_novedad, Traslado.puede_resolver_novedad.
      destruct (Traslado.estado x); try discriminate F;
        reducir_traslado; eexists; reflexivity.
    + unfold Traslado.devolver_traslado, Traslado.puede_ser_devuelto,
        Traslado.esta_en_estado_final.
      destruct a; destruct (Traslado.estado x); try discriminate F;
        reducir_traslado; eexists; reflexivity.
    + unfold Traslado.actualizar_observaciones, Traslado.esta_en_estado_final.
      rewrite F. eexists; reflexivity.
  - unfold Radicacion.esta_en_estado_final in F.
    destruct cmd as [f | f | f obs | f d | f d | f m a | f obs | ];
      try discriminate D; cbn [RadicacionCmd.ejecutar].
    + unfold Radicacion.marcar_como_recibida, Radicacion.puede_ser_recibida.
      destruct (Radicacion.estado x); try discriminate F;
        reducir_radicacion; eexists; reflexivity.
    + unfold Radicacion.marcar_como_revisada, Radicacion.puede_pasar_a_revision.
      destruct (Radicacion.estado x); try discriminate F;
        reducir_radicacion; eexists; reflexivity.
    + unfold Radicacion.completar_radicacion, Radicacion.puede_completar_radicacion.
      destruct (Radicacion.estado x); try discriminate F;
        reducir_radicacion; eexists; reflexivity.
    + unfold Radicacion.reportar_novedad, Radicacion.puede_reportar_novedad.
      destruct (Radicacion.estado x); try discriminate F;
        reducir_radicacion; eexists; reflexivity.
    + unfold Radicacion.resolver_novedad, Radicacion.puede_resolver_novedad.
      destruct (Radicacion.estado x); try discriminate F;
        reducir_radicacion; eexists; reflexivity.
    + unfold Radicacion.devolver_radicacion, Radicacion.puede_ser_devuelta,
        Radicacion.esta_en_estado_final.
      destruct a; destruct (Radicacion.estado x); try discriminate F;
        reducir_radicacion; eexists; reflexivity.
    + unfold Radicacion.actualizar_observaciones, Radicacion.esta_en_estado_final.
      rewrite F. eexists; reflexivity.
Qed.

(** X16, at a transfer rebuilt in TRASLADADO and a filing rebuilt in
    DEVUELTO, with the return by an administrator. *)
Lemma X16_witness :
  exists x y,
    Traslado.crear_desde_repositorio Ejemplo.placa Ejemplo.cali
      {| FechaTramite.fecha := 739920 |} {| FechaVencimiento.fecha := 739980 |}
      "JPEREZ" EstadoTraslado.TRASLADADO Observacion.vacia
      (Some "JPEREZ") (Some 739921) = Ok x /\
    Radicacion.crear_desde_repositorio Ejemplo.placa Ejemplo.cali
      {| FechaTramite.fecha := 739920 |} {| FechaVencimiento.fecha := 739980 |}
      "MGARCIA" EstadoRadicacion.DEVUELTO Observacion.vacia
      (Some "MGARCIA") (Some 739921) = Ok y /\
    (exists msg,
        TrasladoCmd.ejecutar Ejemplo.reloj
          (TrasladoCmd.DevolverTraslado "ADMIN" "tardio" true) x = Fallo x msg) /\
    (exists msg,
        RadicacionCmd.ejecutar Ejemplo.reloj
          (RadicacionCmd.ActualizarObservaciones "MGARCIA" "nota") y =
        Fallo y msg).
Proof.
  do 2 eexists.
  split; [vm_compute; reflexivity|].
  split; [vm_compute; reflexivity|].
  split.
  - apply (proj1 X16_estado_final_no_admite_comandos); reflexivity.
  - apply (proj2 X16_estado_final_no_admite_comandos); reflexivity.
Defined.

(** ** The transition tables *)

Lemma traslado_anexar_estado r texto f x :
  Traslado.estado (estado_tras (Traslado.anexar_entrada r texto f x)) =
  Traslado.estado x.
Proof.
  unfold Traslado.anexar_entrada.
  destruct (Observacion.crear_con_timestamp r texto f) as [obs|]; [|reflexivity].
  destruct (Observacion.combinar_observaciones _); reflexivity.
Qed.

Lemma novedad_anexar_estado r texto f x :
  Novedad.estado (estado_tras (Novedad.anexar_entrada r texto f x)) =
  Novedad.estado x.
Proof.
  unfold Novedad.anexar_entrada.
  destruct (Observacion.crear_con_timestamp r texto f) as [obs|]; [|reflexivity].
  destruct (Observacion.combinar_observaciones _); reflexivity.
Qed.

(** The state a command of a transfer leaves, returned or raised. *)
Lemma traslado_paso_estado (r : Reloj) (cmd : TrasladoCmd.t) (x : Traslado.t) :
  Traslado.estado (estado_tras (TrasladoCmd.ejecutar r cmd x)) =
    Traslado.estado x \/
  EstadoTraslado.puede_transicionar_a (Traslado.estado x)
    (Traslado.estado (estado_tras (TrasladoCmd.ejecutar r cmd x)))
    (TrasladoCmd.es_admin_de cmd) = true.
Proof.
  destruct cmd as [f | f obs | f d | f d | f m a | f obs | ];
    cbn [TrasladoCmd.ejecutar TrasladoCmd.es_admin_de].
  - unfold Traslado.marcar_como_revisado, Traslado.puede_pasar_a_revision.
    destruct (Traslado.estado x) eqn:E; reducir_traslado; rewrite ?E; auto.
  - unfold Traslado.completar_traslado, Traslado.puede_completar_traslado.
    destruct (Traslado.estado x) eqn:E; reducir_traslado; rewrite ?E; auto.
    destruct obs as [fin|]; [|reducir_traslado; auto].
    destruct (negb (PyStr.no_vacio fin)); [reducir_traslado; auto|].
    destruct (Observacion.agregar_timestamp_automatico _ _ _) as [o|];
      [|reducir_traslado; auto].
    destruct (Observacion.crear_desde_texto _); reducir_traslado; auto.
  - unfold Traslado.reportar_novedad, Traslado.puede_reportar_novedad.
    destruct (Traslado.estado x) eqn:E; reducir_traslado; rewrite ?E; auto.
    rewrite traslado_anexar_estado. reducir_traslado. auto.
  - unfold Traslado.resolver_novedad, Traslado.puede_resolver_novedad.
    destruct (Traslado.estado x) eqn:E; reducir_traslado; rewrite ?E; auto.
    rewrite traslado_anexar_estado. reducir_traslado. auto.
  - unfold Traslado.devolver_traslado, Traslado.puede_ser_devuelto,
      Traslado.esta_en_estado_final.
    destruct a; destruct (Traslado.estado x) eqn:E; reducir_traslado;
      rewrite ?E; auto;
      rewrite traslado_anexar_estado; reducir_traslado; auto.
  - unfold Traslado.actualizar_observaciones.
    destruct (Traslado.esta_en_estado_final x); [reducir_traslado; auto|].
    pose proof (traslado_anexar_estado r obs f x) as A.
    destruct (Traslado.anexar_entrada r obs f x); cbn [estado_tras] in *;
      left; exact A.
  - reducir_traslado. auto.
Qed.

Lemma radicacion_paso_estado (r : Reloj) (cmd : RadicacionCmd.t)
    (x : Radicacion.t) :
  Radicacion.estado (estado_tras (RadicacionCmd.ejecutar r cmd x)) =
    Radicacion.estado x \/
  EstadoRadicacion.puede_transicionar_a (Radicacion.estado x)
    (Radicacion.estado (estado_tras (RadicacionCmd.ejecutar r cmd x)))
    (RadicacionCmd.es_admin_de cmd) = true.
Proof.
  destruct cmd as [f | f | f obs | f d | f d | f m a | f obs | ];
    cbn [RadicacionCmd.ejecutar RadicacionCmd.es_admin_de].
  - unfold Radicacion.marcar_como_recibida, Radicacion.puede_ser_recibida.
    destruct (Radicacion.estado x) eqn:E; reducir_radicacion; rewrite ?E; auto.
    rewrite radicacion_anexar_estado. reducir_radicacion. auto.
  - unfold Radicacion.marcar_como_revisada, Radicacion.puede_pasar_a_revision.
    destruct (Radicacion.estado x) eqn:E; reducir_radicacion; rewrite ?E; auto.
  - unfold Radicacion.completar_radicacion, Radicacion.puede_completar_radicacion.
    destruct (Radicacion.estado x) eqn:E; reducir_radicacion; rewrite ?E; auto.
    destruct obs as [fin|]; [|reducir_radicacion; auto].
    destruct (negb (PyStr.no_vacio fin)); [reducir_radicacion; auto|].
    destruct (Observacion.agregar_timestamp_automatico _ _ _) as [o|];
      [|reducir_radicacion; auto].
    destruct (Observacion.crear_desde_texto _); reducir_radicacion; auto.
  - unfold Radicacion.reportar_novedad, Radicacion.puede_reportar_novedad.
    destruct (Radicacion.estado x) eqn:E; reducir_radicacion; rewrite ?E; auto.
    rewrite radicacion_anexar_estado. reducir_radicacion. auto.
  - unfold Radicacion.resolver_novedad, Radicacion.puede_resolver_novedad.
    destruct (Radicacion.estado x) eqn:E; reducir_radicacion; rewrite ?E; auto.
    rewrite radicacion_anexar_estado. reducir_radicacion. auto.
  - unfold Radicacion.devolver_radicacion, Radicacion.puede_ser_devuelta,
      Radicacion.esta_en_estado_final.
    destruct a; destruct (Radicacion.estado x) eqn:E; reducir_radicacion;
      rewrite ?E; auto;
      rewrite radicacion_anexar_estado; reducir_radicacion; auto.
  - unfold Radicacion.actualizar_observaciones.
    destruct (Radicacion.esta_en_estado_final x); [reducir_radicacion; auto|].
    pose proof (radicacion_anexar_estado r obs f x) as A.
    destruct (Radicacion.anexar_entrada r obs f x); cbn [estado_tras] in *;
      left; exact A.
  - reducir_radicacion. auto.
Qed.

(** The state a command of an incident leaves: the one it had, or
    EN_REVISION, RESUELTA or REABIERTA by the table. *)
Lemma novedad_paso_estado (r : Reloj) (cmd : NovedadCmd.t) (n : Novedad.t) :
  Novedad.estado (estado_tras (NovedadCmd.ejecutar r cmd n)) = Novedad.estado n \/
  (EstadoNovedad.puede_transicionar_a (Novedad.estado n)
     (Novedad.estado (estado_tras (NovedadCmd.ejecutar r cmd n))) = true /\
   Novedad.estado (estado_tras (NovedadCmd.ejecutar r cmd n)) <>
     EstadoNovedad.PENDIENTE).
Proof.
  destruct cmd as [f | f d | f m | f p j | f o | ]; cbn [NovedadCmd.ejecutar].
  - unfold Novedad.tomar_en_revision, Novedad.puede_pasar_a_revision.
    destruct (negb _) eqn:G; [left; reflexivity|].
    rewrite novedad_anexar_estado. reducir_novedad.
    right. split; [|discriminate].
    apply negb_false_iff in G. exact G.
  - unfold Novedad.resolver_novedad, Novedad.puede_ser_resuelta.
    destruct (negb _) eqn:G; [left; reflexivity|].
    destruct (Novedad.en_blanco d); [left; reflexivity|].
    rewrite novedad_anexar_estado. reducir_novedad.
    right. split; [|discriminate].
    apply negb_false_iff in G. exact G.
  - unfold Novedad.reabrir_novedad, Novedad.puede_ser_reabierta.
    destruct (negb _) eqn:G; [left; reflexivity|].
    destruct (Novedad.en_blanco m); [left; reflexivity|].
    rewrite novedad_anexar_estado. reducir_novedad.
    right. split; [|discriminate].
    apply negb_false_iff in G. exact G.
  - unfold Novedad.cambiar_prioridad.
    destruct (negb _); [left; reflexivity|].
    destruct (PrioridadNovedad.eqb _ _); [left; reflexivity|].
    destruct (Novedad.en_blanco j); [left; reflexivity|].
    rewrite novedad_anexar_estado. left; reflexivity.
  - unfold Novedad.actualizar_observaciones.
    destruct (Novedad.esta_resuelta n); [left; reflexivity|].
    pose proof (novedad_anexar_estado r o f n) as A.
    destruct (Novedad.anexar_entrada r o f n); cbn [estado_tras] in *;
      left; exact A.
  - left; reflexivity.
Qed.

(** X17.  Whatever a command does, returning or raising, the state it
    leaves is the one the object had or one that [puede_transicionar_a]
    allows from it, with the administrator flag of the call; this holds for
    transfers, filings and incidents. *)
Theorem X17_transiciones_segun_tabla :
  (forall (r : Reloj) (cmd : TrasladoCmd.t) (x : Traslado.t),
      Traslado.estado (estado_tras (TrasladoCmd.ejecutar r cmd x)) =
        Traslado.estado x \/
      EstadoTraslado.puede_transicionar_a (Traslado.estado x)
        (Traslado.estado (estado_tras (TrasladoCmd.ejecutar r cmd x)))
        (TrasladoCmd.es_admin_de cmd) = true) /\
  (forall (r : Reloj) (cmd : RadicacionCmd.t) (x : Radicacion.t),
      Radicacion.estado (estado_tras (RadicacionCmd.ejecutar r cmd x)) =
        Radicacion.estado x \/
      EstadoRadicacion.puede_transicionar_a (Radicacion.estado x)
        (Radicacion.estado (estado_tras (RadicacionCmd.ejecutar r cmd x)))
        (RadicacionCmd.es_admin_de cmd) = true) /\
  (forall (r : Reloj) (cmd : NovedadCmd.t) (n : Novedad.t),
      Novedad.estado (estado_tras (NovedadCmd.ejecutar r cmd n)) =
        Novedad.estado n \/
      EstadoNovedad.puede_transicionar_a (Novedad.estado n)
        (Novedad.estado (estado_tras (NovedadCmd.ejecutar r cmd n))) = true).
Proof.
  split; [exact traslado_paso_estado|].
  split; [exact radicacion_paso_estado|].
  intros r cmd n.
  destruct (novedad_paso_estado r cmd n) as [H | [H _]]; auto.
Qed.

Lemma novedad_correr_no_pendiente (cmds : list (Reloj * NovedadCmd.t)) :
  forall n, Novedad.estado n <> EstadoNovedad.PENDIENTE ->
            Novedad.estado (NovedadCmd.correr cmds n) <> EstadoNovedad.PENDIENTE.
Proof.
  induction cmds as [|[r cmd] resto IH]; intros n H; simpl; [exact H|].
  apply IH.
  destruct (novedad_paso_estado r cmd n) as [E | [_ E]];
    [rewrite E; exact H | exact E].
Qed.

(** X18.  The table of [EstadoNovedad] lists PENDIENTE as reachable from
    EN_REVISION, but no command assigns it: an incident that is not
    PENDIENTE is never PENDIENTE again, whatever the run of commands. *)
Theorem X18_novedad_no_vuelve_a_pendiente (n : Novedad.t)
    (cmds : list (Reloj * NovedadCmd.t)) :
  Novedad.estado n <> EstadoNovedad.PENDIENTE ->
  EstadoNovedad.puede_transicionar_a EstadoNovedad.EN_REVISION
    EstadoNovedad.PENDIENTE = true /\
  Novedad.estado (NovedadCmd.correr cmds n) <> EstadoNovedad.PENDIENTE.
Proof.
  intro H. split; [reflexivity|].
  apply novedad_correr_no_pendiente. exact H.
Qed.

(** X18, at the resolved incident, reopened and taken in review. *)
Lemma X18_witness :
  exists n,
    Ejemplo.novedad_resuelta = Ok n /\
    Novedad.estado n <> EstadoNovedad.PENDIENTE /\
    Novedad.estado
      (NovedadCmd.correr
         [(Ejemplo.reloj, NovedadCmd.ReabrirNovedad "R2" "certificado vencido");
          (Ejemplo.reloj, NovedadCmd.TomarEnRevision "R2")] n) <>
      EstadoNovedad.PENDIENTE.
Proof.
  eexists.
  split; [vm_compute; reflexivity|].
  assert (H : EstadoNovedad.RESUELTA <> EstadoNovedad.PENDIENTE) by discriminate.
  split; [exact H|].
  refine (proj2 (X18_novedad_no_vuelve_a_pendiente _ _ _)). exact H.
Defined.

(** ** New transfers and filings *)



(** ** The date of the procedure *)

(** X20.  The constructor of [FechaTramite] returns exactly on the dates
    that [esta_en_rango_permitido] accepts, from 365 days back to 30 days
    ahead; the expiry computed from such a date has between -305 and 90
    days left, and its urgency is [vencida] exactly when the date is more
    than 60 days old. *)
Theorem X20_rango_fecha_tramite (r : Reloj) (d : Z) :
  es_ok (FechaTramite.crear r d) =
    FechaTramite.esta_en_rango_permitido r {| FechaTramite.fecha := d |} /\
  (forall ft, FechaTramite.crear r d = Ok ft ->
     FechaTramite.fecha ft = d /\
     let fv := FechaVencimiento.calcular_desde_tramite ft in
     -305 <= FechaVencimiento.dias_restantes r fv <= 90 /\
     String.eqb (FechaVencimiento.nivel_urgencia r fv) "vencida" =
       (FechaTramite.dias_desde_hoy r ft >? 60)).
Proof.
  unfold FechaTramite.crear, FechaTramite.esta_en_rango_permitido.
  cbn [FechaTramite.fecha].
  destruct (Z.gtb_spec d (hoy r + 30)) as [G|G];
    destruct (Z.ltb_spec d (hoy r - 365)) as [L|L];
    destruct (Z.leb_spec (hoy r - 365) d) as [A|A];
    destruct (Z.leb_spec d (hoy r + 30)) as [B|B]; try lia;
    (split; [reflexivity|]); intros ft H; try discriminate H.
  injection H as <-.
  unfold FechaVencimiento.calcular_desde_tramite, FechaVencimiento.dias_restantes,
    FechaVencimiento.nivel_urgencia, FechaVencimiento.dias_restantes,
    FechaVencimiento.esta_vigente, FechaVencimiento.esta_vencida,
    FechaTramite.dias_desde_hoy.
  cbn [FechaTramite.fecha FechaVencimiento.fecha].
  split; [reflexivity|]. split; [lia|].
  destruct (Z.ltb_spec (d + 60 - hoy r) 0);
    destruct (Z.gtb_spec (hoy r - d) 60); try lia; [reflexivity|].
  destruct (d + 60 - hoy r <=? 3); [reflexivity|].
  destruct (d + 60 - hoy r <=? 7); reflexivity.
Qed.

(** X20, at a date 100 days old. *)
Lemma X20_witness :
  exists ft,
    FechaTramite.crear Ejemplo.reloj 739824 = Ok ft /\
    String.eqb (FechaVencimiento.nivel_urgencia Ejemplo.reloj
                  (FechaVencimiento.calcular_desde_tramite ft)) "vencida" =
      true.
Proof.
  eexists.
  match goal with
  | |- ?h = Ok ?e /\ _ =>
      assert (E : h = Ok e) by (vm_compute; reflexivity); split; [exact E|]
  end.
  destruct (proj2 (X20_rango_fecha_tramite Ejemplo.reloj 739824) _ E)
    as (_ & _ & U).
  rewrite U. reflexivity.
Defined.

(** ** What the constructor of an observation guarantees *)




(** ** Blank text *)

Lemma no_vacio_visible_falso (s : string) :
  tiene_visible s = false ->
  negb (PyStr.no_vacio s) || negb (PyStr.no_vacio (PyStr.strip s)) = true.
Proof.
  intro H. rewrite no_vacio_strip_visible, H. apply orb_true_r.
Qed.

(** X22.  A text without a visible character never makes the constructor
    raise: it gives the empty observation; stamped, it reads as no text at
    all, so [crear_con_timestamp] on it equals [crear_con_timestamp] on the
    empty string. *)
Theorem X22_texto_en_blanco (r : Reloj) (s f : string) :
  tiene_visible s = false ->
  Observacion.crear s = Ok Observacion.vacia /\
  Observacion.crear_con_timestamp r s f = Observacion.crear_con_timestamp r "" f.
Proof.
  intro H.
  assert (E : Observacion.crear s = Ok Observacion.vacia).
  { unfold Observacion.crear, Observacion._normalizar_texto.
    rewrite (no_vacio_visible_falso s H). reflexivity. }
  split; [exact E|].
  unfold Observacion.crear_con_timestamp.
  destruct (PyStr.no_vacio s); [rewrite E|]; reflexivity.
Qed.

(** X22, at a text of spaces and a tab. *)
Lemma X22_witness :
  Observacion.crear ("   " ++ String (ascii_of_nat 9) " ") = Ok Observacion.vacia.
Proof.
  apply (X22_texto_en_blanco Ejemplo.reloj _ "JPEREZ"). reflexivity.
Defined.

(** ** Merging observations *)

(** X23.  [combinar_observaciones] ignores the empty observations: the
    result is that of the list without them, wherever they stand, and a
    list of empty observations (the empty list too) gives the empty
    observation without raising. *)
Theorem X23_combinar_ignora_vacias (l1 l2 : list Observacion.t)
    (v : Observacion.t) :
  Observacion.esta_vacia v = true ->
  Observacion.combinar_observaciones (l1 ++ v :: l2) =
    Observacion.combinar_observaciones (l1 ++ l2) /\
  (forallb Observacion.esta_vacia l1 = true ->
   Observacion.combinar_observaciones l1 = Ok Observacion.vacia).
Proof.
  intro H. unfold Observacion.combinar_observaciones. split.
  - rewrite !filter_app. cbn [filter]. rewrite H. reflexivity.
  - intro A.
    assert (E : filter (fun obs => negb (Observacion.esta_vacia obs)) l1 = []).
    { induction l1 as [|a l IH]; [reflexivity|].
      cbn [forallb] in A. apply andb_true_iff in A. destruct A as [A1 A2].
      cbn [filter]. rewrite A1. exact (IH A2). }
    rewrite E. reflexivity.
Qed.

(** X23, with the empty observation between two texts. *)
Lemma X23_witness :
  Observacion.combinar_observaciones
    [{| Observacion.valor := "uno" |}; Observacion.vacia;
     {| Observacion.valor := "dos" |}] =
  Observacion.combinar_observaciones
    [{| Observacion.valor := "uno" |}; {| Observacion.valor := "dos" |}].
Proof.
  apply (proj1 (X23_combinar_ignora_vacias
                  [{| Observacion.valor := "uno" |}]
                  [{| Observacion.valor := "dos" |}] Observacion.vacia
                  eq_refl)).
Defined.

(** ** Queries on the history *)

Lemma tipo_eqb_eq (a b : HistorialAsignacion.TipoAsignacion) :
  HistorialAsignacion.TipoAsignacion_eqb a b = true -> a = b.
Proof. destruct a, b; simpl; intro H; try reflexivity; discriminate H. Qed.

(** X24.  [get_asignaciones_por_tipo] returns records of the history that
    have the type named, in any case of letters; the seven types split the
    history, so the seven answers have as many records as the history. *)
Theorem X24_asignaciones_por_tipo (c : Cuenta.t) :
  (forall tipo a,
      In a (Cuenta.get_asignaciones_por_tipo c tipo) ->
      In a (Cuenta.historial_asignaciones c) /\
      HistorialAsignacion.TipoAsignacion_de_valor (PyStr.lower tipo) =
        Some (HistorialAsignacion.tipo_asignacion a)) /\
  (List.length (Cuenta.get_asignaciones_por_tipo c "CREACION") +
   List.length (Cuenta.get_asignaciones_por_tipo c "reasignacion") +
   List.length (Cuenta.get_asignaciones_por_tipo c "inicio_proceso") +
   List.length (Cuenta.get_asignaciones_por_tipo c "completar_proceso") +
   List.length (Cuenta.get_asignaciones_por_tipo c "devolver_proceso") +
   List.length (Cuenta.get_asignaciones_por_tipo c "inactivacion") +
   List.length (Cuenta.get_asignaciones_por_tipo c "reactivacion"))%nat =
    List.length (Cuenta.historial_asignaciones c).
Proof.
  split.
  - intros tipo a. unfold Cuenta.get_asignaciones_por_tipo.
    destruct (HistorialAsignacion.TipoAsignacion_de_valor (PyStr.lower tipo))
      as [tp|]; [|intros []].
    intro H. apply filter_In in H. destruct H as [H1 H2].
    split; [exact H1|]. apply tipo_eqb_eq in H2. rewrite H2. reflexivity.
  - unfold Cuenta.get_asignaciones_por_tipo.
    change (HistorialAsignacion.TipoAsignacion_de_valor (PyStr.lower "CREACION"))
      with (Some HistorialAsignacion.CREACION).
    change (HistorialAsignacion.TipoAsignacion_de_valor (PyStr.lower "reasignacion"))
      with (Some HistorialAsignacion.REASIGNACION).
    change (HistorialAsignacion.TipoAsignacion_de_valor (PyStr.lower "inicio_proceso"))
      with (Some HistorialAsignacion.INICIO_PROCESO).
    change (HistorialAsignacion.TipoAsignacion_de_valor (PyStr.lower "completar_proceso"))
      with (Some HistorialAsignacion.COMPLETAR_PROCESO).
    change (HistorialAsignacion.TipoAsignacion_de_valor (PyStr.lower "devolver_proceso"))
      with (Some HistorialAsignacion.DEVOLVER_PROCESO).
    change (HistorialAsignacion.TipoAsignacion_de_valor (PyStr.lower "inactivacion"))
      with (Some HistorialAsignacion.INACTIVACION).
    change (HistorialAsignacion.TipoAsignacion_de_valor (PyStr.lower "reactivacion"))
      with (Some HistorialAsignacion.REACTIVACION).
    cbv iota beta.
    induction (Cuenta.historial_asignaciones c) as [|a h IH]; [reflexivity|].
    cbn [filter List.length].
    destruct (HistorialAsignacion.tipo_asignacion a);
      cbn [HistorialAsignacion.TipoAsignacion_eqb List.length]; lia.
Qed.

(** X24, at one answer on a new account. *)
Lemma X24_witness :
  exists c a,
    Ejemplo.cuenta_nueva = Ok c /\
    Cuenta.get_asignaciones_por_tipo c "Creacion" = [a] /\
    In a (Cuenta.historial_asignaciones c).
Proof.
  do 2 eexists.
  split; [vm_compute; reflexivity|].
  match goal with
  | |- ?h = [?e] /\ _ =>
      assert (E : h = [e]) by (vm_compute; reflexivity); split; [exact E|]
  end.
  refine (proj1 (proj1 (X24_asignaciones_por_tipo _) "Creacion" _ _)).
  rewrite E. left. reflexivity.
Defined.

(** ** The official in charge *)





(** ** The longest motive of a return *)















(** ** Account numbers generated for today *)

Lemma codigo_digito (n : Z) :
  PyStr.codigo (NumeroCuenta.digito n) = 48 + n mod 10.
Proof.
  unfold PyStr.codigo, NumeroCuenta.digito.
  pose proof (Z.mod_pos_bound n 10 ltac:(lia)) as B.
  rewrite nat_ascii_embedding by lia.
  rewrite Z2Nat.id by lia. reflexivity.
Qed.

Lemma es_digito_digito (n : Z) : PyStr.es_digito (NumeroCuenta.digito n) = true.
Proof.
  unfold PyStr.es_digito, PyStr.entre. rewrite codigo_digito.
  pose proof (Z.mod_pos_bound n 10 ltac:(lia)) as B.
  apply andb_true_iff. split; apply Z.leb_le; lia.
Qed.

Lemma solo_digitos_app (a b : string) :
  NumeroCuenta.solo_digitos (a ++ b) =
  NumeroCuenta.solo_digitos a ++ NumeroCuenta.solo_digitos b.
Proof.
  induction a as [|c a IH]; cbn [append NumeroCuenta.solo_digitos]; [reflexivity|].
  destruct (PyStr.es_digito c); cbn [append]; rewrite IH; reflexivity.
Qed.

Lemma solo_digitos_cinco (k : Z) :
  NumeroCuenta.solo_digitos (NumeroCuenta.cinco_digitos k) =
  NumeroCuenta.cinco_digitos k.
Proof.
  unfold NumeroCuenta.cinco_digitos. cbn [NumeroCuenta.solo_digitos].
  rewrite !es_digito_digito. reflexivity.
Qed.

Lemma a_entero_cinco (k : Z) :
  0 <= k <= 99999 ->
  NumeroCuenta.a_entero (NumeroCuenta.cinco_digitos k) = k.
Proof.
  intro B.
  unfold NumeroCuenta.a_entero, NumeroCuenta.cinco_digitos.
  cbn [NumeroCuenta.a_entero_aux]. rewrite !codigo_digito.
  Z.to_euclidean_division_equations. lia.
Qed.

Lemma ocho_caracteres (s : string) :
  String.length s = 8%nat ->
  exists c1 c2 c3 c4 c5 c6 c7 c8,
    s = String c1 (String c2 (String c3 (String c4 (String c5 (String c6
          (String c7 (String c8 EmptyString))))))).
Proof.
  intro L.
  destruct s as [|c1 s]; [discriminate L|].
  destruct s as [|c2 s]; [discriminate L|].
  destruct s as [|c3 s]; [discriminate L|].
  destruct s as [|c4 s]; [discriminate L|].
  destruct s as [|c5 s]; [discriminate L|].
  destruct s as [|c6 s]; [discriminate L|].
  destruct s as [|c7 s]; [discriminate L|].
  destruct s as [|c8 s]; [discriminate L|].
  destruct s as [|c9 s]; [|discriminate L].
  exists c1, c2, c3, c4, c5, c6, c7, c8. reflexivity.
Qed.

(** The number made of today and a consecutive between 1 and 99999 passes
    every check of the constructor. *)
Lemma numero_de_hoy (r : Reloj) (k : Z) :
  reloj_de_calendario r ->
  1 <= k <= 99999 ->
  NumeroCuenta.crear r (hoy_yyyymmdd r ++ NumeroCuenta.cinco_digitos k) =
    Ok {| NumeroCuenta.valor := hoy_yyyymmdd r ++ NumeroCuenta.cinco_digitos k |} /\
  NumeroCuenta.a_entero
    (substring 8 5 (hoy_yyyymmdd r ++ NumeroCuenta.cinco_digitos k)) = k /\
  NumeroCuenta.get_fecha_de (hoy_yyyymmdd r ++ NumeroCuenta.cinco_digitos k) =
    hoy r.
Proof.
  intros (L & D & V & O) B.
  assert (C : NumeroCuenta.a_entero (NumeroCuenta.cinco_digitos k) = k)
    by (apply a_entero_cinco; lia).
  revert D V O C.
  destruct (ocho_caracteres _ L) as (c1 & c2 & c3 & c4 & c5 & c6 & c7 & c8 & ->).
  set (s := String c1 (String c2 (String c3 (String c4 (String c5 (String c6
              (String c7 (String c8 EmptyString)))))))).
  set (t := NumeroCuenta.cinco_digitos k).
  intros D V O C.
  assert (S : substring 8 5 (s ++ t) = t) by reflexivity.
  assert (G : NumeroCuenta.get_fecha_de (s ++ t) = hoy r) by exact O.
  split; [|split; [rewrite S; exact C | exact G]].
  unfold NumeroCuenta.crear.
  assert (N : PyStr.no_vacio (s ++ t) = true) by reflexivity.
  rewrite N. cbn [negb]. cbv zeta.
  assert (E : NumeroCuenta.solo_digitos (s ++ t) = s ++ t).
  { rewrite solo_digitos_app, D. subst t. rewrite solo_digitos_cinco.
    reflexivity. }
  rewrite E.
  assert (F : NumeroCuenta._es_formato_valido (s ++ t) = true) by reflexivity.
  rewrite F. cbn [negb].
  assert (V' : NumeroCuenta._es_fecha_valida (s ++ t) = true) by exact V.
  rewrite V'. cbn [negb].
  unfold NumeroCuenta._es_consecutivo_valido. rewrite S, C.
  destruct (Z.leb_spec 1 k); [|lia].
  destruct (Z.leb_spec k 99999); [|lia].
  cbn [andb negb]. rewrite G.
  rewrite Z.gtb_ltb, Z.ltb_irrefl. reflexivity.
Qed.

(** X27.  On a clock that prints the day it counts, [generar_para_hoy]
    returns exactly for the consecutives from 1 to 99999; the number it
    returns is the eight digits of today followed by the consecutive in
    five digits, and [get_consecutivo] and [get_fecha] read the consecutive
    and today back from it. *)
Theorem X27_numero_generado (r : Reloj) (k : Z) :
  reloj_de_calendario r ->
  es_ok (NumeroCuenta.generar_para_hoy r k) = (1 <=? k) && (k <=? 99999) /\
  forall n, NumeroCuenta.generar_para_hoy r k = Ok n ->
    NumeroCuenta.valor n = hoy_yyyymmdd r ++ NumeroCuenta.cinco_digitos k /\
    NumeroCuenta.get_consecutivo n = k /\
    NumeroCuenta.get_fecha n = hoy r.
Proof.
  intro R. unfold NumeroCuenta.generar_para_hoy.
  destruct (Z.ltb_spec k 1) as [A|A];
    [split; [destruct (Z.leb_spec 1 k); [lia | reflexivity] | discriminate]|].
  destruct (Z.gtb_spec k 99999) as [B|B].
  { split; [|discriminate].
    destruct (Z.leb_spec 1 k); destruct (Z.leb_spec k 99999);
      try reflexivity; lia. }
  cbn [orb].
  destruct (numero_de_hoy r k R ltac:(lia)) as (E & C & G).
  rewrite E. split.
  - destruct (Z.leb_spec 1 k); destruct (Z.leb_spec k 99999);
      try reflexivity; lia.
  - intros n H. injection H as <-.
    unfold NumeroCuenta.get_consecutivo, NumeroCuenta.get_fecha.
    cbn [NumeroCuenta.valor].
    split; [reflexivity|]. split; [exact C | exact G].
Qed.

Lemma reloj_ejemplo_de_calendario : reloj_de_calendario Ejemplo.reloj.
Proof.
  split; [reflexivity|]. split; [reflexivity|].
  split; vm_compute; reflexivity.
Qed.

(** X27, at the consecutive 42 of the sample day. *)
Lemma X27_witness :
  exists n,
    NumeroCuenta.generar_para_hoy Ejemplo.reloj 42 = Ok n /\
    NumeroCuenta.valor n = "2026110400042" /\
    NumeroCuenta.get_consecutivo n = 42.
Proof.
  eexists.
  match goal with
  | |- ?h = Ok ?e /\ _ =>
      assert (E : h = Ok e) by (vm_compute; reflexivity); split; [exact E|]
  end.
  destruct (proj2 (X27_numero_generado Ejemplo.reloj 42
                     reloj_ejemplo_de_calendario) _ E) as (V & C & _).
  split; [rewrite V; reflexivity | exact C].
Defined.

(** ** When a new account is created *)


